(** * Prerequisite-gated task dispatch: the node-red-rmf demo scripts

    A shallow embedding of [nodes/demo_scripts/dispatch_arm_task.py] and
    [nodes/demo_scripts/dispatch_couple_decouple_action.py].

    The two scripts are ROS 2 nodes.  Each node is modelled as a record of
    the attributes the script keeps on [self], together with the effects
    it has on the transport (messages published, service calls sent,
    subscriptions created, log records).  Methods are computations in a
    small state-and-exception monad; a Python exception is the outcome
    [Raise], and a [while] loop that has not finished within its fuel is
    the outcome [Spin]. *)

From Stdlib Require Import ZArith List String Bool Lia Permutation.
Import ListNotations.
Local Open Scope string_scope.
Local Open Scope Z_scope.
Local Open Scope list_scope.

Set Warnings "-register-all".

(** ** Python values *)

(** The values [json.loads] yields and [json.dumps] accepts.  A [dict]
    keeps its keys in insertion order, so it is an association list. *)
Inductive json : Type :=
| JNull
| JBool (b : bool)
| JInt (z : Z)
| JStr (s : string)
| JList (xs : list json)
| JDict (kvs : list (string * json)).

(** [d[k] = v] on the items of a dict: an existing key keeps its place. *)
Fixpoint dict_set (k : string) (v : json) (kvs : list (string * json))
  : list (string * json) :=
  match kvs with
  | [] => [(k, v)]
  | (k', v') :: rest =>
      if String.eqb k' k then (k, v) :: rest else (k', v') :: dict_set k v rest
  end.

Fixpoint dict_get (k : string) (kvs : list (string * json)) : option json :=
  match kvs with
  | [] => None
  | (k', v') :: rest => if String.eqb k' k then Some v' else dict_get k rest
  end.

(** [j[k]] for reading a field of a payload. *)
Definition getitem (k : string) (j : json) : option json :=
  match j with
  | JDict kvs => dict_get k kvs
  | _ => None
  end.

(** [j[k] = v]: only a dict supports item assignment by a string key;
    [None] stands for the [TypeError] every other value raises. *)
Definition setitem (k : string) (v : json) (j : json) : option json :=
  match j with
  | JDict kvs => Some (JDict (dict_set k v kvs))
  | _ => None
  end.

(** Truth value of a [str] and of an optional [str] ([None] or a string). *)
Definition truthy (s : string) : bool := negb (String.eqb s "").

Definition truthy_opt (o : option string) : bool :=
  match o with
  | Some s => truthy s
  | None => false
  end.

(** An f-string: the concatenation of its parts. *)
Definition fstr (parts : list string) : string := String.concat "" parts.

(** [round(n / d)] for integers [n >= 0] and [d > 0]: the nearest integer,
    a tie going to the even one.  Python divides in floating point; for a
    numerator below 2^32 and [d = 10^6] the float quotient lies on the same
    side of every half-integer as the exact quotient, so the rounding is
    the one of the exact quotient. *)
Definition round_div (n d : Z) : Z :=
  let q := n / d in
  let r := n mod d in
  if 2 * r <? d then q
  else if d <? 2 * r then q + 1
  else if Z.even q then q else q + 1.

(** [builtin_interfaces/Time], as [Clock.now().to_msg()] returns it. *)
Record Time : Type := { sec : Z; nanosec : Z }.

(** ** Exceptions, outcomes and the method monad *)

Inductive exn : Type :=
| JSONDecodeError
| TypeError
| ValueError (msg : string)
| AttributeError (msg : string).

Inductive outcome (A : Type) : Type :=
| Ret (a : A)
| Raise (e : exn)
| Spin.

Arguments Ret {A} a.
Arguments Raise {A} e.
Arguments Spin {A}.

Definition M (St A : Type) : Type := St -> outcome A * St.

Definition ret {St A : Type} (a : A) : M St A := fun s => (Ret a, s).

Definition bind {St A B : Type} (c : M St A) (k : A -> M St B) : M St B :=
  fun s =>
    match c s with
    | (Ret a, s') => k a s'
    | (Raise e, s') => (Raise e, s')
    | (Spin, s') => (Spin, s')
    end.

Definition raise {St A : Type} (e : exn) : M St A := fun s => (Raise e, s).

Definition spin {St A : Type} : M St A := fun s => (Spin, s).

Definition gets {St A : Type} (f : St -> A) : M St A := fun s => (Ret (f s), s).

Definition modify {St : Type} (f : St -> St) : M St unit := fun s => (Ret tt, f s).

Declare Scope method_scope.
Delimit Scope method_scope with method.

Notation "x <- c1 ;; c2" := (bind c1 (fun x => c2))
  (at level 100, c1 at next level, right associativity) : method_scope.
Notation "c1 ;; c2" := (bind c1 (fun _ => c2))
  (at level 100, right associativity) : method_scope.

Local Open Scope method_scope.

(** Log records of [get_logger()]. *)
Inductive Level : Type := INFO | WARN | ERROR.

(** [asyncio.Future]: pending, cancelled, or holding a result. *)
Inductive Future : Type :=
| Pending
| Cancelled
| Done (r : json).

(** [Future.cancel()]: a future that is already done stays as it is. *)
Definition cancel (f : Future) : Future :=
  match f with
  | Pending => Cancelled
  | _ => f
  end.

(** [rmf_task_msgs/ApiRequest]. *)
Record ApiRequest : Type := { request_id : string; json_msg : string }.

(** What both scripts take from outside: the [json] module, the reading
    of the node clock ([self.get_clock().now().to_msg()]) and
    [str(uuid.uuid4())].  [json_loads] is [None] where [json.loads]
    raises. *)
Class Runtime : Type := {
  json_loads : string -> option json;
  json_dumps : json -> string;
  clock_now : Time;
  uuid4 : string
}.

(** * dispatch_arm_task.py *)

Module DispatchArmTask.

(** The parsed command line ([self.args]).  [--object_name] and
    [--object_name2] have no default, so they are [None] when absent. *)
Record Args : Type := {
  fleet : string;
  robot : string;
  places : list string;
  action : string;
  action_desc : string;
  object_name : option string;
  action2 : string;
  action_desc2 : string;
  object_name2 : option string;
  start_time : Z;
  priority : Z;
  use_sim_time : bool
}.

(** [rmf_mm_msgs/srv/CheckMmZone] response, the fields the script reads. *)
Record CheckMmZone_Response : Type := {
  is_mm_zone : bool;
  zone_name : string;
  result : string
}.

(** [rmf_mm_msgs/srv/CheckEffector] response. *)
Record CheckEffector_Response : Type := { effector_ready : bool }.

(** A service call sent with [call_async], with the slot its done-callback
    was bound to. *)
Inductive Request : Type :=
| ZoneRequest (object : string) (is_second : bool)
| EffectorQuery (robot_name action_name : string) (is_second : bool).

(** The node: the attributes of [self], then what the transport saw. *)
Record Node : Type := {
  args : Args;
  response : Future;
  msg_request_id : string;
  object_zone_name : option string;
  object_zone_name2 : option string;
  zone_requests_pending : Z;
  effector_checks_pending : Z;
  sim_time : bool;
  (* messages handed to [task_pub.publish], oldest first *)
  published : list ApiRequest;
  (* requests handed to [call_async], oldest first *)
  calls : list Request;
  (* calls of [wait_for_service] made so far on each client *)
  zone_waits : nat;
  effector_waits : nat;
  (* subscriptions to [task_api_responses] created so far *)
  subscriptions : nat;
  log : list (Level * string)
}.

Definition set_response (v : Future) (n : Node) : Node :=
  {| args := args n; response := v; msg_request_id := msg_request_id n;
     object_zone_name := object_zone_name n;
     object_zone_name2 := object_zone_name2 n;
     zone_requests_pending := zone_requests_pending n;
     effector_checks_pending := effector_checks_pending n;
     sim_time := sim_time n; published := published n; calls := calls n;
     zone_waits := zone_waits n; effector_waits := effector_waits n;
     subscriptions := subscriptions n; log := log n |}.

Definition set_msg_request_id (v : string) (n : Node) : Node :=
  {| args := args n; response := response n; msg_request_id := v;
     object_zone_name := object_zone_name n;
     object_zone_name2 := object_zone_name2 n;
     zone_requests_pending := zone_requests_pending n;
     effector_checks_pending := effector_checks_pending n;
     sim_time := sim_time n; published := published n; calls := calls n;
     zone_waits := zone_waits n; effector_waits := effector_waits n;
     subscriptions := subscriptions n; log := log n |}.

Definition set_object_zone_name (v : option string) (n : Node) : Node :=
  {| args := args n; response := response n; msg_request_id := msg_request_id n;
     object_zone_name := v;
     object_zone_name2 := object_zone_name2 n;
     zone_requests_pending := zone_requests_pending n;
     effector_checks_pending := effector_checks_pending n;
     sim_time := sim_time n; published := published n; calls := calls n;
     zone_waits := zone_waits n; effector_waits := effector_waits n;
     subscriptions := subscriptions n; log := log n |}.

Definition set_object_zone_name2 (v : option string) (n : Node) : Node :=
  {| args := args n; response := response n; msg_request_id := msg_request_id n;
     object_zone_name := object_zone_name n;
     object_zone_name2 := v;
     zone_requests_pending := zone_requests_pending n;
     effector_checks_pending := effector_checks_pending n;
     sim_time := sim_time n; published := published n; calls := calls n;
     zone_waits := zone_waits n; effector_waits := effector_waits n;
     subscriptions := subscriptions n; log := log n |}.

Definition set_zone_requests_pending (v : Z) (n : Node) : Node :=
  {| args := args n; response := response n; msg_request_id := msg_request_id n;
     object_zone_name := object_zone_name n;
     object_zone_name2 := object_zone_name2 n;
     zone_requests_pending := v;
     effector_checks_pending := effector_checks_pending n;
     sim_time := sim_time n; published := published n; calls := calls n;
     zone_waits := zone_waits n; effector_waits := effector_waits n;
     subscriptions := subscriptions n; log := log n |}.

Definition set_effector_checks_pending (v : Z) (n : Node) : Node :=
  {| args := args n; response := response n; msg_request_id := msg_request_id n;
     object_zone_name := object_zone_name n;
     object_zone_name2 := object_zone_name2 n;
     zone_requests_pending := zone_requests_pending n;
     effector_checks_pending := v;
     sim_time := sim_time n; published := published n; calls := calls n;
     zone_waits := zone_waits n; effector_waits := effector_waits n;
     subscriptions := subscriptions n; log := log n |}.

Definition set_sim_time (v : bool) (n : Node) : Node :=
  {| args := args n; response := response n; msg_request_id := msg_request_id n;
     object_zone_name := object_zone_name n;
     object_zone_name2 := object_zone_name2 n;
     zone_requests_pending := zone_requests_pending n;
     effector_checks_pending := effector_checks_pending n;
     sim_time := v; published := published n; calls := calls n;
     zone_waits := zone_waits n; effector_waits := effector_waits n;
     subscriptions := subscriptions n; log := log n |}.

Definition set_published (v : list ApiRequest) (n : Node) : Node :=
  {| args := args n; response := response n; msg_request_id := msg_request_id n;
     object_zone_name := object_zone_name n;
     object_zone_name2 := object_zone_name2 n;
     zone_requests_pending := zone_requests_pending n;
     effector_checks_pending := effector_checks_pending n;
     sim_time := sim_time n; published := v; calls := calls n;
     zone_waits := zone_waits n; effector_waits := effector_waits n;
     subscriptions := subscriptions n; log := log n |}.

Definition set_calls (v : list Request) (n : Node) : Node :=
  {| args := args n; response := response n; msg_request_id := msg_request_id n;
     object_zone_name := object_zone_name n;
     object_zone_name2 := object_zone_name2 n;
     zone_requests_pending := zone_requests_pending n;
     effector_checks_pending := effector_checks_pending n;
     sim_time := sim_time n; published := published n; calls := v;
     zone_waits := zone_waits n; effector_waits := effector_waits n;
     subscriptions := subscriptions n; log := log n |}.

Definition set_zone_waits (v : nat) (n : Node) : Node :=
  {| args := args n; response := response n; msg_request_id := msg_request_id n;
     object_zone_name := object_zone_name n;
     object_zone_name2 := object_zone_name2 n;
     zone_requests_pending := zone_requests_pending n;
     effector_checks_pending := effector_checks_pending n;
     sim_time := sim_time n; published := published n; calls := calls n;
     zone_waits := v; effector_waits := effector_waits n;
     subscriptions := subscriptions n; log := log n |}.

Definition set_effector_waits (v : nat) (n : Node) : Node :=
  {| args := args n; response := response n; msg_request_id := msg_request_id n;
     object_zone_name := object_zone_name n;
     object_zone_name2 := object_zone_name2 n;
     zone_requests_pending := zone_requests_pending n;
     effector_checks_pending := effector_checks_pending n;
     sim_time := sim_time n; published := published n; calls := calls n;
     zone_waits := zone_waits n; effector_waits := v;
     subscriptions := subscriptions n; log := log n |}.

Definition set_subscriptions (v : nat) (n : Node) : Node :=
  {| args := args n; response := response n; msg_request_id := msg_request_id n;
     object_zone_name := object_zone_name n;
     object_zone_name2 := object_zone_name2 n;
     zone_requests_pending := zone_requests_pending n;
     effector_checks_pending := effector_checks_pending n;
     sim_time := sim_time n; published := published n; calls := calls n;
     zone_waits := zone_waits n; effector_waits := effector_waits n;
     subscriptions := v; log := log n |}.

Definition set_log (v : list (Level * string)) (n : Node) : Node :=
  {| args := args n; response := response n; msg_request_id := msg_request_id n;
     object_zone_name := object_zone_name n;
     object_zone_name2 := object_zone_name2 n;
     zone_requests_pending := zone_requests_pending n;
     effector_checks_pending := effector_checks_pending n;
     sim_time := sim_time n; published := published n; calls := calls n;
     zone_waits := zone_waits n; effector_waits := effector_waits n;
     subscriptions := subscriptions n; log := v |}.

(** The node as lines 148-156 of [__init__] leave it, before the branch
    on the action. *)
Definition new_node (a : Args) : Node :=
  {| args := a; response := Pending; msg_request_id := "";
     object_zone_name := None; object_zone_name2 := None;
     zone_requests_pending := 0; effector_checks_pending := 0;
     sim_time := false; published := []; calls := [];
     zone_waits := 0%nat; effector_waits := 0%nat;
     subscriptions := 0%nat; log := [] |}.

(** A done-callback the executor delivers: the service future of a slot
    completed, with the value [future.result()] returns ([None] when the
    call failed). *)
Inductive Completion : Type :=
| ZoneDone (is_second : bool) (res : option CheckMmZone_Response)
| EffectorDone (is_second : bool) (res : option CheckEffector_Response).

(** The two service servers as the node sees them: the answer of the k-th
    call of [wait_for_service] on each client, and the [str()] of an
    effector response (the message class is generated code). *)
Class Services : Type := {
  zone_service_ready : nat -> bool;
  effector_service_ready : nat -> bool;
  repr_effector_response : CheckEffector_Response -> string
}.

(** ** The methods of [TaskRequester] *)

Section Methods.

Context `{Runtime} `{Services}.

Definition logger (l : Level) (s : string) : M Node unit :=
  modify (fun n => set_log (log n ++ [(l, s)]) n).

(** [self.response.cancel()] *)
Definition response_cancel : M Node unit :=
  modify (fun n => set_response (cancel (response n)) n).

Definition call_async (r : Request) : M Node unit :=
  modify (fun n => set_calls (calls n ++ [r]) n).

Definition publish (msg : ApiRequest) : M Node unit :=
  modify (fun n => set_published (published n ++ [msg]) n).

Definition create_subscription : M Node unit :=
  modify (fun n => set_subscriptions (S (subscriptions n)) n).

Definition zone_wait_for_service : M Node bool :=
  fun n => (Ret (zone_service_ready (zone_waits n)),
            set_zone_waits (S (zone_waits n)) n).

Definition effector_wait_for_service : M Node bool :=
  fun n => (Ret (effector_service_ready (effector_waits n)),
            set_effector_waits (S (effector_waits n)) n).

(** [json.loads(s)], raising on a malformed document. *)
Definition loads {St : Type} (s : string) : M St json :=
  match json_loads s with
  | Some j => ret j
  | None => raise JSONDecodeError
  end.

(** [d[k] = v] as a statement. *)
Definition assign_item {St : Type} (k : string) (v : json) (d : json) : M St json :=
  match setitem k v d with
  | Some d' => ret d'
  | None => raise TypeError
  end.

(** [activities.append(x)]: the closure's list is the state. *)
Definition append (x : json) : M (list json) unit :=
  modify (fun activities => activities ++ [x]).

(** The helper closure of [create_dispatch_arm_task] (lines 319-356). *)
Definition add_action_activities (action : string) (object_name : option string)
    (zone_name : option string) (action_desc : string) (places : list string)
  : M (list json) unit :=
  action_desc_dict <- loads action_desc ;;
  if truthy_opt object_name then
    match zone_name with
    | Some zone =>
        action_desc_dict <- assign_item "zone_name" (JStr zone) action_desc_dict ;;
        append
          (JDict
             [("category", JStr "zone");
              ("description",
               JDict [("zone", JStr zone);
                      ("places", JList (map JStr places))])]) ;;
        append
          (JDict
             [("category", JStr "perform_action");
              ("description",
               JDict [("unix_millis_action_duration_estimate", JInt 60000);
                      ("category", JStr action);
                      ("description", action_desc_dict)])])
    | None => ret tt
    end
  else
    append
      (JDict
         [("category", JStr "perform_action");
          ("description",
           JDict [("unix_millis_action_duration_estimate", JInt 60000);
                  ("category", JStr action);
                  ("description", action_desc_dict)])]).

(** Runs the closure calls on a fresh [activities = []]; an exception
    leaves the method with the node as it is. *)
Definition with_activities (c : M (list json) unit) : M Node (list json) :=
  fun n =>
    match c [] with
    | (Ret _, activities) => (Ret activities, n)
    | (Raise e, _) => (Raise e, n)
    | (Spin, _) => (Spin, n)
    end.

(** Lines 309-312: the offset is added to the seconds, then the time is
    taken to milliseconds. *)
Definition start_time_millis (now : Time) (offset : Z) : Z :=
  let now_sec := sec now + offset in
  now_sec * 1000 + round_div (nanosec now) (10 ^ 6).

(** Lines 297-392 of [create_dispatch_arm_task]: the [payload] dict as
    it stands when it is serialised. *)
Definition dispatch_arm_task_payload : M Node json :=
  a <- gets args ;;
  payload <-
    (if truthy (fleet a) && truthy (robot a) then
       logger INFO "Using 'robot_task_request'" ;;
       ret (dict_set "fleet" (JStr (fleet a))
              (dict_set "robot" (JStr (robot a))
                 (dict_set "type" (JStr "robot_task_request") [])))
     else
       logger INFO "Using 'dispatch_task_request'" ;;
       ret (dict_set "type" (JStr "dispatch_task_request") [])) ;;
  let start_time := start_time_millis clock_now (start_time a) in
  zone1 <- gets object_zone_name ;;
  zone2 <- gets object_zone_name2 ;;
  activities <-
    with_activities
      (add_action_activities (action a) (object_name a) zone1
         (action_desc a) (places a) ;;
       if truthy (action2 a) then
         add_action_activities (action2 a) (object_name2 a) zone2
           (action_desc2 a) (places a)
       else ret tt) ;;
  let request :=
    JDict
      [("category", JStr "compose");
       ("description",
        JDict
          [("category", JStr (action a));
           ("phases",
            JList
              [JDict
                 [("activity",
                   JDict
                     [("category", JStr "sequence");
                      ("description",
                       JDict [("activities", JList activities)])])]])]);
       ("unix_millis_earliest_start_time", JInt start_time)] in
  ret (JDict (dict_set "request" request payload)).

(** [create_dispatch_arm_task]: the request id (line 296), the payload,
    and its serialisation into the message (line 393). *)
Definition create_dispatch_arm_task : M Node ApiRequest :=
  let msg_request_id := ("dispatch_arm_task_" ++ uuid4)%string in
  payload <- dispatch_arm_task_payload ;;
  ret {| request_id := msg_request_id; json_msg := json_dumps payload |}.

Definition send_dispatch_arm_task : M Node unit :=
  msg <- create_dispatch_arm_task ;;
  publish msg ;;
  modify (set_msg_request_id (request_id msg)) ;;
  create_subscription.

Definition check_if_ready_to_dispatch : M Node unit :=
  zone_pending <- gets zone_requests_pending ;;
  effector_pending <- gets effector_checks_pending ;;
  if (zone_pending =? 0) && (effector_pending =? 0) then
    logger INFO "All checks complete, dispatching task" ;;
    send_dispatch_arm_task
  else ret tt.

Definition zone_request_service_callback
    (res : option CheckMmZone_Response) (is_second : bool) : M Node unit :=
  match res with
  | None =>
      logger ERROR "Service call failed" ;;
      response_cancel
  | Some r =>
      if negb (is_mm_zone r) || negb (truthy (zone_name r)) then
        logger WARN (fstr ["Result: "; result r]) ;;
        response_cancel
      else
        (if is_second then
           modify (set_object_zone_name2 (Some (zone_name r))) ;;
           logger INFO (fstr ["Result (action2): "; result r])
         else
           modify (set_object_zone_name (Some (zone_name r))) ;;
           logger INFO (fstr ["Result: "; result r])) ;;
        modify (fun n =>
                  set_zone_requests_pending (zone_requests_pending n - 1) n) ;;
        check_if_ready_to_dispatch
  end.

Definition effector_query_service_callback
    (res : option CheckEffector_Response) (is_second : bool) : M Node unit :=
  match res with
  | None =>
      logger ERROR "Service call failed" ;;
      response_cancel
  | Some r =>
      let action_label := if is_second then "action2" else "action" in
      if negb (effector_ready r) then
        logger WARN (fstr ["Effector not ready for "; action_label]) ;;
        response_cancel
      else
        logger INFO
          (fstr ["Service call succeeded for "; action_label; ": ";
                 repr_effector_response r]) ;;
        modify (fun n =>
                  set_effector_checks_pending (effector_checks_pending n - 1) n) ;;
        check_if_ready_to_dispatch
  end.

(** The [while not ...wait_for_service(timeout_sec=5.0)] loops: [fuel]
    bounds the number of calls of [wait_for_service] the model follows. *)
Fixpoint wait_for_zone_service (fuel : nat) : M Node unit :=
  match fuel with
  | O => spin
  | S fuel' =>
      ready <- zone_wait_for_service ;;
      if ready then ret tt
      else
        logger INFO "Waiting for mm_zone_query to become available..." ;;
        wait_for_zone_service fuel'
  end.

Fixpoint wait_for_effector_service (fuel : nat) : M Node unit :=
  match fuel with
  | O => spin
  | S fuel' =>
      ready <- effector_wait_for_service ;;
      if ready then ret tt
      else
        a <- gets args ;;
        logger INFO
          (fstr ["Waiting for "; fleet a;
                 "_effector_query to become available..."]) ;;
        wait_for_effector_service fuel'
  end.

Definition send_zone_request (fuel : nat) (object_name : string)
    (is_second : bool) : M Node unit :=
  wait_for_zone_service fuel ;;
  logger INFO
    (fstr ["Sending request to check zone for object ["; object_name; "]"]) ;;
  call_async (ZoneRequest object_name is_second).

Definition send_effector_query (fuel : nat) (action_name : string)
    (is_second : bool) : M Node unit :=
  wait_for_effector_service fuel ;;
  a <- gets args ;;
  logger INFO
    (fstr ["Sending request to check effector for action ["; action_name; "]"]) ;;
  call_async (EffectorQuery (robot a) action_name is_second).

(** [if name: send_zone_request(name, ...)] for an optional name. *)
Definition when_named (o : option string) (k : string -> M Node unit) : M Node unit :=
  match o with
  | Some s => if truthy s then k s else ret tt
  | None => ret tt
  end.

(** Lines 142-181 of [__init__], on the node of [new_node]. *)
Definition __init__ (fuel : nat) : M Node unit :=
  a <- gets args ;;
  (if use_sim_time a then
     logger INFO "Using Sim Time" ;;
     modify (set_sim_time true)
   else ret tt) ;;
  if String.eqb (action a) "arm_action" then send_dispatch_arm_task
  else
    (if truthy_opt (object_name a) then
       modify (fun n =>
                 set_zone_requests_pending (zone_requests_pending n + 1) n)
     else ret tt) ;;
    (if truthy (action2 a) && truthy_opt (object_name2 a) then
       modify (fun n =>
                 set_zone_requests_pending (zone_requests_pending n + 1) n)
     else ret tt) ;;
    modify (fun n =>
              set_effector_checks_pending (effector_checks_pending n + 1) n) ;;
    (if truthy (action2 a) then
       modify (fun n =>
                 set_effector_checks_pending (effector_checks_pending n + 1) n)
     else ret tt) ;;
    when_named (object_name a) (fun o => send_zone_request fuel o false) ;;
    (if truthy (action2 a) then
       when_named (object_name2 a) (fun o => send_zone_request fuel o true)
     else ret tt) ;;
    send_effector_query fuel (action a) false ;;
    (if truthy (action2 a) then send_effector_query fuel (action2 a) true
     else ret tt).

(** [TaskRequester(argv)]: the constructor on a parsed command line. *)
Definition TaskRequester (fuel : nat) (a : Args) : outcome unit * Node :=
  __init__ fuel (new_node a).

(** The executor runs one done-callback at a time. *)
Definition deliver (c : Completion) : M Node unit :=
  match c with
  | ZoneDone is_second res => zone_request_service_callback res is_second
  | EffectorDone is_second res => effector_query_service_callback res is_second
  end.

(** Spinning the node over the completions in their order of arrival;
    an exception in a callback ends the process. *)
Fixpoint spin_callbacks (cs : list Completion) : M Node unit :=
  match cs with
  | [] => ret tt
  | c :: cs' => deliver c ;; spin_callbacks cs'
  end.

End Methods.

(** ** Vocabulary of the properties *)

(** A verification slot: its kind and whether it serves the second action. *)
Inductive Kind : Type := Zone | Effector.

Definition request_slot (r : Request) : Kind * bool :=
  match r with
  | ZoneRequest _ is_second => (Zone, is_second)
  | EffectorQuery _ _ is_second => (Effector, is_second)
  end.

Definition completion_slot (c : Completion) : Kind * bool :=
  match c with
  | ZoneDone is_second _ => (Zone, is_second)
  | EffectorDone is_second _ => (Effector, is_second)
  end.

(** A zone check confirms when the object is in a zone that has a name. *)
Definition zone_confirmed (r : CheckMmZone_Response) : bool :=
  is_mm_zone r && truthy (zone_name r).

(** The three outcomes of a verification. *)
Inductive Verdict : Type := Confirmed | Rejected | Unavailable.

Definition verdict (c : Completion) : Verdict :=
  match c with
  | ZoneDone _ None => Unavailable
  | ZoneDone _ (Some r) => if zone_confirmed r then Confirmed else Rejected
  | EffectorDone _ None => Unavailable
  | EffectorDone _ (Some r) => if effector_ready r then Confirmed else Rejected
  end.

Definition succeeded (c : Completion) : bool :=
  match verdict c with
  | Confirmed => true
  | _ => false
  end.

Definition is_zone (c : Completion) : bool :=
  match c with
  | ZoneDone _ _ => true
  | EffectorDone _ _ => false
  end.

(** How many completions of a kind a schedule holds. *)
Definition zone_count (cs : list Completion) : Z :=
  Z.of_nat (List.length (filter is_zone cs)).

Definition effector_count (cs : list Completion) : Z :=
  Z.of_nat (List.length (filter (fun c => negb (is_zone c)) cs)).

Definition is_dict (o : option json) : bool :=
  match o with
  | Some (JDict _) => true
  | _ => false
  end.

(** Every action description the command line gives is a JSON object
    (the default is the empty object). *)
Definition descriptions_valid `{Runtime} (a : Args) : bool :=
  is_dict (json_loads (action_desc a)) &&
  (if truthy (action2 a) then is_dict (json_loads (action_desc2 a)) else true).


(** Slots counted on the side of the requests. *)
Definition is_zone_slot (s : Kind * bool) : bool :=
  match fst s with
  | Zone => true
  | Effector => false
  end.

Definition zone_slots (l : list (Kind * bool)) : Z :=
  Z.of_nat (List.length (filter is_zone_slot l)).

Definition effector_slots (l : list (Kind * bool)) : Z :=
  Z.of_nat (List.length (filter (fun s => negb (is_zone_slot s)) l)).

(** A method left alone everything the coordinator decides on. *)
Definition same_gate (n n' : Node) : Prop :=
  args n' = args n /\ response n' = response n /\
  zone_requests_pending n' = zone_requests_pending n /\
  effector_checks_pending n' = effector_checks_pending n /\
  published n' = published n /\
  object_zone_name n' = object_zone_name n /\
  object_zone_name2 n' = object_zone_name2 n /\
  msg_request_id n' = msg_request_id n /\
  subscriptions n' = subscriptions n.

(** A callback that went through [send_dispatch_arm_task]: it published
    one message, or the composer raised on a description that is not a
    JSON object. *)
Definition fired `{Runtime} (n n' : Node) (r : outcome unit) : Prop :=
  (r = Ret tt /\ exists msg, published n' = published n ++ [msg]) \/
  ((exists e, r = Raise e) /\ published n' = published n /\
   descriptions_valid (args n) = false).

(** A callback that returned without publishing. *)
Definition quiet (n n' : Node) (r : outcome unit) : Prop :=
  r = Ret tt /\ published n' = published n.

(** Reading the composed payload. *)
Definition path (keys : list string) (j : json) : option json :=
  fold_left (fun o k => match o with Some v => getitem k v | None => None end)
            keys (Some j).

Definition payload_activities (payload : json) : option (list json) :=
  match path ["request"; "description"; "phases"] payload with
  | Some (JList [phase]) =>
      match path ["activity"; "description"; "activities"] phase with
      | Some (JList activities) => Some activities
      | _ => None
      end
  | _ => None
  end.

Definition is_zone_activity (x : json) : bool :=
  match getitem "category" x with
  | Some (JStr c) => String.eqb c "zone"
  | _ => false
  end.

Definition is_perform_action (action : string) (x : json) : bool :=
  match getitem "category" x, path ["description"; "category"] x with
  | Some (JStr c), Some (JStr a) =>
      String.eqb c "perform_action" && String.eqb a action
  | _, _ => false
  end.

(** The order the specification gives for the activities of one action:
    an optional zone activity, then the perform_action activity. *)
Definition fixed_order (action : string) (acts : list json) : bool :=
  match acts with
  | [p] => is_perform_action action p
  | [z; p] => is_zone_activity z && is_perform_action action p
  | _ => false
  end.

(** The activities the composer emits for one action: the fixed order,
    with the zone activity exactly when an object name is given; and
    nothing at all when an object name is given but no zone is known. *)
Definition slot_order (action : string) (object_name zone : option string)
    (acts : list json) : bool :=
  match acts with
  | [] =>
      truthy_opt object_name &&
      match zone with None => true | Some _ => false end
  | [p] => negb (truthy_opt object_name) && is_perform_action action p
  | [z; p] =>
      truthy_opt object_name &&
      match zone with None => false | Some _ => true end &&
      is_zone_activity z && is_perform_action action p
  | _ => false
  end.

(** The payload a node would compose now. *)
Definition composed `{Runtime} (n : Node) : option json :=
  match fst (dispatch_arm_task_payload n) with
  | Ret payload => Some payload
  | _ => None
  end.

Definition payload_field `{Runtime} (keys : list string) (n : Node) : option json :=
  match composed n with
  | Some payload => path keys payload
  | None => None
  end.

Definition composed_activities `{Runtime} (n : Node) : option (list json) :=
  match composed n with
  | Some payload => payload_activities payload
  | None => None
  end.

(** The parts of the payload, for the equations of the composer. *)
Definition activities_program `{Runtime} (n : Node) : M (list json) unit :=
  let a := args n in
  add_action_activities (action a) (object_name a) (object_zone_name n)
    (action_desc a) (places a) ;;
  if truthy (action2 a) then
    add_action_activities (action2 a) (object_name2 a) (object_zone_name2 n)
      (action_desc2 a) (places a)
  else ret tt.

Definition base_payload (a : Args) : list (string * json) :=
  if truthy (fleet a) && truthy (robot a) then
    [("type", JStr "robot_task_request"); ("robot", JStr (robot a));
     ("fleet", JStr (fleet a))]
  else [("type", JStr "dispatch_task_request")].

Definition using_record (a : Args) : Level * string :=
  if truthy (fleet a) && truthy (robot a) then
    (INFO, "Using 'robot_task_request'")
  else (INFO, "Using 'dispatch_task_request'").

Definition request_of `{Runtime} (a : Args) (activities : list json) : json :=
  JDict
    [("category", JStr "compose");
     ("description",
      JDict
        [("category", JStr (action a));
         ("phases",
          JList
            [JDict
               [("activity",
                 JDict
                   [("category", JStr "sequence");
                    ("description",
                     JDict [("activities", JList activities)])])]])]);
     ("unix_millis_earliest_start_time",
      JInt (start_time_millis clock_now (start_time a)))].

(** ** The response and the end of the process *)

(** [rmf_task_msgs/ApiResponse]. *)
Record ApiResponse : Type := {
  response_request_id : string;
  response_json_msg : string
}.

(** The exceptions of [asyncio] the script can meet. *)
Inductive asyncio_exn : Type := InvalidStateError | CancelledError.

(** What a callback, or the whole process, can be ended by. *)
Inductive exception : Type :=
| Builtin (e : exn)
| Asyncio (e : asyncio_exn).

(** [Future.done()] *)
Definition done (f : Future) : bool :=
  match f with
  | Pending => false
  | _ => true
  end.

(** [Future.set_result(r)]: only a pending future takes a result. *)
Definition set_result (r : json) (f : Future) : asyncio_exn + Future :=
  match f with
  | Pending => inr (Done r)
  | _ => inl InvalidStateError
  end.

(** [Future.result()] *)
Definition future_result (f : Future) : asyncio_exn + json :=
  match f with
  | Done r => inr r
  | Cancelled => inl CancelledError
  | Pending => inl InvalidStateError
  end.

(** How a callback ended: it returned, it raised, or it is still in a
    loop (the constructor only). *)
Inductive Ran : Type :=
| Returned
| Failed (e : exception)
| Waiting.

Definition ran (o : outcome unit) : Ran :=
  match o with
  | Ret _ => Returned
  | Raise e => Failed (Builtin e)
  | Spin => Waiting
  end.

(** What the executor can deliver: the completion of a service call, or a
    message on [task_api_responses]. *)
Inductive Event : Type :=
| Completed (c : Completion)
| Responded (response_msg : ApiResponse).

(** What [main] prints at its end. *)
Inductive Line : Type :=
| GotResponse (r : json)
| DidNotGetAResponse
| TaskCancelled.

(** How the process ends: [main] printed its line, an exception reached
    the top, or the constructor never returned. *)
Inductive Exit : Type :=
| Printed (line : Line)
| Uncaught (e : exception)
| Hangs.

Section Process.

Context `{Runtime} `{Services}.

(** Lines 279-286. *)
Definition api_response_callback (response_msg : ApiResponse) (n : Node)
  : Ran * Node :=
  if String.eqb (response_request_id response_msg) (msg_request_id n) then
    match json_loads (response_json_msg response_msg) with
    | None => (Failed (Builtin JSONDecodeError), n)
    | Some r =>
        match set_result r (response n) with
        | inr f => (Returned, set_response f n)
        | inl e => (Failed (Asyncio e), n)
        end
    end
  else (Returned, n).

(** One callback.  A message on [task_api_responses] reaches
    [api_response_callback] only when the subscription of
    [send_dispatch_arm_task] exists. *)
Definition handle (e : Event) (n : Node) : Ran * Node :=
  match e with
  | Completed c => let (o, n') := deliver c n in (ran o, n')
  | Responded response_msg =>
      match subscriptions n with
      | O => (Returned, n)
      | S _ => api_response_callback response_msg n
      end
  end.

(** [rclpy.spin_until_future_complete(task_requester,
    task_requester.response, timeout_sec=5)]: callbacks run one at a time
    while the future is not done; the list holds, in order, what becomes
    ready before the timeout.  An exception in a callback leaves the
    loop. *)
Fixpoint spin_until_future_complete (events : list Event) (n : Node)
  : Ran * Node :=
  match events with
  | [] => (Returned, n)
  | e :: events' =>
      if done (response n) then (Returned, n)
      else
        match handle e n with
        | (Returned, n') => spin_until_future_complete events' n'
        | stopped => stopped
        end
  end.

(** Lines 425-431 of [main]: the [try] block and its [except]. *)
Definition report (f : Future) : Exit :=
  let body : asyncio_exn + Line :=
    if done f then
      match future_result f with
      | inr r => inr (GotResponse r)
      | inl e => inl e
      end
    else inr DidNotGetAResponse in
  match body with
  | inr line => Printed line
  | inl CancelledError => Printed TaskCancelled
  | inl e => Uncaught (Asyncio e)
  end.

(** [main]: the constructor, the spin, the report (lines 419-431). *)
Definition main (fuel : nat) (a : Args) (events : list Event) : Exit :=
  match TaskRequester fuel a with
  | (Ret _, task_requester) =>
      match spin_until_future_complete events task_requester with
      | (Returned, n) => report (response n)
      | (Failed e, _) => Uncaught e
      | (Waiting, _) => Hangs
      end
  | (Raise e, _) => Uncaught (Builtin e)
  | (Spin, _) => Hangs
  end.

End Process.

(** ** Vocabulary of the further properties *)

(** The requests a configuration calls for, in the order the constructor
    sends them. *)
Definition zone_request_for (o : option string) (is_second : bool) : list Request :=
  match o with
  | Some name => if truthy name then [ZoneRequest name is_second] else []
  | None => []
  end.

Definition requests_of (a : Args) : list Request :=
  if String.eqb (action a) "arm_action" then []
  else
    zone_request_for (object_name a) false ++
    (if truthy (action2 a) then zone_request_for (object_name2 a) true else []) ++
    [EffectorQuery (robot a) (action a) false] ++
    (if truthy (action2 a) then [EffectorQuery (robot a) (action2 a) true]
     else []).

(** The node and the transport agree on the dispatch: there is one
    subscription per published message, and [msg_request_id] is the id of
    the last published message (the empty string before the first). *)
Definition correlated (n : Node) : Prop :=
  subscriptions n = List.length (published n) /\
  msg_request_id n =
    match last (map Some (published n)) None with
    | Some msg => request_id msg
    | None => ""
    end.

(** A service answers every call of [wait_for_service] from the k-th on. *)
Definition up_from (ready : nat -> bool) (k : nat) : Prop :=
  forall j, (k <= j)%nat -> ready j = true.

(** The zone a confirmed zone completion of a slot reports. *)
Definition confirmed_zone (is_second : bool) (c : Completion) : option string :=
  match c with
  | ZoneDone s (Some r) =>
      if Bool.eqb s is_second && zone_confirmed r then Some (zone_name r)
      else None
  | _ => None
  end.

(** What a completion stores: the zone of a confirmed zone check goes to
    the attribute of its slot, and nothing else touches the two
    attributes. *)
Definition stored (c : Completion) (n n1 : Node) : Prop :=
  object_zone_name n1 =
    match confirmed_zone false c with
    | Some z => Some z
    | None => object_zone_name n
    end /\
  object_zone_name2 n1 =
    match confirmed_zone true c with
    | Some z => Some z
    | None => object_zone_name2 n
    end.

(** The two zone attributes after a list of completions. *)
Definition zones_after (cs : list Completion)
    (z : option string * option string) : option string * option string :=
  fold_left
    (fun z c =>
       (match confirmed_zone false c with Some x => Some x | None => fst z end,
        match confirmed_zone true c with Some x => Some x | None => snd z end))
    cs z.

Definition zone_attr (is_second : bool) (z : option string * option string)
  : option string :=
  if is_second then snd z else fst z.

(** The two kinds of activity, as the composer writes them. *)
Definition zone_activity (zone : string) (places : list string) : json :=
  JDict [("category", JStr "zone");
         ("description",
          JDict [("zone", JStr zone); ("places", JList (map JStr places))])].

Definition perform_action_activity (action : string) (action_desc_dict : json)
  : json :=
  JDict [("category", JStr "perform_action");
         ("description",
          JDict [("unix_millis_action_duration_estimate", JInt 60000);
                 ("category", JStr action);
                 ("description", action_desc_dict)])].

(** The command line with another [--priority], and a node on it. *)
Definition with_priority (p : Z) (a : Args) : Args :=
  {| fleet := fleet a; robot := robot a; places := places a;
     action := action a; action_desc := action_desc a;
     object_name := object_name a; action2 := action2 a;
     action_desc2 := action_desc2 a; object_name2 := object_name2 a;
     start_time := start_time a; priority := p;
     use_sim_time := use_sim_time a |}.

Definition reprioritised (p : Z) (n : Node) : Node :=
  {| args := with_priority p (args n); response := response n;
     msg_request_id := msg_request_id n;
     object_zone_name := object_zone_name n;
     object_zone_name2 := object_zone_name2 n;
     zone_requests_pending := zone_requests_pending n;
     effector_checks_pending := effector_checks_pending n;
     sim_time := sim_time n; published := published n; calls := calls n;
     zone_waits := zone_waits n; effector_waits := effector_waits n;
     subscriptions := subscriptions n; log := log n |}.

(** A method that runs the same way whatever the priority: on a node
    with another priority it has the same outcome and leaves the same
    node, up to that priority. *)
Definition ignores_priority {A : Type} (p : Z) (c : M Node A) : Prop :=
  forall n, c (reprioritised p n) = (fst (c n), reprioritised p (snd (c n))).

End DispatchArmTask.

(** * dispatch_couple_decouple_action.py *)

Module DispatchCoupleDecoupleAction.

(** The parsed command line.  Options without a default are [None] when
    absent; [candidates_robot] is [None] for its default, the empty
    string, and a list when given. *)
Record Args : Type := {
  pickups : option (list string);
  dropoffs : option (list string);
  pickup_handlers : option (list string);
  dropoff_handlers : option (list string);
  pickup_payloads : list string;
  dropoff_payloads : list string;
  fleet : option string;
  robot : option string;
  start_time : Z;
  priority : Z;
  use_sim_time : bool;
  requester : string;
  action : string;
  zone_name : string;
  candidates_fleet : option string;
  candidates_robot : option (list string);
  number_of_robots : Z
}.

Record Node : Type := {
  args : Args;
  response : Future;
  sim_time : bool;
  published : list ApiRequest;
  subscriptions : nat;
  log : list (Level * string)
}.

Definition set_sim_time (v : bool) (n : Node) : Node :=
  {| args := args n; response := response n; sim_time := v;
     published := published n; subscriptions := subscriptions n;
     log := log n |}.

Definition set_published (v : list ApiRequest) (n : Node) : Node :=
  {| args := args n; response := response n; sim_time := sim_time n;
     published := v; subscriptions := subscriptions n; log := log n |}.

Definition set_subscriptions (v : nat) (n : Node) : Node :=
  {| args := args n; response := response n; sim_time := sim_time n;
     published := published n; subscriptions := v; log := log n |}.

Definition set_log (v : list (Level * string)) (n : Node) : Node :=
  {| args := args n; response := response n; sim_time := sim_time n;
     published := published n; subscriptions := subscriptions n; log := v |}.

(** The node after lines 147-159: arguments parsed, future and publisher
    created. *)
Definition new_node (a : Args) : Node :=
  {| args := a; response := Pending; sim_time := false; published := [];
     subscriptions := 0%nat; log := [] |}.

Definition json_opt_str (o : option string) : json :=
  match o with
  | Some s => JStr s
  | None => JNull
  end.

Section Methods.

Context `{Runtime}.

Definition logger (l : Level) (s : string) : M Node unit :=
  modify (fun n => set_log (log n ++ [(l, s)]) n).

Definition publish (msg : ApiRequest) : M Node unit :=
  modify (fun n => set_published (published n ++ [msg]) n).

Definition create_subscription : M Node unit :=
  modify (fun n => set_subscriptions (S (subscriptions n)) n).

(** [self.args.zone]: the parser declares [--zone_name], so the namespace
    has no attribute [zone] and the lookup raises. *)
Definition args_zone : M Node string :=
  raise (AttributeError "'Namespace' object has no attribute 'zone'").

(** The helper closure of lines 192-213. *)
Definition __create_couple_decouple_desc (action expected_zone : string)
    (number_of_robots : Z) (input_candidates : list (string * json)) : json :=
  if String.eqb action "couple" then
    match input_candidates with
    | _ :: _ =>
        JDict [("action", JStr action);
               ("number_of_robots", JInt number_of_robots);
               ("candidates", JDict input_candidates);
               ("expected_zone", JStr expected_zone);
               ("estimated_duration", JInt 60)]
    | [] =>
        JDict [("action", JStr action);
               ("number_of_robots", JInt number_of_robots);
               ("expected_zone", JStr expected_zone);
               ("estimated_duration", JInt 60)]
    end
  else JDict [("estimated_duration", JInt 60)].

(** Lines 161-282 of [__init__], on the node of [new_node]. *)
Definition __init__ : M Node unit :=
  a <- gets args ;;
  (if use_sim_time a then
     logger INFO "Using Sim Time" ;;
     modify (set_sim_time true)
   else ret tt) ;;
  let msg_request_id := ("couple_decouple_action_" ++ uuid4)%string in
  payload <-
    (if truthy_opt (fleet a) && truthy_opt (robot a) then
       logger INFO "Using 'robot_task_request'" ;;
       ret (dict_set "fleet" (json_opt_str (fleet a))
              (dict_set "robot" (json_opt_str (robot a))
                 (dict_set "type" (JStr "robot_task_request") [])))
     else
       logger INFO "Using 'dispatch_task_request'" ;;
       ret (dict_set "type" (JStr "dispatch_task_request") [])) ;;
  let now_sec := sec clock_now + start_time a in
  let start_time := now_sec * 1000 + round_div (nanosec clock_now) (10 ^ 6) in
  let request :=
    dict_set "requester" (JStr (requester a))
      (dict_set "unix_millis_earliest_start_time" (JInt start_time)
         (dict_set "unix_millis_request_time" (JInt start_time) [])) in
  let request :=
    if truthy_opt (fleet a) then dict_set "fleet_name" (json_opt_str (fleet a)) request
    else request in
  let number_of_robots :=
    if 2 <=? number_of_robots a then number_of_robots a else 2 in
  let input_candidates :=
    match candidates_robot a with
    | Some robots =>
        [("fleet", json_opt_str (candidates_fleet a));
         ("robots", JList (map JStr robots))]
    | None => []
    end in
  let request := dict_set "category" (JStr "compose") request in
  (if negb (existsb (String.eqb (action a)) ["couple"; "decouple"]) then
     raise (ValueError "Action should be 'couple' or 'decouple'")
   else ret tt) ;;
  activities <-
    (if String.eqb (action a) "couple" then
       zone <- args_zone ;;
       ret [JDict [("category", JStr "couple_action");
                   ("description",
                    __create_couple_decouple_desc "couple" zone
                      number_of_robots input_candidates)]]
     else
       zone <- args_zone ;;
       ret [JDict [("category", JStr "decouple_action");
                   ("description",
                    __create_couple_decouple_desc "decouple" zone
                      number_of_robots input_candidates)]]) ;;
  let description :=
    JDict [("category", JStr "testing_couple_decouple_action");
           ("phases",
            JList [JDict [("activity",
                           JDict [("category", JStr "sequence");
                                  ("description",
                                   JDict [("activities", JList activities)])])]])] in
  let request := dict_set "description" description request in
  let payload := dict_set "request" (JDict request) payload in
  let msg := {| request_id := msg_request_id;
                json_msg := json_dumps (JDict payload) |} in
  create_subscription ;;
  publish msg.

Definition TaskRequester (a : Args) : outcome unit * Node :=
  __init__ (new_node a).

End Methods.

End DispatchCoupleDecoupleAction.

(** * Sample runs *)

Module Samples.

(** A runtime whose [json.loads] reads the empty object, the default of
    the description options, and nothing else. *)
Definition runtime : Runtime :=
  {| json_loads := fun s => if String.eqb s "{}" then Some (JDict []) else None;
     json_dumps := fun _ => "{...}";
     clock_now := {| sec := 1700000000; nanosec := 250500000 |};
     uuid4 := "0f8fad5b-d9cb-469f-a165-70867728950e" |}.

(** Both services answer the first call of [wait_for_service]. *)
Definition services_up : DispatchArmTask.Services :=
  {| DispatchArmTask.zone_service_ready := fun _ => true;
     DispatchArmTask.effector_service_ready := fun _ => true;
     DispatchArmTask.repr_effector_response := fun _ => "CheckEffector_Response" |}.

(** The zone service answers the third call, the effector service the
    second. *)
Definition services_late : DispatchArmTask.Services :=
  {| DispatchArmTask.zone_service_ready := fun k => Nat.leb 2 k;
     DispatchArmTask.effector_service_ready := fun k => Nat.leb 1 k;
     DispatchArmTask.repr_effector_response := fun _ => "CheckEffector_Response" |}.

(** Neither service ever answers. *)
Definition services_down : DispatchArmTask.Services :=
  {| DispatchArmTask.zone_service_ready := fun _ => false;
     DispatchArmTask.effector_service_ready := fun _ => false;
     DispatchArmTask.repr_effector_response := fun _ => "CheckEffector_Response" |}.

(** [dispatch_arm_task -F tinyRobot -a scan -o bin7 -p shelf] *)
Definition scan_bin7 : DispatchArmTask.Args :=
  {| DispatchArmTask.fleet := "tinyRobot";
     DispatchArmTask.robot := "";
     DispatchArmTask.places := ["shelf"];
     DispatchArmTask.action := "scan";
     DispatchArmTask.action_desc := "{}";
     DispatchArmTask.object_name := Some "bin7";
     DispatchArmTask.action2 := "";
     DispatchArmTask.action_desc2 := "{}";
     DispatchArmTask.object_name2 := None;
     DispatchArmTask.start_time := 30;
     DispatchArmTask.priority := 0;
     DispatchArmTask.use_sim_time := false |}.

(** [dispatch_arm_task -F tinyRobot -a arm_action -o bin7 -p shelf] *)
Definition arm_bin7 : DispatchArmTask.Args :=
  {| DispatchArmTask.fleet := "tinyRobot";
     DispatchArmTask.robot := "";
     DispatchArmTask.places := ["shelf"];
     DispatchArmTask.action := "arm_action";
     DispatchArmTask.action_desc := "{}";
     DispatchArmTask.object_name := Some "bin7";
     DispatchArmTask.action2 := "";
     DispatchArmTask.action_desc2 := "{}";
     DispatchArmTask.object_name2 := None;
     DispatchArmTask.start_time := 0;
     DispatchArmTask.priority := 0;
     DispatchArmTask.use_sim_time := false |}.

Definition zone_Z3 : DispatchArmTask.CheckMmZone_Response :=
  {| DispatchArmTask.is_mm_zone := true;
     DispatchArmTask.zone_name := "Z3";
     DispatchArmTask.result := "bin7 is in Z3" |}.

Definition effector_is_ready : DispatchArmTask.CheckEffector_Response :=
  {| DispatchArmTask.effector_ready := true |}.

Definition effector_not_ready : DispatchArmTask.CheckEffector_Response :=
  {| DispatchArmTask.effector_ready := false |}.

(** [dispatch_couple_decouple_action -a dance -zn Z3] *)
Definition dance : DispatchCoupleDecoupleAction.Args :=
  {| DispatchCoupleDecoupleAction.pickups := None;
     DispatchCoupleDecoupleAction.dropoffs := None;
     DispatchCoupleDecoupleAction.pickup_handlers := None;
     DispatchCoupleDecoupleAction.dropoff_handlers := None;
     DispatchCoupleDecoupleAction.pickup_payloads := [];
     DispatchCoupleDecoupleAction.dropoff_payloads := [];
     DispatchCoupleDecoupleAction.fleet := None;
     DispatchCoupleDecoupleAction.robot := None;
     DispatchCoupleDecoupleAction.start_time := 0;
     DispatchCoupleDecoupleAction.priority := 0;
     DispatchCoupleDecoupleAction.use_sim_time := true;
     DispatchCoupleDecoupleAction.requester := "rmf_demos_tasks";
     DispatchCoupleDecoupleAction.action := "dance";
     DispatchCoupleDecoupleAction.zone_name := "Z3";
     DispatchCoupleDecoupleAction.candidates_fleet := None;
     DispatchCoupleDecoupleAction.candidates_robot := None;
     DispatchCoupleDecoupleAction.number_of_robots := 2 |}.

(** A runtime whose [json.loads] also reads the empty list. *)
Definition runtime_with_lists : Runtime :=
  {| json_loads := fun s =>
       if String.eqb s "{}" then Some (JDict [])
       else if String.eqb s "[]" then Some (JList [])
       else None;
     json_dumps := fun _ => "{...}";
     clock_now := {| sec := 1700000000; nanosec := 999500000 |};
     uuid4 := "0f8fad5b-d9cb-469f-a165-70867728950e" |}.

(** [dispatch_arm_task -F tinyRobot -a scan -o bin7 -ad 'scan it'] *)
Definition scan_unparsable : DispatchArmTask.Args :=
  {| DispatchArmTask.fleet := "tinyRobot";
     DispatchArmTask.robot := "";
     DispatchArmTask.places := ["shelf"];
     DispatchArmTask.action := "scan";
     DispatchArmTask.action_desc := "scan it";
     DispatchArmTask.object_name := Some "bin7";
     DispatchArmTask.action2 := "";
     DispatchArmTask.action_desc2 := "{}";
     DispatchArmTask.object_name2 := None;
     DispatchArmTask.start_time := 0;
     DispatchArmTask.priority := 0;
     DispatchArmTask.use_sim_time := false |}.

(** [dispatch_arm_task -F tinyRobot -a scan -o bin7 -ad '[]'] *)
Definition scan_list : DispatchArmTask.Args :=
  {| DispatchArmTask.fleet := "tinyRobot";
     DispatchArmTask.robot := "";
     DispatchArmTask.places := ["shelf"];
     DispatchArmTask.action := "scan";
     DispatchArmTask.action_desc := "[]";
     DispatchArmTask.object_name := Some "bin7";
     DispatchArmTask.action2 := "";
     DispatchArmTask.action_desc2 := "{}";
     DispatchArmTask.object_name2 := None;
     DispatchArmTask.start_time := 0;
     DispatchArmTask.priority := 0;
     DispatchArmTask.use_sim_time := false |}.

(** A response to the task of [runtime], and a response to another
    request. *)
Definition response_to_task : DispatchArmTask.ApiResponse :=
  {| DispatchArmTask.response_request_id :=
       "dispatch_arm_task_0f8fad5b-d9cb-469f-a165-70867728950e";
     DispatchArmTask.response_json_msg := "{}" |}.

Definition response_to_other : DispatchArmTask.ApiResponse :=
  {| DispatchArmTask.response_request_id := "dispatch_delivery_1234";
     DispatchArmTask.response_json_msg := "{}" |}.

End Samples.

(** * Properties of dispatch_arm_task.py *)

Module ArmTaskProperties.
Import DispatchArmTask.

Section Properties.
Context `{Runtime} `{Services}.

Ltac unfold_m :=
  unfold logger, response_cancel, call_async, publish, create_subscription,
    loads, assign_item, append, with_activities in *;
  unfold bind, ret, gets, modify, raise, spin in *; cbv beta in *.

Lemma add_action_activities_eq action obj zone desc places acts :
  add_action_activities action obj zone desc places acts =
  match json_loads desc with
  | None => (Raise JSONDecodeError, acts)
  | Some d =>
      if truthy_opt obj then
        match zone with
        | Some z =>
            match setitem "zone_name" (JStr z) d with
            | Some d' =>
                (Ret tt,
                 acts ++
                 [JDict [("category", JStr "zone");
                         ("description",
                          JDict [("zone", JStr z);
                                 ("places", JList (map JStr places))])];
                  JDict [("category", JStr "perform_action");
                         ("description",
                          JDict [("unix_millis_action_duration_estimate", JInt 60000);
                                 ("category", JStr action);
                                 ("description", d')])]])
            | None => (Raise TypeError, acts)
            end
        | None => (Ret tt, acts)
        end
      else
        (Ret tt,
         acts ++
         [JDict [("category", JStr "perform_action");
                 ("description",
                  JDict [("unix_millis_action_duration_estimate", JInt 60000);
                         ("category", JStr action);
                         ("description", d)])]])
  end.
Proof.
  unfold add_action_activities. unfold_m.
  destruct (json_loads desc) as [d|]; [|reflexivity].
  destruct (truthy_opt obj); [|reflexivity].
  destruct zone as [z|]; [|reflexivity].
  destruct (setitem "zone_name" (JStr z) d); [|reflexivity].
  rewrite <- app_assoc. reflexivity.
Qed.

(** The closure only ever appends. *)
Lemma add_action_activities_appends action obj zone desc places acts r acts' :
  add_action_activities action obj zone desc places acts = (r, acts') ->
  exists new,
    acts' = acts ++ new /\
    add_action_activities action obj zone desc places [] = (r, new).
Proof.
  rewrite !add_action_activities_eq.
  destruct (json_loads desc) as [d|].
  2:{ intros E; inversion E; subst. exists []. now rewrite app_nil_r. }
  destruct (truthy_opt obj).
  - destruct zone as [z|].
    + destruct (setitem "zone_name" (JStr z) d).
      * intros E; inversion E; subst. eexists; split; reflexivity.
      * intros E; inversion E; subst. exists []. now rewrite app_nil_r.
    + intros E; inversion E; subst. exists []. now rewrite app_nil_r.
  - intros E; inversion E; subst. eexists; split; reflexivity.
Qed.

Lemma add_action_activities_no_spin action obj zone desc places acts acts' :
  add_action_activities action obj zone desc places acts <> (Spin, acts').
Proof.
  rewrite add_action_activities_eq.
  repeat match goal with
  | |- context [match ?x with _ => _ end] => destruct x
  end; discriminate.
Qed.

Lemma add_action_activities_valid action obj zone desc places acts :
  is_dict (json_loads desc) = true ->
  exists acts', add_action_activities action obj zone desc places acts = (Ret tt, acts').
Proof.
  rewrite add_action_activities_eq. unfold is_dict.
  destruct (json_loads desc) as [[]|]; try discriminate. intros _.
  destruct (truthy_opt obj); [destruct zone|]; simpl; eauto.
Qed.

Lemma dispatch_arm_task_payload_eq n :
  dispatch_arm_task_payload n =
  let n' := set_log (log n ++ [using_record (args n)]) n in
  match activities_program n [] with
  | (Ret _, activities) =>
      (Ret (JDict (base_payload (args n) ++
                   [("request", request_of (args n) activities)])), n')
  | (Raise e, _) => (Raise e, n')
  | (Spin, _) => (Spin, n')
  end.
Proof.
  unfold dispatch_arm_task_payload, activities_program, base_payload,
    using_record, request_of.
  unfold_m.
  destruct (truthy (fleet (args n)) && truthy (robot (args n))); simpl;
  destruct (add_action_activities _ _ _ _ _ []) as [[[]|e|] acts]; try reflexivity;
  destruct (truthy (action2 (args n))); simpl; try reflexivity;
  destruct (add_action_activities _ _ _ _ _ acts) as [[[]|e|] acts']; reflexivity.
Qed.

Lemma create_dispatch_arm_task_eq n :
  create_dispatch_arm_task n =
  match dispatch_arm_task_payload n with
  | (Ret payload, n') =>
      (Ret {| request_id := "dispatch_arm_task_" ++ uuid4;
              json_msg := json_dumps payload |}, n')
  | (Raise e, n') => (Raise e, n')
  | (Spin, n') => (Spin, n')
  end.
Proof.
  unfold create_dispatch_arm_task. unfold_m.
  destruct (dispatch_arm_task_payload n) as [[p|e|] n']; reflexivity.
Qed.


Lemma same_gate_refl n : same_gate n n.
Proof. repeat split. Qed.

Lemma same_gate_trans n1 n2 n3 :
  same_gate n1 n2 -> same_gate n2 n3 -> same_gate n1 n3.
Proof. unfold same_gate. intuition congruence. Qed.

Lemma wait_for_zone_service_frame fuel : forall n r n',
  wait_for_zone_service fuel n = (r, n') ->
  same_gate n n' /\ calls n' = calls n /\ (r = Ret tt \/ r = Spin).
Proof.
  induction fuel as [|fuel IH]; intros n r n'; simpl.
  - unfold_m. intros E; inversion E; subst. auto using same_gate_refl.
  - unfold zone_wait_for_service. unfold_m.
    destruct (zone_service_ready (zone_waits n)).
    + intros E; inversion E; subst. repeat split; auto.
    + intros E. apply IH in E. destruct E as (G & C & R).
      repeat split; try apply G; auto.
Qed.

Lemma wait_for_effector_service_frame fuel : forall n r n',
  wait_for_effector_service fuel n = (r, n') ->
  same_gate n n' /\ calls n' = calls n /\ (r = Ret tt \/ r = Spin).
Proof.
  induction fuel as [|fuel IH]; intros n r n'; simpl.
  - unfold_m. intros E; inversion E; subst. auto using same_gate_refl.
  - unfold effector_wait_for_service. unfold_m.
    destruct (effector_service_ready (effector_waits n)).
    + intros E; inversion E; subst. repeat split; auto.
    + intros E. apply IH in E. destruct E as (G & C & R).
      repeat split; try apply G; auto.
Qed.

Lemma send_zone_request_frame fuel o s n r n' :
  send_zone_request fuel o s n = (r, n') ->
  same_gate n n' /\
  (r = Ret tt /\ calls n' = calls n ++ [ZoneRequest o s] \/
   r = Spin /\ calls n' = calls n).
Proof.
  unfold send_zone_request. unfold bind at 1.
  destruct (wait_for_zone_service fuel n) as [w n1] eqn:W.
  apply wait_for_zone_service_frame in W. destruct W as (G & C & [-> | ->]).
  - unfold_m. intros E; inversion E; subst. simpl. split.
    + repeat split; apply G.
    + left. now rewrite C.
  - intros E; inversion E; subst. auto.
Qed.

Lemma send_effector_query_frame fuel act s n r n' :
  send_effector_query fuel act s n = (r, n') ->
  same_gate n n' /\
  (r = Ret tt /\ calls n' = calls n ++ [EffectorQuery (robot (args n)) act s] \/
   r = Spin /\ calls n' = calls n).
Proof.
  unfold send_effector_query. unfold bind at 1.
  destruct (wait_for_effector_service fuel n) as [w n1] eqn:W.
  apply wait_for_effector_service_frame in W. destruct W as (G & C & [-> | ->]).
  - unfold_m. intros E; inversion E; subst. simpl. split.
    + repeat split; apply G.
    + left. split; [reflexivity|]. rewrite C. destruct G as (-> & _). reflexivity.
  - intros E; inversion E; subst. auto.
Qed.


Lemma activities_program_no_spin n acts : activities_program n [] <> (Spin, acts).
Proof.
  unfold activities_program. unfold_m.
  destruct (add_action_activities _ _ _ _ _ []) as [[[]|e|] a1] eqn:E1; try discriminate.
  - destruct (truthy (action2 (args n))); [|discriminate].
    apply add_action_activities_no_spin.
  - now apply add_action_activities_no_spin in E1.
Qed.

Lemma activities_program_valid n :
  descriptions_valid (args n) = true ->
  exists acts, activities_program n [] = (Ret tt, acts).
Proof.
  unfold descriptions_valid, activities_program. intros V.
  apply andb_prop in V. destruct V as [V1 V2]. unfold_m.
  destruct (add_action_activities_valid (action (args n)) (object_name (args n))
              (object_zone_name n) (action_desc (args n)) (places (args n)) [] V1)
    as [a1 ->].
  destruct (truthy (action2 (args n))); [|eauto].
  apply add_action_activities_valid; assumption.
Qed.

(** What [send_dispatch_arm_task] does to the node. *)
Lemma send_dispatch_arm_task_cases n r n' :
  send_dispatch_arm_task n = (r, n') ->
  args n' = args n /\ response n' = response n /\
  zone_requests_pending n' = zone_requests_pending n /\
  effector_checks_pending n' = effector_checks_pending n /\
  calls n' = calls n /\
  ((r = Ret tt /\ exists msg, published n' = published n ++ [msg]) \/
   ((exists e, r = Raise e) /\ published n' = published n /\
    descriptions_valid (args n) = false)).
Proof.
  unfold send_dispatch_arm_task. unfold bind at 1.
  rewrite create_dispatch_arm_task_eq, dispatch_arm_task_payload_eq. cbv zeta.
  destruct (activities_program n []) as [[[]|e|] acts] eqn:P.
  - unfold_m. intros E; inversion E; subst; simpl.
    repeat split; eauto.
  - intros E; inversion E; subst; simpl. repeat split.
    right. repeat split; eauto.
    destruct (descriptions_valid (args n)) eqn:V; [|reflexivity].
    apply activities_program_valid in V. destruct V as [a V]. congruence.
  - now apply activities_program_no_spin in P.
Qed.


Lemma check_if_ready_to_dispatch_cases n r n' :
  check_if_ready_to_dispatch n = (r, n') ->
  args n' = args n /\ response n' = response n /\
  zone_requests_pending n' = zone_requests_pending n /\
  effector_checks_pending n' = effector_checks_pending n /\
  calls n' = calls n /\
  ((zone_requests_pending n = 0 /\ effector_checks_pending n = 0 /\ fired n n' r) \/
   ((zone_requests_pending n <> 0 \/ effector_checks_pending n <> 0) /\ quiet n n' r)).
Proof.
  unfold check_if_ready_to_dispatch, fired, quiet. unfold_m.
  destruct (zone_requests_pending n =? 0) eqn:Z; simpl.
  - destruct (effector_checks_pending n =? 0) eqn:E; simpl.
    + intros D. apply send_dispatch_arm_task_cases in D. simpl in D.
      apply Z.eqb_eq in Z, E. intuition.
    + intros D; inversion D; subst. apply Z.eqb_neq in E. intuition.
  - intros D; inversion D; subst. apply Z.eqb_neq in Z. intuition.
Qed.

Lemma succeeded_zone s r :
  succeeded (ZoneDone s (Some r)) = negb (negb (is_mm_zone r) || negb (truthy (zone_name r))).
Proof.
  unfold succeeded, verdict, zone_confirmed.
  destruct (is_mm_zone r), (truthy (zone_name r)); reflexivity.
Qed.

Lemma deliver_cases c n r n' :
  deliver c n = (r, n') ->
  args n' = args n /\ calls n' = calls n /\
  zone_requests_pending n' =
    zone_requests_pending n - (if succeeded c && is_zone c then 1 else 0) /\
  effector_checks_pending n' =
    effector_checks_pending n - (if succeeded c && negb (is_zone c) then 1 else 0) /\
  response n' = (if succeeded c then response n else cancel (response n)) /\
  ((succeeded c = true /\ zone_requests_pending n' = 0 /\
    effector_checks_pending n' = 0 /\ fired n n' r) \/
   ((succeeded c = false \/ zone_requests_pending n' <> 0 \/
     effector_checks_pending n' <> 0) /\ quiet n n' r)).
Proof.
  destruct c as [s [res|]|s [res|]]; simpl.
  - unfold zone_request_service_callback. rewrite succeeded_zone.
    destruct (negb (is_mm_zone res) || negb (truthy (zone_name res))); simpl.
    + unfold_m; unfold quiet. intros E; inversion E; subst; simpl.
      repeat split; try lia. right. auto.
    + unfold bind at 1. destruct s; unfold_m;
      intros E; apply check_if_ready_to_dispatch_cases in E; simpl in E;
      unfold fired, quiet in *; simpl in *;
      destruct E as (A & R & Zp & Ep & C & D);
      (repeat split; try assumption; try lia; []);
      rewrite Zp, Ep; intuition.
  - unfold zone_request_service_callback. unfold_m; unfold quiet.
    intros E; inversion E; subst; simpl. repeat split; try lia. right. auto.
  - unfold effector_query_service_callback, succeeded, verdict.
    destruct (effector_ready res); simpl.
    + unfold_m;
      intros E; apply check_if_ready_to_dispatch_cases in E; simpl in E;
      unfold fired, quiet in *; simpl in *;
      destruct E as (A & R & Zp & Ep & C & D);
      (repeat split; try assumption; try lia; []);
      rewrite Zp, Ep; intuition.
    + unfold_m; unfold quiet. intros E; inversion E; subst; simpl.
      repeat split; try lia. right. auto.
  - unfold effector_query_service_callback. unfold_m; unfold quiet.
    intros E; inversion E; subst; simpl. repeat split; try lia. right. auto.
Qed.


Lemma zone_count_cons c cs :
  zone_count (c :: cs) = zone_count cs + (if is_zone c then 1 else 0).
Proof.
  unfold zone_count. simpl. destruct (is_zone c); simpl List.length; lia.
Qed.

Lemma effector_count_cons c cs :
  effector_count (c :: cs) = effector_count cs + (if is_zone c then 0 else 1).
Proof.
  unfold effector_count. simpl. destruct (is_zone c); simpl List.length; lia.
Qed.

Lemma zone_count_nonneg cs : 0 <= zone_count cs.
Proof. unfold zone_count. lia. Qed.

Lemma effector_count_nonneg cs : 0 <= effector_count cs.
Proof. unfold effector_count. lia. Qed.

Lemma cancel_idempotent f : cancel (cancel f) = cancel f.
Proof. destruct f; reflexivity. Qed.

(** While a counter exceeds the number of completions still to come for
    its kind, nothing is dispatched. *)
Lemma spin_callbacks_short cs : forall n,
  zone_count cs < zone_requests_pending n \/
  effector_count cs < effector_checks_pending n ->
  exists n',
    spin_callbacks cs n = (Ret tt, n') /\
    published n' = published n /\ args n' = args n /\ calls n' = calls n /\
    response n' =
      (if forallb succeeded cs then response n else cancel (response n)) /\
    (0 < zone_requests_pending n' \/ 0 < effector_checks_pending n').
Proof.
  induction cs as [|c cs IH]; intros n Hshort.
  - exists n. simpl. unfold ret. unfold zone_count, effector_count in Hshort.
    simpl in Hshort. repeat split; auto.
  - rewrite zone_count_cons, effector_count_cons in Hshort.
    simpl spin_callbacks. unfold bind.
    destruct (deliver c n) as [r1 n1] eqn:D.
    apply deliver_cases in D.
    destruct D as (A & C & Zp & Ep & R & D).
    pose proof (zone_count_nonneg cs). pose proof (effector_count_nonneg cs).
    assert (Hn1 : zone_count cs < zone_requests_pending n1 \/
                  effector_count cs < effector_checks_pending n1).
    { destruct (succeeded c), (is_zone c); simpl in Zp, Ep; lia. }
    destruct D as [(_ & Z0 & E0 & _) | (_ & -> & P)]; [lia|].
    destruct (IH n1 Hn1) as (n' & S' & P' & A' & C' & R' & Pos).
    exists n'. rewrite S'. repeat split; try congruence; auto.
    rewrite R', R. simpl. destruct (succeeded c); simpl; [reflexivity|].
    destruct (forallb succeeded cs); auto using cancel_idempotent.
Qed.

Lemma fired_shift n n1 n' r :
  published n1 = published n -> args n1 = args n -> fired n1 n' r -> fired n n' r.
Proof. unfold fired. intros -> ->. auto. Qed.

(** The gate: with each counter equal to the number of completions to
    come for its kind, the dispatch happens at the last completion, and
    only when all of them succeeded. *)
Lemma spin_callbacks_gate cs : forall n r n',
  zone_requests_pending n = zone_count cs ->
  effector_checks_pending n = effector_count cs ->
  cs <> [] ->
  spin_callbacks cs n = (r, n') ->
  args n' = args n /\
  (forallb succeeded cs = true ->
   zone_requests_pending n' = 0 /\ effector_checks_pending n' = 0 /\
   response n' = response n /\ fired n n' r) /\
  (forallb succeeded cs = false ->
   quiet n n' r /\
   (0 < zone_requests_pending n' \/ 0 < effector_checks_pending n') /\
   response n' = cancel (response n)).
Proof.
  induction cs as [|c cs IH]; intros n r n' Hz He Hne; [congruence|].
  rewrite zone_count_cons in Hz. rewrite effector_count_cons in He.
  simpl spin_callbacks. unfold bind.
  destruct (deliver c n) as [r1 n1] eqn:D.
  apply deliver_cases in D. destruct D as (A & C & Zp & Ep & R & D).
  pose proof (zone_count_nonneg cs). pose proof (effector_count_nonneg cs).
  simpl forallb.
  destruct (succeeded c) eqn:Sc; simpl in Zp, Ep, R |- *.
  - (* the completion succeeded: its counter went down by one *)
    assert (Hz1 : zone_requests_pending n1 = zone_count cs)
      by (destruct (is_zone c); simpl in Zp; lia).
    assert (He1 : effector_checks_pending n1 = effector_count cs)
      by (destruct (is_zone c); simpl in Ep; lia).
    destruct cs as [|c' cs'].
    + (* it was the last one *)
      unfold zone_count, effector_count in Hz1, He1. simpl in Hz1, He1.
      destruct D as [(_ & _ & _ & F) | ([?|[?|?]] & _)]; try congruence.
      assert (Hr : (let (o, s') := (r1, n1) in
                    match o with
                    | Ret _ => spin_callbacks [] s'
                    | Raise e => (Raise e, s')
                    | Spin => (Spin, s')
                    end) = (r1, n1)).
      { destruct F as [(-> & _) | ((e & ->) & _)]; reflexivity. }
      rewrite Hr. intros E; inversion E; subst.
      repeat split; auto; discriminate.
    + assert (Hpos : zone_requests_pending n1 <> 0 \/ effector_checks_pending n1 <> 0).
      { rewrite Hz1, He1, zone_count_cons, effector_count_cons.
        pose proof (zone_count_nonneg cs'). pose proof (effector_count_nonneg cs').
        destruct (is_zone c'); lia. }
      destruct D as [(_ & Z0 & E0 & _) | (_ & -> & P)]; [lia|].
      intros S'. apply IH in S'; auto; [|discriminate].
      destruct S' as (A' & Hall & Hsome). split; [congruence|]. split.
      * intros Hs. destruct (Hall Hs) as (? & ? & ? & F).
        repeat split; auto; try congruence. eapply fired_shift; eauto.
      * intros Hs. destruct (Hsome Hs) as ((-> & P') & ? & ?).
        repeat split; auto; congruence.
  - (* the completion failed: its counter stays, so it stays above the rest *)
    assert (Hn1 : zone_count cs < zone_requests_pending n1 \/
                  effector_count cs < effector_checks_pending n1)
      by (destruct (is_zone c); lia).
    destruct D as [(? & _) | (_ & -> & P)]; [discriminate|].
    destruct (spin_callbacks_short cs n1 Hn1) as (n2 & S2 & P2 & A2 & C2 & R2 & Pos).
    rewrite S2. intros E; inversion E; subst.
    split; [congruence|]. split; [discriminate|]. intros _.
    repeat split; auto; try congruence.
    rewrite R2, R. destruct (forallb succeeded cs); auto using cancel_idempotent.
Qed.


Lemma filter_length_perm {A} (f : A -> bool) l l' :
  Permutation l l' -> List.length (filter f l) = List.length (filter f l').
Proof.
  induction 1; simpl; auto.
  - destruct (f x); simpl; auto.
  - destruct (f x), (f y); reflexivity.
  - congruence.
Qed.

Lemma zone_count_slots cs : zone_count cs = zone_slots (map completion_slot cs).
Proof.
  unfold zone_count, zone_slots. f_equal.
  induction cs as [|c cs IH]; simpl; auto.
  destruct c; simpl; auto.
Qed.

Lemma effector_count_slots cs :
  effector_count cs = effector_slots (map completion_slot cs).
Proof.
  unfold effector_count, effector_slots. f_equal.
  induction cs as [|c cs IH]; simpl; auto.
  destruct c; simpl; auto.
Qed.

Ltac step_send :=
  match goal with
  | |- context [send_zone_request ?f ?o ?s ?n] =>
      let E := fresh "E" in
      destruct (send_zone_request f o s n) as [[[]| |] ?] eqn:E;
      apply send_zone_request_frame in E;
      destruct E as ((?&?&?&?&?&?&?&?&?) & [(?&?)|(?&?)]); try discriminate
  | |- context [send_effector_query ?f ?o ?s ?n] =>
      let E := fresh "E" in
      destruct (send_effector_query f o s n) as [[[]| |] ?] eqn:E;
      apply send_effector_query_frame in E;
      destruct E as ((?&?&?&?&?&?&?&?&?) & [(?&?)|(?&?)]); try discriminate
  end.

(** The constructor on a configuration that needs verification. *)
Lemma TaskRequester_gated fuel a r n0 :
  action a <> "arm_action" ->
  TaskRequester fuel a = (r, n0) ->
  args n0 = a /\ published n0 = [] /\ response n0 = Pending /\
  subscriptions n0 = 0%nat /\
  (r = Ret tt \/ r = Spin) /\
  (r = Ret tt ->
   calls n0 <> [] /\
   zone_requests_pending n0 = zone_slots (map request_slot (calls n0)) /\
   effector_checks_pending n0 = effector_slots (map request_slot (calls n0))).
Proof.
  intros Harm. apply String.eqb_neq in Harm.
  unfold TaskRequester, __init__. unfold bind at 1. unfold gets at 1.
  simpl args. unfold bind at 1.
  assert (Hsim : exists l,
    (if use_sim_time a
     then (logger INFO "Using Sim Time";; modify (set_sim_time true))%method
     else ret tt) (new_node a) =
    (Ret tt, set_log l (set_sim_time (use_sim_time a) (new_node a)))).
  { destruct (use_sim_time a);
    [exists [(INFO, "Using Sim Time")] | exists []]; reflexivity. }
  destruct Hsim as [l ->]. rewrite Harm.
  unfold when_named.
  destruct (object_name a) as [o1|]; simpl truthy_opt;
  [destruct (truthy o1)|];
  (destruct (truthy (action2 a)); simpl andb;
   [destruct (object_name2 a) as [o2|]; simpl truthy_opt;
    [destruct (truthy o2)|]|]);
  unfold bind, modify, ret; cbv beta iota;
  repeat (step_send; cbv beta iota);
  intros E; inversion E; subst;
  simpl in *;
  (repeat split; try congruence; auto); try discriminate;
  repeat match goal with H : calls _ = _ |- _ => rewrite H; clear H end;
  simpl; try discriminate; try congruence.
  all: try (destruct (calls _); discriminate).
  all: unfold zone_slots, effector_slots; simpl; congruence.
Qed.

Lemma zone_count_app cs cs' :
  zone_count (cs ++ cs') = zone_count cs + zone_count cs'.
Proof.
  unfold zone_count. rewrite filter_app, length_app. lia.
Qed.

Lemma effector_count_app cs cs' :
  effector_count (cs ++ cs') = effector_count cs + effector_count cs'.
Proof.
  unfold effector_count. rewrite filter_app, length_app. lia.
Qed.

(** A prefix of a schedule: [kz] and [ke] completions of each kind are
    still to come.  Nothing is dispatched, each counter stays at or above
    what is to come, and strictly above for one kind once a completion
    failed. *)
Lemma spin_callbacks_prefix cs : forall n kz ke,
  0 <= kz -> 0 <= ke ->
  zone_count cs + kz <= zone_requests_pending n ->
  effector_count cs + ke <= effector_checks_pending n ->
  (zone_count cs + kz < zone_requests_pending n \/
   effector_count cs + ke < effector_checks_pending n \/ 0 < kz + ke) ->
  exists n',
    spin_callbacks cs n = (Ret tt, n') /\
    published n' = published n /\ args n' = args n /\ calls n' = calls n /\
    response n' =
      (if forallb succeeded cs then response n else cancel (response n)) /\
    kz <= zone_requests_pending n' /\ ke <= effector_checks_pending n' /\
    (zone_count cs + kz < zone_requests_pending n \/
     effector_count cs + ke < effector_checks_pending n \/
     forallb succeeded cs = false ->
     kz < zone_requests_pending n' \/ ke < effector_checks_pending n').
Proof.
  induction cs as [|c cs IH]; intros n kz ke Hkz Hke Hz He Hex.
  - exists n. unfold zone_count, effector_count in *. simpl in *. unfold ret.
    do 7 (split; [first [reflexivity | lia]|]).
    intros [?|[?|?]]; try lia; discriminate.
  - rewrite zone_count_cons in *. rewrite effector_count_cons in *.
    simpl spin_callbacks. unfold bind.
    destruct (deliver c n) as [r1 n1] eqn:D.
    apply deliver_cases in D.
    destruct D as (A & C & Zp & Ep & R & D).
    pose proof (zone_count_nonneg cs). pose proof (effector_count_nonneg cs).
    assert (Hz1 : zone_count cs + kz <= zone_requests_pending n1)
      by (destruct (succeeded c), (is_zone c); simpl in Zp; lia).
    assert (He1 : effector_count cs + ke <= effector_checks_pending n1)
      by (destruct (succeeded c), (is_zone c); simpl in Ep; lia).
    assert (Hex1 : zone_count cs + kz < zone_requests_pending n1 \/
                   effector_count cs + ke < effector_checks_pending n1 \/
                   0 < kz + ke)
      by (destruct (succeeded c), (is_zone c); simpl in Zp, Ep; lia).
    destruct D as [(_ & Z0 & E0 & _) | (_ & -> & P)]; [lia|].
    destruct (IH n1 kz ke Hkz Hke Hz1 He1 Hex1)
      as (n' & S' & P' & A' & C' & R' & Kz & Ke & Strict).
    exists n'. rewrite S'. repeat split; try congruence; auto.
    + rewrite R', R. simpl. destruct (succeeded c); simpl; [reflexivity|].
      destruct (forallb succeeded cs); auto using cancel_idempotent.
    + intros Hs. apply Strict. simpl in Hs.
      destruct (succeeded c) eqn:Sc; simpl in Hs, Zp, Ep.
      * destruct (is_zone c); simpl in Zp, Ep; destruct Hs as [?|[?|?]]; auto; lia.
      * destruct (is_zone c); simpl in Zp, Ep; lia.
Qed.

Lemma perm_counts cs (rs : list Request) :
  Permutation (map completion_slot cs) (map request_slot rs) ->
  zone_count cs = zone_slots (map request_slot rs) /\
  effector_count cs = effector_slots (map request_slot rs).
Proof.
  intros P. rewrite zone_count_slots, effector_count_slots.
  unfold zone_slots, effector_slots.
  split; f_equal; apply filter_length_perm; assumption.
Qed.

Lemma send_dispatch_arm_task_waits n r n' :
  send_dispatch_arm_task n = (r, n') ->
  zone_waits n' = zone_waits n /\ effector_waits n' = effector_waits n.
Proof.
  unfold send_dispatch_arm_task. unfold bind at 1.
  rewrite create_dispatch_arm_task_eq, dispatch_arm_task_payload_eq. cbv zeta.
  destruct (activities_program n []) as [[[]|e|] acts];
    unfold_m; intros E; inversion E; subst; simpl; auto.
Qed.

(** With [arm_action] the constructor sends no request. *)
Lemma TaskRequester_arm fuel a r n0 :
  action a = "arm_action" ->
  TaskRequester fuel a = (r, n0) ->
  calls n0 = [] /\ zone_waits n0 = 0%nat /\ effector_waits n0 = 0%nat /\
  zone_requests_pending n0 = 0 /\ effector_checks_pending n0 = 0 /\
  response n0 = Pending /\ args n0 = a /\
  exists l, fired (set_log l (set_sim_time (use_sim_time a) (new_node a))) n0 r.
Proof.
  intros Harm. apply String.eqb_eq in Harm.
  unfold TaskRequester, __init__. unfold bind at 1. unfold gets at 1.
  simpl args. unfold bind at 1.
  assert (Hsim : exists l,
    (if use_sim_time a
     then (logger INFO "Using Sim Time";; modify (set_sim_time true))%method
     else ret tt) (new_node a) =
    (Ret tt, set_log l (set_sim_time (use_sim_time a) (new_node a)))).
  { destruct (use_sim_time a);
    [exists [(INFO, "Using Sim Time")] | exists []]; reflexivity. }
  destruct Hsim as [l ->]. rewrite Harm.
  intros D. pose proof (send_dispatch_arm_task_waits _ _ _ D) as [Wz We].
  apply send_dispatch_arm_task_cases in D. simpl in *.
  destruct D as (A & R & Zp & Ep & C & F).
  do 7 (split; [assumption|]).
  exists l. exact F.
Qed.

Lemma TaskRequester_sends_iff fuel a n0 :
  TaskRequester fuel a = (Ret tt, n0) ->
  (1 <= List.length (calls n0))%nat ->
  action a <> "arm_action".
Proof.
  intros T L Harm.
  destruct (TaskRequester_arm _ _ _ _ Harm T) as (C & _).
  rewrite C in L. simpl in L. lia.
Qed.

(** Whatever the descriptions are, at most one message is published, and
    none unless every completion succeeded. *)
Lemma dispatch_at_most_once fuel a n0 cs :
  TaskRequester fuel a = (Ret tt, n0) ->
  (1 <= List.length (calls n0))%nat ->
  Permutation (map completion_slot cs) (map request_slot (calls n0)) ->
  (List.length (published (snd (spin_callbacks cs n0))) <= 1)%nat /\
  (List.length (published (snd (spin_callbacks cs n0))) = 1%nat ->
   forallb succeeded cs = true).
Proof.
  intros T L P.
  pose proof (TaskRequester_sends_iff _ _ _ T L) as Harm.
  destruct (TaskRequester_gated _ _ _ _ Harm T) as (A & Pub & R & _ & _ & G).
  destruct (G eq_refl) as (_ & Zp & Ep).
  destruct (perm_counts _ _ P) as [Cz Ce].
  assert (Hne : cs <> []).
  { intros ->. apply Permutation_length in P. rewrite !length_map in P.
    simpl in P. lia. }
  destruct (spin_callbacks cs n0) as [r n] eqn:S. simpl.
  apply spin_callbacks_gate in S; try congruence.
  destruct S as (_ & Hall & Hsome).
  destruct (forallb succeeded cs).
  - destruct (Hall eq_refl) as (_ & _ & _ & [(_ & msg & ->) | (_ & -> & _)]);
      rewrite Pub; simpl; auto.
  - destruct (Hsome eq_refl) as ((_ & ->) & _). rewrite Pub. simpl.
    split; [lia|discriminate].
Qed.

(** C1.  For a configuration with at least one verification request whose
    action descriptions are JSON objects, and for every order in which the
    completions of the requests arrive (one completion per request sent),
    the task message is published at most once; it is published exactly
    once if and only if every completion is a success; and that is exactly
    when both pending counters are zero at the end. *)
Theorem dispatch_once_iff_all_succeed fuel a n0 cs :
  TaskRequester fuel a = (Ret tt, n0) ->
  (1 <= List.length (calls n0))%nat ->
  descriptions_valid a = true ->
  Permutation (map completion_slot cs) (map request_slot (calls n0)) ->
  (List.length (published (snd (spin_callbacks cs n0))) <= 1)%nat /\
  (List.length (published (snd (spin_callbacks cs n0))) = 1%nat <->
   forallb succeeded cs = true) /\
  (forallb succeeded cs = true <->
   zone_requests_pending (snd (spin_callbacks cs n0)) = 0 /\
   effector_checks_pending (snd (spin_callbacks cs n0)) = 0).
Proof.
  intros T L V P.
  destruct (dispatch_at_most_once _ _ _ _ T L P) as [Hle Hone].
  split; [exact Hle|].
  pose proof (TaskRequester_sends_iff _ _ _ T L) as Harm.
  destruct (TaskRequester_gated _ _ _ _ Harm T) as (A & Pub & R & _ & _ & G).
  destruct (G eq_refl) as (_ & Zp & Ep).
  destruct (perm_counts _ _ P) as [Cz Ce].
  assert (Hne : cs <> []).
  { intros ->. apply Permutation_length in P. rewrite !length_map in P.
    simpl in P. lia. }
  destruct (spin_callbacks cs n0) as [r n] eqn:S. simpl in *.
  apply spin_callbacks_gate in S; try congruence.
  destruct S as (_ & Hall & Hsome).
  split.
  - split; [exact Hone|]. intros Hs.
    destruct (Hall Hs) as (_ & _ & _ & [(_ & msg & ->) | (_ & _ & Bad)]).
    + rewrite Pub. reflexivity.
    + congruence.
  - split.
    + intros Hs. destruct (Hall Hs) as (? & ? & _). auto.
    + intros [Z0 E0]. destruct (forallb succeeded cs); [reflexivity|].
      destruct (Hsome eq_refl) as (_ & Pos & _). lia.
Qed.

(** C7.  A configuration that requires no verification (the action is
    [arm_action]) and whose action descriptions are JSON objects publishes
    the task message exactly once, in the constructor, without sending a
    zone or effector request and without waiting for either service. *)
Theorem immediate_dispatch_without_requests fuel a :
  action a = "arm_action" ->
  descriptions_valid a = true ->
  exists msg n,
    TaskRequester fuel a = (Ret tt, n) /\
    published n = [msg] /\ calls n = [] /\
    zone_waits n = 0%nat /\ effector_waits n = 0%nat /\
    zone_requests_pending n = 0 /\ effector_checks_pending n = 0.
Proof.
  intros Harm V.
  destruct (TaskRequester fuel a) as [r n] eqn:T.
  destruct (TaskRequester_arm _ _ _ _ Harm T)
    as (C & Wz & We & Zp & Ep & _ & _ & l & F).
  destruct F as [(-> & msg & Pub) | (_ & _ & Bad)].
  - exists msg, n. simpl in Pub. auto 10.
  - simpl in Bad. congruence.
Qed.

(** ** The composer *)

Lemma round_div_nearest n d :
  0 < d -> 2 * Z.abs (round_div n d * d - n) <= d.
Proof.
  intros Hd. unfold round_div.
  pose proof (Z.div_mod n d ltac:(lia)) as E.
  pose proof (Z.mod_pos_bound n d Hd) as B.
  destruct (2 * (n mod d) <? d) eqn:C1; [apply Z.ltb_lt in C1; nia|].
  apply Z.ltb_ge in C1.
  destruct (d <? 2 * (n mod d)) eqn:C2; [apply Z.ltb_lt in C2; nia|].
  apply Z.ltb_ge in C2.
  destruct (Z.even (n / d)); nia.
Qed.

Lemma base_payload_request a req :
  dict_get "request" (base_payload a ++ [("request", req)]) = Some req.
Proof.
  unfold base_payload. destruct (truthy (fleet a) && truthy (robot a)); reflexivity.
Qed.

Lemma slot_order_emitted action obj zone desc places acts :
  add_action_activities action obj zone desc places [] = (Ret tt, acts) ->
  slot_order action obj zone acts = true.
Proof.
  rewrite add_action_activities_eq.
  destruct (json_loads desc) as [d|]; [|discriminate].
  unfold slot_order, is_perform_action, is_zone_activity.
  destruct (truthy_opt obj).
  - destruct zone as [z|].
    + destruct (setitem "zone_name" (JStr z) d); [|discriminate].
      intros E; inversion E; subst; simpl. now rewrite String.eqb_refl.
    + intros E; inversion E; subst. reflexivity.
  - intros E; inversion E; subst; simpl. now rewrite String.eqb_refl.
Qed.

(** On valid descriptions the composer returns, and the payload is the
    base dict with the request built around the activities of the first
    action followed by those of the second. *)
Lemma payload_when_valid n :
  descriptions_valid (args n) = true ->
  exists acts1 acts2,
    add_action_activities (action (args n)) (object_name (args n))
      (object_zone_name n) (action_desc (args n)) (places (args n)) []
    = (Ret tt, acts1) /\
    (if truthy (action2 (args n)) then
       add_action_activities (action2 (args n)) (object_name2 (args n))
         (object_zone_name2 n) (action_desc2 (args n)) (places (args n)) []
       = (Ret tt, acts2)
     else acts2 = []) /\
    dispatch_arm_task_payload n =
    (Ret (JDict (base_payload (args n) ++
                 [("request", request_of (args n) (acts1 ++ acts2))])),
     set_log (log n ++ [using_record (args n)]) n).
Proof.
  intros V. rewrite dispatch_arm_task_payload_eq. cbv zeta.
  unfold descriptions_valid in V. apply andb_prop in V. destruct V as [V1 V2].
  unfold activities_program. unfold_m.
  destruct (add_action_activities_valid (action (args n)) (object_name (args n))
              (object_zone_name n) (action_desc (args n)) (places (args n)) [] V1)
    as [acts1 E1].
  rewrite E1. exists acts1.
  destruct (truthy (action2 (args n))).
  - destruct (add_action_activities_valid (action2 (args n))
                (object_name2 (args n)) (object_zone_name2 n)
                (action_desc2 (args n)) (places (args n)) acts1 V2)
      as [acts' E2].
    rewrite E2.
    apply add_action_activities_appends in E2. destruct E2 as (acts2 & -> & E2).
    exists acts2. auto.
  - exists []. rewrite app_nil_r. auto.
Qed.

Lemma create_when_composed n payload n' :
  dispatch_arm_task_payload n = (Ret payload, n') ->
  create_dispatch_arm_task n =
  (Ret {| request_id := "dispatch_arm_task_" ++ uuid4;
          json_msg := json_dumps payload |}, n').
Proof. intros E. rewrite create_dispatch_arm_task_eq, E. reflexivity. Qed.

(** C3, as the code has it.  For every configuration whose descriptions
    are JSON objects, with or without a second action, the message carries
    the composed payload; the category of its request is the constant
    [compose], and the category of the description of the request is the
    name of the first action. *)
Theorem payload_categories n :
  descriptions_valid (args n) = true ->
  exists payload n',
    dispatch_arm_task_payload n = (Ret payload, n') /\
    create_dispatch_arm_task n =
    (Ret {| request_id := "dispatch_arm_task_" ++ uuid4;
            json_msg := json_dumps payload |}, n') /\
    path ["request"; "category"] payload = Some (JStr "compose") /\
    path ["request"; "description"; "category"] payload =
    Some (JStr (action (args n))).
Proof.
  intros V. destruct (payload_when_valid n V) as (acts1 & acts2 & _ & _ & E).
  eexists. eexists. split; [exact E|]. split; [exact (create_when_composed _ _ _ E)|].
  unfold path. simpl. rewrite base_payload_request. split; reflexivity.
Qed.

(** C4, as the code has it.  For every configuration whose descriptions
    are JSON objects, the activities of the payload are one flat list: the
    activities of the first action, then those of the second action when
    there is one.  Each action contributes a perform_action activity alone
    when it has no object name, a zone activity followed by a
    perform_action activity when it has an object name and its zone is
    known, and nothing when it has an object name and no zone is known. *)
Theorem activities_flat_and_ordered n :
  descriptions_valid (args n) = true ->
  exists payload n' acts1 acts2,
    dispatch_arm_task_payload n = (Ret payload, n') /\
    payload_activities payload = Some (acts1 ++ acts2) /\
    slot_order (action (args n)) (object_name (args n)) (object_zone_name n)
      acts1 = true /\
    (if truthy (action2 (args n)) then
       slot_order (action2 (args n)) (object_name2 (args n))
         (object_zone_name2 n) acts2 = true
     else acts2 = []).
Proof.
  intros V. destruct (payload_when_valid n V) as (acts1 & acts2 & E1 & E2 & E).
  eexists. eexists. exists acts1, acts2. split; [exact E|]. split.
  - unfold payload_activities, path. simpl. rewrite base_payload_request.
    reflexivity.
  - split; [exact (slot_order_emitted _ _ _ _ _ _ E1)|].
    destruct (truthy (action2 (args n))); [|exact E2].
    exact (slot_order_emitted _ _ _ _ _ _ E2).
Qed.

(** C5.  For every reading of the clock and every start offset, the
    earliest start time of the payload is the clock's seconds plus the
    offset, times 1000, plus the clock's nanoseconds rounded to the nearest
    millisecond: the offset moves the result by whole seconds only, so the
    sub-second part of the clock reading is kept. *)
Theorem earliest_start_time_millis n :
  descriptions_valid (args n) = true ->
  exists payload n',
    dispatch_arm_task_payload n = (Ret payload, n') /\
    path ["request"; "unix_millis_earliest_start_time"] payload =
    Some (JInt ((sec clock_now + start_time (args n)) * 1000 +
                round_div (nanosec clock_now) (10 ^ 6))) /\
    start_time_millis clock_now (start_time (args n)) =
    start_time_millis clock_now 0 + start_time (args n) * 1000 /\
    2 * Z.abs (round_div (nanosec clock_now) (10 ^ 6) * 10 ^ 6 -
               nanosec clock_now) <= 10 ^ 6.
Proof.
  intros V. destruct (payload_when_valid n V) as (acts1 & acts2 & _ & _ & E).
  eexists. eexists. split; [exact E|]. split.
  - unfold path. simpl. rewrite base_payload_request. reflexivity.
  - split.
    + unfold start_time_millis. lia.
    + apply round_div_nearest. lia.
Qed.

(** C10.  For an action slot that has an object name but whose zone
    attribute is [None], the composer's helper leaves the activities as
    they are: it appends neither a zone activity nor a perform_action
    activity.  It returns normally whenever the description parses. *)
Theorem unknown_zone_emits_nothing action obj desc places acts :
  truthy_opt obj = true ->
  add_action_activities action obj None desc places acts =
  match json_loads desc with
  | Some _ => (Ret tt, acts)
  | None => (Raise JSONDecodeError, acts)
  end.
Proof.
  intros T. rewrite add_action_activities_eq, T.
  destruct (json_loads desc); reflexivity.
Qed.

(** ** Failures *)

(** A completion that is not a success cancels the outcome and changes
    nothing else but the log, to which it adds one record. *)
Lemma deliver_failure c n :
  succeeded c = false ->
  exists record,
    deliver c n =
    (Ret tt, set_response (cancel (response n)) (set_log (log n ++ [record]) n)) /\
    fst record = match verdict c with Unavailable => ERROR | _ => WARN end.
Proof.
  unfold succeeded, verdict.
  destruct c as [s [res|]|s [res|]]; simpl.
  - unfold zone_request_service_callback, zone_confirmed.
    destruct (is_mm_zone res), (truthy (zone_name res)); simpl;
      try discriminate; intros _; eexists; split; reflexivity.
  - intros _. eexists; split; reflexivity.
  - unfold effector_query_service_callback.
    destruct (effector_ready res); simpl; try discriminate.
    intros _; eexists; split; reflexivity.
  - intros _. eexists; split; reflexivity.
Qed.


(** ** Waiting for the services *)

Lemma wait_for_zone_service_spins k : forall fuel n,
  (forall j, (j < k)%nat -> zone_service_ready (zone_waits n + j) = false) ->
  (fuel <= k)%nat ->
  fst (wait_for_zone_service fuel n) = Spin /\
  same_gate n (snd (wait_for_zone_service fuel n)) /\
  calls (snd (wait_for_zone_service fuel n)) = calls n.
Proof.
  induction k as [|k IH]; intros fuel n Hdown Hfuel.
  - assert (fuel = 0%nat) by lia. subst. simpl.
    split; [reflexivity|]. split; [apply same_gate_refl|reflexivity].
  - destruct fuel as [|fuel]; simpl.
    + split; [reflexivity|]. split; [apply same_gate_refl|reflexivity].
    + unfold zone_wait_for_service. unfold_m.
      assert (Hd : zone_service_ready (zone_waits n) = false)
        by (rewrite <- (Nat.add_0_r (zone_waits n)); apply Hdown; lia).
      rewrite Hd. cbv beta iota.
      match goal with
      | |- context [wait_for_zone_service fuel ?m] =>
          destruct (IH fuel m) as (F & G & C)
      end.
      * intros j Hj. simpl. rewrite <- Nat.add_succ_r. apply Hdown. lia.
      * lia.
      * split; [exact F|]. split; [|rewrite C; reflexivity].
        unfold same_gate in *. simpl in *. exact G.
Qed.

Lemma wait_for_zone_service_returns k : forall fuel n,
  (forall j, (j < k)%nat -> zone_service_ready (zone_waits n + j) = false) ->
  zone_service_ready (zone_waits n + k) = true ->
  (k < fuel)%nat ->
  exists n',
    wait_for_zone_service fuel n = (Ret tt, n') /\
    zone_waits n' = (zone_waits n + S k)%nat.
Proof.
  induction k as [|k IH]; intros fuel n Hdown Hup Hfuel;
    (destruct fuel as [|fuel]; [lia|]); simpl;
    unfold zone_wait_for_service; unfold_m.
  - rewrite Nat.add_0_r in Hup. rewrite Hup. eexists. split; [reflexivity|].
    simpl. lia.
  - assert (Hd : zone_service_ready (zone_waits n) = false)
      by (rewrite <- (Nat.add_0_r (zone_waits n)); apply Hdown; lia).
    rewrite Hd. cbv beta iota.
    match goal with
    | |- context [wait_for_zone_service fuel ?m] =>
        destruct (IH fuel m) as (n' & E & W)
    end.
    + intros j Hj. simpl. rewrite <- Nat.add_succ_r. apply Hdown. lia.
    + simpl. rewrite <- Nat.add_succ_r. exact Hup.
    + lia.
    + exists n'. split; [exact E|]. rewrite W. simpl. lia.
Qed.

Lemma wait_for_effector_service_spins k : forall fuel n,
  (forall j, (j < k)%nat ->
             effector_service_ready (effector_waits n + j) = false) ->
  (fuel <= k)%nat ->
  fst (wait_for_effector_service fuel n) = Spin /\
  same_gate n (snd (wait_for_effector_service fuel n)) /\
  calls (snd (wait_for_effector_service fuel n)) = calls n.
Proof.
  induction k as [|k IH]; intros fuel n Hdown Hfuel.
  - assert (fuel = 0%nat) by lia. subst. simpl.
    split; [reflexivity|]. split; [apply same_gate_refl|reflexivity].
  - destruct fuel as [|fuel]; simpl.
    + split; [reflexivity|]. split; [apply same_gate_refl|reflexivity].
    + unfold effector_wait_for_service. unfold_m.
      assert (Hd : effector_service_ready (effector_waits n) = false)
        by (rewrite <- (Nat.add_0_r (effector_waits n)); apply Hdown; lia).
      rewrite Hd. cbv beta iota.
      match goal with
      | |- context [wait_for_effector_service fuel ?m] =>
          destruct (IH fuel m) as (F & G & C)
      end.
      * intros j Hj. simpl. rewrite <- Nat.add_succ_r. apply Hdown. lia.
      * lia.
      * split; [exact F|]. split; [|rewrite C; reflexivity].
        unfold same_gate in *. simpl in *. exact G.
Qed.

Lemma wait_for_effector_service_returns k : forall fuel n,
  (forall j, (j < k)%nat ->
             effector_service_ready (effector_waits n + j) = false) ->
  effector_service_ready (effector_waits n + k) = true ->
  (k < fuel)%nat ->
  exists n',
    wait_for_effector_service fuel n = (Ret tt, n') /\
    effector_waits n' = (effector_waits n + S k)%nat.
Proof.
  induction k as [|k IH]; intros fuel n Hdown Hup Hfuel;
    (destruct fuel as [|fuel]; [lia|]); simpl;
    unfold effector_wait_for_service; unfold_m.
  - rewrite Nat.add_0_r in Hup. rewrite Hup. eexists. split; [reflexivity|].
    simpl. lia.
  - assert (Hd : effector_service_ready (effector_waits n) = false)
      by (rewrite <- (Nat.add_0_r (effector_waits n)); apply Hdown; lia).
    rewrite Hd. cbv beta iota.
    match goal with
    | |- context [wait_for_effector_service fuel ?m] =>
        destruct (IH fuel m) as (n' & E & W)
    end.
    + intros j Hj. simpl. rewrite <- Nat.add_succ_r. apply Hdown. lia.
    + simpl. rewrite <- Nat.add_succ_r. exact Hup.
    + lia.
    + exists n'. split; [exact E|]. rewrite W. simpl. lia.
Qed.

Lemma send_zone_request_spins k fuel o s n :
  (forall j, (j < k)%nat -> zone_service_ready (zone_waits n + j) = false) ->
  (fuel <= k)%nat ->
  fst (send_zone_request fuel o s n) = Spin /\
  response (snd (send_zone_request fuel o s n)) = response n /\
  calls (snd (send_zone_request fuel o s n)) = calls n.
Proof.
  intros Hz Hf.
  destruct (wait_for_zone_service_spins k fuel n Hz Hf) as (F & G & C).
  unfold send_zone_request, bind.
  destruct (wait_for_zone_service fuel n) as [[]]; simpl in *;
    try discriminate.
  repeat split; [apply G|exact C].
Qed.

Lemma send_zone_request_returns k fuel o s n :
  (forall j, (j < k)%nat -> zone_service_ready (zone_waits n + j) = false) ->
  zone_service_ready (zone_waits n + k) = true ->
  (k < fuel)%nat ->
  exists n',
    send_zone_request fuel o s n = (Ret tt, n') /\
    response n' = response n /\
    calls n' = calls n ++ [ZoneRequest o s] /\
    zone_waits n' = (zone_waits n + S k)%nat.
Proof.
  intros Hz Hup Hf.
  destruct (wait_for_zone_service_returns k fuel n Hz Hup Hf) as (n1 & E & W).
  pose proof (wait_for_zone_service_frame _ _ _ _ E) as (G & C & _).
  unfold send_zone_request. unfold bind at 1. rewrite E. unfold_m.
  eexists. split; [reflexivity|]. simpl.
  split; [apply G|]. split; [now rewrite C|exact W].
Qed.

Lemma send_effector_query_spins k fuel act s n :
  (forall j, (j < k)%nat ->
             effector_service_ready (effector_waits n + j) = false) ->
  (fuel <= k)%nat ->
  fst (send_effector_query fuel act s n) = Spin /\
  response (snd (send_effector_query fuel act s n)) = response n /\
  calls (snd (send_effector_query fuel act s n)) = calls n.
Proof.
  intros He Hf.
  destruct (wait_for_effector_service_spins k fuel n He Hf) as (F & G & C).
  unfold send_effector_query, bind.
  destruct (wait_for_effector_service fuel n) as [[]]; simpl in *;
    try discriminate.
  repeat split; [apply G|exact C].
Qed.

Lemma send_effector_query_returns k fuel act s n :
  (forall j, (j < k)%nat ->
             effector_service_ready (effector_waits n + j) = false) ->
  effector_service_ready (effector_waits n + k) = true ->
  (k < fuel)%nat ->
  exists n',
    send_effector_query fuel act s n = (Ret tt, n') /\
    response n' = response n /\
    calls n' = calls n ++ [EffectorQuery (robot (args n)) act s] /\
    effector_waits n' = (effector_waits n + S k)%nat.
Proof.
  intros He Hup Hf.
  destruct (wait_for_effector_service_returns k fuel n He Hup Hf) as (n1 & E & W).
  pose proof (wait_for_effector_service_frame _ _ _ _ E) as (G & C & _).
  unfold send_effector_query. unfold bind at 1. rewrite E. unfold_m.
  eexists. split; [reflexivity|]. simpl.
  split; [apply G|]. split; [|exact W].
  rewrite C. destruct G as (-> & _). reflexivity.
Qed.

(** C8, as the code has it.  While a service does not answer, the request
    for it is not given up: after any number of failed calls of
    [wait_for_service] the method is still waiting, it has not cancelled
    the outcome and has sent nothing.  The request is sent as soon as a
    call of [wait_for_service] succeeds, after exactly that many calls. *)
Theorem wait_for_service_retries_until_available n kz ke :
  (forall j, (j < kz)%nat -> zone_service_ready (zone_waits n + j) = false) ->
  (forall j, (j < ke)%nat ->
             effector_service_ready (effector_waits n + j) = false) ->
  (forall fuel o s, (fuel <= kz)%nat ->
     fst (send_zone_request fuel o s n) = Spin /\
     response (snd (send_zone_request fuel o s n)) = response n /\
     calls (snd (send_zone_request fuel o s n)) = calls n) /\
  (forall fuel o s, (kz < fuel)%nat ->
     zone_service_ready (zone_waits n + kz) = true ->
     exists n',
       send_zone_request fuel o s n = (Ret tt, n') /\
       response n' = response n /\
       calls n' = calls n ++ [ZoneRequest o s] /\
       zone_waits n' = (zone_waits n + S kz)%nat) /\
  (forall fuel act s, (fuel <= ke)%nat ->
     fst (send_effector_query fuel act s n) = Spin /\
     response (snd (send_effector_query fuel act s n)) = response n /\
     calls (snd (send_effector_query fuel act s n)) = calls n) /\
  (forall fuel act s, (ke < fuel)%nat ->
     effector_service_ready (effector_waits n + ke) = true ->
     exists n',
       send_effector_query fuel act s n = (Ret tt, n') /\
       response n' = response n /\
       calls n' = calls n ++ [EffectorQuery (robot (args n)) act s] /\
       effector_waits n' = (effector_waits n + S ke)%nat).
Proof.
  intros Hz He. split; [|split; [|split]].
  - intros fuel o s Hf. now apply send_zone_request_spins with (k := kz).
  - intros fuel o s Hf Hup. now apply send_zone_request_returns.
  - intros fuel act s Hf. now apply send_effector_query_spins with (k := ke).
  - intros fuel act s Hf Hup. now apply send_effector_query_returns.
Qed.

(** ** Further properties of the coordinator *)

(** Once both counters are at or below zero no completion dispatches. *)
Lemma spin_callbacks_spent cs : forall n,
  zone_requests_pending n <= 0 -> effector_checks_pending n <= 0 ->
  published (snd (spin_callbacks cs n)) = published n.
Proof.
  induction cs as [|c cs IH]; intros n Hz He; [reflexivity|].
  simpl spin_callbacks. unfold bind.
  destruct (deliver c n) as [r1 n1] eqn:D.
  apply deliver_cases in D. destruct D as (_ & _ & Zp & Ep & _ & D).
  destruct D as [(Sc & Z0 & E0 & _) | (_ & -> & P)].
  - rewrite Sc in Zp, Ep. destruct (is_zone c); simpl in Zp, Ep; lia.
  - rewrite IH; [exact P| |];
      destruct (succeeded c), (is_zone c); simpl in Zp, Ep; lia.
Qed.

(** X1.  Whatever completions are delivered, in whatever number and
    order (duplicates and completions of requests never sent included),
    and from whatever state, the callbacks publish at most one message. *)
Theorem callbacks_publish_at_most_once cs : forall n,
  (List.length (published (snd (spin_callbacks cs n))) <=
   List.length (published n) + 1)%nat.
Proof.
  induction cs as [|c cs IH]; intros n; [simpl; lia|].
  simpl spin_callbacks. unfold bind.
  destruct (deliver c n) as [r1 n1] eqn:D.
  apply deliver_cases in D. destruct D as (_ & _ & _ & _ & _ & D).
  destruct D as [(_ & Z0 & E0 & [(-> & msg & P) | ((e & ->) & P & _)])
                | (_ & -> & P)].
  - rewrite spin_callbacks_spent by lia. rewrite P, length_app. simpl. lia.
  - simpl. rewrite P. lia.
  - specialize (IH n1). rewrite P in IH. exact IH.
Qed.

(** A callback either returns without touching the transport, or hands
    over to [send_dispatch_arm_task] with both counters at zero. *)
Lemma deliver_dispatches c n r n' :
  deliver c n = (r, n') ->
  (r = Ret tt /\ published n' = published n /\
   subscriptions n' = subscriptions n /\
   msg_request_id n' = msg_request_id n /\ stored c n n') \/
  (exists n1,
     send_dispatch_arm_task n1 = (r, n') /\ succeeded c = true /\
     args n1 = args n /\ published n1 = published n /\
     subscriptions n1 = subscriptions n /\
     msg_request_id n1 = msg_request_id n /\ stored c n n1 /\
     response n1 = response n /\
     zone_requests_pending n1 = 0 /\ effector_checks_pending n1 = 0).
Proof.
  unfold stored.
  destruct c as [s [res|]|s [res|]]; simpl.
  - unfold zone_request_service_callback, zone_confirmed.
    destruct (is_mm_zone res) eqn:Im, (truthy (zone_name res)) eqn:Tz; simpl;
      try (unfold_m; intros E; inversion E; subst; simpl;
           rewrite ?andb_false_r; left; repeat split; reflexivity).
    unfold check_if_ready_to_dispatch.
    destruct s; unfold_m; simpl;
      match goal with
      | |- context [(?a =? 0) && (?b =? 0)] =>
          destruct (a =? 0) eqn:Z0; [destruct (b =? 0) eqn:E0|]
      end; simpl; intros E;
      try (inversion E; subst; simpl; left; repeat split; reflexivity);
      right; eexists; (split; [exact E|]); simpl;
      apply Z.eqb_eq in Z0, E0;
      unfold succeeded, verdict, zone_confirmed; rewrite Im, Tz;
      repeat split; assumption.
  - unfold zone_request_service_callback. unfold_m.
    intros E; inversion E; subst; simpl. left; repeat split; reflexivity.
  - unfold effector_query_service_callback, check_if_ready_to_dispatch.
    destruct (effector_ready res) eqn:Er; simpl.
    + unfold_m; simpl;
      match goal with
      | |- context [(?a =? 0) && (?b =? 0)] =>
          destruct (a =? 0) eqn:Z0; [destruct (b =? 0) eqn:E0|]
      end; simpl; intros E;
      try (inversion E; subst; simpl; left; repeat split; reflexivity).
      right; eexists; (split; [exact E|]); simpl.
      apply Z.eqb_eq in Z0, E0.
      unfold succeeded, verdict; rewrite Er.
      repeat split; assumption.
    + unfold_m. intros E; inversion E; subst; simpl.
      left; repeat split; reflexivity.
  - unfold effector_query_service_callback. unfold_m.
    intros E; inversion E; subst; simpl. left; repeat split; reflexivity.
Qed.

(** What [send_dispatch_arm_task] does to the transport and to the
    attributes. *)
Lemma send_dispatch_arm_task_link n r n' :
  send_dispatch_arm_task n = (r, n') ->
  object_zone_name n' = object_zone_name n /\
  object_zone_name2 n' = object_zone_name2 n /\
  ((exists e, r = Raise e /\ published n' = published n /\
    subscriptions n' = subscriptions n /\
    msg_request_id n' = msg_request_id n /\
    fst (dispatch_arm_task_payload n) = Raise e) \/
   (exists payload,
      r = Ret tt /\
      fst (dispatch_arm_task_payload n) = Ret payload /\
      published n' =
        published n ++
        [{| request_id := ("dispatch_arm_task_" ++ uuid4)%string;
            json_msg := json_dumps payload |}] /\
      subscriptions n' = S (subscriptions n) /\
      msg_request_id n' = ("dispatch_arm_task_" ++ uuid4)%string)).
Proof.
  unfold send_dispatch_arm_task. unfold bind at 1.
  rewrite create_dispatch_arm_task_eq, dispatch_arm_task_payload_eq. cbv zeta.
  destruct (activities_program n []) as [[[]|e|] acts] eqn:P.
  - unfold_m. intros E; inversion E; subst; simpl.
    split; [reflexivity|]. split; [reflexivity|]. right.
    eexists. repeat split.
  - intros E; inversion E; subst; simpl.
    split; [reflexivity|]. split; [reflexivity|]. left.
    exists e. repeat split.
  - now apply activities_program_no_spin in P.
Qed.

Lemma correlated_publish n n' msg :
  correlated n ->
  published n' = published n ++ [msg] ->
  subscriptions n' = S (subscriptions n) ->
  msg_request_id n' = request_id msg ->
  correlated n'.
Proof.
  unfold correlated. intros [Cs Cm] P S' M'.
  rewrite P, S', M', Cs, length_app, map_app. simpl. rewrite last_last.
  split; [lia|reflexivity].
Qed.

Lemma correlated_same n n' :
  correlated n ->
  published n' = published n ->
  subscriptions n' = subscriptions n ->
  msg_request_id n' = msg_request_id n ->
  correlated n'.
Proof. unfold correlated. intros [Cs Cm] -> -> ->. auto. Qed.

Lemma send_dispatch_arm_task_correlated n r n' :
  send_dispatch_arm_task n = (r, n') -> correlated n -> correlated n'.
Proof.
  intros D C. apply send_dispatch_arm_task_link in D.
  destruct D as (_ & _ & [(e & _ & P & S' & M & _) | (p & _ & _ & P & S' & M)]).
  - exact (correlated_same _ _ C P S' M).
  - exact (correlated_publish _ _ _ C P S' M).
Qed.

Lemma deliver_correlated c n r n' :
  deliver c n = (r, n') -> correlated n -> correlated n'.
Proof.
  intros D C. apply deliver_dispatches in D.
  destruct D as [(_ & P & S' & M & _) | (n1 & D & _ & _ & P & S' & M & _)].
  - exact (correlated_same _ _ C P S' M).
  - apply (send_dispatch_arm_task_correlated _ _ _ D).
    exact (correlated_same _ _ C P S' M).
Qed.

Lemma spin_callbacks_correlated cs : forall n,
  correlated n -> correlated (snd (spin_callbacks cs n)).
Proof.
  induction cs as [|c cs IH]; intros n C; [exact C|].
  simpl spin_callbacks. unfold bind.
  destruct (deliver c n) as [[[]|e|] n1] eqn:D;
    pose proof (deliver_correlated _ _ _ _ D C) as C1; simpl; auto.
Qed.

Ltac step_send_link :=
  match goal with
  | |- context [send_zone_request ?f ?o ?s ?n] =>
      let E := fresh "E" in
      destruct (send_zone_request f o s n) as [[[]| |] ?] eqn:E;
      apply send_zone_request_frame in E;
      destruct E as ((?&?&?&?&?&?&?&?&?) & [(?&?)|(?&?)]); try discriminate
  | |- context [send_effector_query ?f ?o ?s ?n] =>
      let E := fresh "E" in
      destruct (send_effector_query f o s n) as [[[]| |] ?] eqn:E;
      apply send_effector_query_frame in E;
      destruct E as ((?&?&?&?&?&?&?&?&?) & [(?&?)|(?&?)]); try discriminate
  end.

Lemma sim_time_step a :
  exists l,
    (if use_sim_time a
     then (logger INFO "Using Sim Time";; modify (set_sim_time true))%method
     else ret tt) (new_node a) =
    (Ret tt, set_log l (set_sim_time (use_sim_time a) (new_node a))).
Proof.
  destruct (use_sim_time a);
    [exists [(INFO, "Using Sim Time")] | exists []]; reflexivity.
Qed.

(** The constructor on a configuration that needs verification: what it
    leaves untouched, and the requests it has sent when it returns. *)
Lemma TaskRequester_sends fuel a r n0 :
  action a <> "arm_action" ->
  TaskRequester fuel a = (r, n0) ->
  msg_request_id n0 = "" /\
  object_zone_name n0 = None /\ object_zone_name2 n0 = None /\
  (r = Ret tt -> calls n0 = requests_of a).
Proof.
  intros Harm. apply String.eqb_neq in Harm.
  unfold requests_of. rewrite Harm.
  unfold TaskRequester, __init__. unfold bind at 1. unfold gets at 1.
  simpl args. unfold bind at 1.
  destruct (sim_time_step a) as [l ->]. rewrite Harm.
  unfold when_named, zone_request_for.
  destruct (object_name a) as [o1|]; simpl truthy_opt;
  [destruct (truthy o1)|];
  (destruct (truthy (action2 a)); simpl andb;
   [destruct (object_name2 a) as [o2|]; simpl truthy_opt;
    [destruct (truthy o2)|]|]);
  unfold bind, modify, ret; cbv beta iota;
  repeat (step_send_link; cbv beta iota);
  intros E; inversion E; subst;
  simpl in *;
  (repeat split; try congruence; auto); try discriminate;
  repeat match goal with H : calls _ = _ |- _ => rewrite H; clear H end;
  simpl; congruence.
Qed.

Lemma TaskRequester_correlated fuel a :
  correlated (snd (TaskRequester fuel a)).
Proof.
  destruct (TaskRequester fuel a) as [r n0] eqn:T. simpl.
  destruct (String.eqb (action a) "arm_action") eqn:Harm.
  - unfold TaskRequester, __init__ in T. unfold bind at 1 in T.
    unfold gets at 1 in T. simpl args in T. unfold bind at 1 in T.
    destruct (sim_time_step a) as [l E]. rewrite E, Harm in T.
    apply send_dispatch_arm_task_correlated in T; [exact T|].
    split; reflexivity.
  - apply String.eqb_neq in Harm.
    destruct (TaskRequester_gated _ _ _ _ Harm T) as (_ & P & _ & S' & _).
    destruct (TaskRequester_sends _ _ _ _ Harm T) as (M & _).
    unfold correlated. rewrite P, S', M. split; reflexivity.
Qed.

(** X2.  At every point of a run (after the constructor, whether it
    returned or not, and after any completions) the node and the transport
    agree: there are as many subscriptions to the responses as published
    messages, and [msg_request_id] is the request id of the last published
    message, the empty string while nothing is published. *)
Theorem request_id_tracks_publication fuel a cs :
  correlated (snd (spin_callbacks cs (snd (TaskRequester fuel a)))).
Proof.
  apply spin_callbacks_correlated, TaskRequester_correlated.
Qed.

(** X3.  When the constructor returns it has sent exactly the requests
    the configuration calls for, in this order: the zone request of the
    first object, the zone request of the second object (only with a
    second action), the effector query of the first action, the effector
    query of the second action; each pending counter is the number of
    requests of its kind.  With [arm_action] it has sent none. *)
Theorem constructor_sends_planned_requests fuel a n0 :
  TaskRequester fuel a = (Ret tt, n0) ->
  calls n0 = requests_of a /\
  zone_requests_pending n0 = zone_slots (map request_slot (requests_of a)) /\
  effector_checks_pending n0 =
    effector_slots (map request_slot (requests_of a)).
Proof.
  intros T.
  destruct (String.eqb (action a) "arm_action") eqn:Harm.
  - apply String.eqb_eq in Harm.
    destruct (TaskRequester_arm _ _ _ _ Harm T) as (C & _ & _ & Zp & Ep & _).
    unfold requests_of. rewrite Harm. simpl. auto.
  - apply String.eqb_neq in Harm.
    destruct (TaskRequester_sends _ _ _ _ Harm T) as (_ & _ & _ & C).
    destruct (TaskRequester_gated _ _ _ _ Harm T) as (_ & _ & _ & _ & _ & G).
    destruct (G eq_refl) as (_ & Zp & Ep).
    rewrite <- (C eq_refl). auto.
Qed.

(** ** The constructor returns once the services are up *)

Lemma wait_for_zone_service_up k : forall fuel n,
  up_from zone_service_ready k ->
  (k < fuel + zone_waits n)%nat -> (0 < fuel)%nat ->
  exists n', wait_for_zone_service fuel n = (Ret tt, n').
Proof.
  induction fuel as [|fuel IH]; intros n Hup Hk Hf; [lia|].
  simpl. unfold zone_wait_for_service. unfold_m.
  destruct (zone_service_ready (zone_waits n)) eqn:R; [eauto|].
  assert (Hw : (zone_waits n < k)%nat).
  { destruct (Nat.lt_ge_cases (zone_waits n) k) as [?|Hge]; [assumption|].
    rewrite (Hup _ Hge) in R. discriminate. }
  apply IH; simpl; [assumption|lia|lia].
Qed.

Lemma wait_for_effector_service_up k : forall fuel n,
  up_from effector_service_ready k ->
  (k < fuel + effector_waits n)%nat -> (0 < fuel)%nat ->
  exists n', wait_for_effector_service fuel n = (Ret tt, n').
Proof.
  induction fuel as [|fuel IH]; intros n Hup Hk Hf; [lia|].
  simpl. unfold effector_wait_for_service. unfold_m.
  destruct (effector_service_ready (effector_waits n)) eqn:R; [eauto|].
  assert (Hw : (effector_waits n < k)%nat).
  { destruct (Nat.lt_ge_cases (effector_waits n) k) as [?|Hge]; [assumption|].
    rewrite (Hup _ Hge) in R. discriminate. }
  apply IH; simpl; [assumption|lia|lia].
Qed.

Lemma send_zone_request_up k fuel o s n :
  up_from zone_service_ready k -> (k < fuel)%nat ->
  exists n', send_zone_request fuel o s n = (Ret tt, n').
Proof.
  intros Hup Hk.
  destruct (wait_for_zone_service_up k fuel n Hup) as [n1 E]; try lia.
  unfold send_zone_request. unfold bind at 1. rewrite E. unfold_m. eauto.
Qed.

Lemma send_effector_query_up k fuel act s n :
  up_from effector_service_ready k -> (k < fuel)%nat ->
  exists n', send_effector_query fuel act s n = (Ret tt, n').
Proof.
  intros Hup Hk.
  destruct (wait_for_effector_service_up k fuel n Hup) as [n1 E]; try lia.
  unfold send_effector_query. unfold bind at 1. rewrite E. unfold_m. eauto.
Qed.

(** X4.  If each service answers every call of [wait_for_service] from
    some call on, the constructor of a configuration that needs
    verification does not wait for ever: after a bounded number of calls
    it returns, with the outcome pending and nothing published. *)
Theorem constructor_returns_when_services_are_up fuel a kz ke :
  action a <> "arm_action" ->
  up_from zone_service_ready kz ->
  up_from effector_service_ready ke ->
  (kz < fuel)%nat -> (ke < fuel)%nat ->
  exists n0,
    TaskRequester fuel a = (Ret tt, n0) /\
    response n0 = Pending /\ published n0 = [].
Proof.
  intros Harm Hz He Hkz Hke.
  destruct (TaskRequester fuel a) as [r n0] eqn:T.
  destruct (TaskRequester_gated _ _ _ _ Harm T) as (_ & P & R & _ & _ & _).
  exists n0. split; [|auto]. f_equal.
  apply String.eqb_neq in Harm.
  unfold TaskRequester, __init__ in T. unfold bind at 1 in T.
  unfold gets at 1 in T. simpl args in T. unfold bind at 1 in T.
  destruct (sim_time_step a) as [l E]. rewrite E, Harm in T. clear E.
  unfold when_named in T.
  revert T.
  destruct (object_name a) as [o1|]; simpl truthy_opt;
  [destruct (truthy o1)|];
  (destruct (truthy (action2 a)); simpl andb;
   [destruct (object_name2 a) as [o2|]; simpl truthy_opt;
    [destruct (truthy o2)|]|]);
  unfold bind, modify, ret; cbv beta iota;
  repeat (match goal with
          | |- context [send_zone_request ?f ?o ?s ?n] =>
              let E := fresh "E" in
              destruct (send_zone_request_up kz f o s n Hz Hkz) as [? E];
              rewrite E; clear E
          | |- context [send_effector_query ?f ?o ?s ?n] =>
              let E := fresh "E" in
              destruct (send_effector_query_up ke f o s n He Hke) as [? E];
              rewrite E; clear E
          end; cbv beta iota);
  intros T; inversion T; reflexivity.
Qed.

(** ** A description that does not parse *)

Lemma payload_needs_first_description n :
  json_loads (action_desc (args n)) = None ->
  fst (dispatch_arm_task_payload n) = Raise JSONDecodeError.
Proof.
  intros E. rewrite dispatch_arm_task_payload_eq. cbv zeta.
  unfold activities_program. unfold bind at 1.
  rewrite add_action_activities_eq, E. reflexivity.
Qed.

Lemma spin_callbacks_without_description cs : forall n,
  json_loads (action_desc (args n)) = None ->
  published (snd (spin_callbacks cs n)) = published n.
Proof.
  induction cs as [|c cs IH]; intros n E; [reflexivity|].
  simpl spin_callbacks. unfold bind.
  destruct (deliver c n) as [r1 n1] eqn:D.
  pose proof (deliver_cases _ _ _ _ D) as (A & _).
  apply deliver_dispatches in D.
  destruct D as [(-> & P & _) | (n2 & D & _ & A2 & P & _)].
  - rewrite IH; [exact P|]. now rewrite A.
  - apply send_dispatch_arm_task_link in D.
    rewrite payload_needs_first_description in D by (now rewrite A2).
    destruct D as (_ & _ & [(e & -> & P' & _) | (p & _ & Bad & _)]);
      [|discriminate].
    simpl. congruence.
Qed.

(** X5.  When the description of the first action is not a JSON document,
    no run of the script publishes a task: with [arm_action] the
    constructor raises, and otherwise no completions, however many and in
    whatever order, lead to a publication. *)
Theorem unparsable_description_blocks_dispatch fuel a cs :
  json_loads (action_desc a) = None ->
  published (snd (spin_callbacks cs (snd (TaskRequester fuel a)))) = [] /\
  (action a = "arm_action" -> exists e, fst (TaskRequester fuel a) = Raise e).
Proof.
  intros E.
  destruct (TaskRequester fuel a) as [r n0] eqn:T. simpl.
  destruct (String.eqb (action a) "arm_action") eqn:Harm.
  - apply String.eqb_eq in Harm.
    destruct (TaskRequester_arm _ _ _ _ Harm T)
      as (_ & _ & _ & _ & _ & _ & A & l & F).
    assert (V : descriptions_valid a = false).
    { unfold descriptions_valid. now rewrite E. }
    destruct F as [(-> & msg & P) | ((e & ->) & P & _)].
    + exfalso.
      unfold TaskRequester, __init__ in T. unfold bind at 1 in T.
      unfold gets at 1 in T. simpl args in T. unfold bind at 1 in T.
      destruct (sim_time_step a) as [l' E']. rewrite E' in T.
      apply String.eqb_eq in Harm. rewrite Harm in T.
      apply send_dispatch_arm_task_link in T.
      rewrite payload_needs_first_description in T by exact E.
      destruct T as (_ & _ & [(e & Bad & _) | (p & _ & Bad & _)]);
        discriminate.
    + split; [|eauto].
      rewrite spin_callbacks_without_description by (now rewrite A).
      exact P.
  - apply String.eqb_neq in Harm.
    destruct (TaskRequester_gated _ _ _ _ Harm T) as (A & P & _).
    split; [|intros Bad; congruence].
    rewrite spin_callbacks_without_description by (now rewrite A).
    exact P.
Qed.

(** ** The zones the payload is composed from *)

Lemma zones_after_cons c cs z :
  zones_after (c :: cs) z =
  zones_after cs
    (match confirmed_zone false c with Some x => Some x | None => fst z end,
     match confirmed_zone true c with Some x => Some x | None => snd z end).
Proof. reflexivity. Qed.

Lemma confirmed_zone_other_slot s c :
  completion_slot c <> (Zone, s) -> confirmed_zone s c = None.
Proof.
  destruct c as [s' [r|]|s' res]; simpl; try reflexivity.
  intros Hs. destruct (Bool.eqb s' s) eqn:E; [|reflexivity].
  apply Bool.eqb_prop in E. subst. congruence.
Qed.

Lemma zones_after_keeps s cs : forall z,
  ~ In (Zone, s) (map completion_slot cs) ->
  zone_attr s (zones_after cs z) = zone_attr s z.
Proof.
  induction cs as [|c cs IH]; intros z Hn; [reflexivity|].
  rewrite zones_after_cons. simpl in Hn.
  rewrite IH by tauto.
  assert (Hc : confirmed_zone s c = None)
    by (apply confirmed_zone_other_slot; intros E; apply Hn; left; exact E).
  destruct s; simpl; rewrite Hc; reflexivity.
Qed.

(** With one completion per slot, the attribute of a slot ends as the
    zone its confirmed completion reported. *)
Lemma zones_after_confirmed s r cs : forall z,
  NoDup (map completion_slot cs) ->
  In (ZoneDone s (Some r)) cs ->
  zone_confirmed r = true ->
  zone_attr s (zones_after cs z) = Some (zone_name r).
Proof.
  induction cs as [|c cs IH]; intros z Hnd Hin Hc; [contradiction|].
  rewrite zones_after_cons. simpl in Hnd. inversion Hnd as [|? ? Hnot Hnd']; subst.
  destruct Hin as [-> | Hin].
  - simpl in Hnot. rewrite zones_after_keeps by exact Hnot.
    destruct s; simpl; rewrite Hc; reflexivity.
  - apply IH; assumption.
Qed.

Lemma stored_zones c n n1 :
  stored c n n1 ->
  (object_zone_name n1, object_zone_name2 n1) =
  zones_after [c] (object_zone_name n, object_zone_name2 n).
Proof. intros [-> ->]. reflexivity. Qed.

(** On a complete schedule of successes the last callback dispatches, on
    a node whose zone attributes are those the completions stored. *)
Lemma spin_callbacks_dispatch_state cs : forall n r n',
  zone_requests_pending n = zone_count cs ->
  effector_checks_pending n = effector_count cs ->
  cs <> [] ->
  forallb succeeded cs = true ->
  spin_callbacks cs n = (r, n') ->
  exists n1,
    send_dispatch_arm_task n1 = (r, n') /\
    args n1 = args n /\ published n1 = published n /\
    response n1 = response n /\
    (object_zone_name n1, object_zone_name2 n1) =
    zones_after cs (object_zone_name n, object_zone_name2 n).
Proof.
  induction cs as [|c cs IH]; intros n r n' Hz He Hne Hall; [congruence|].
  rewrite zone_count_cons in Hz. rewrite effector_count_cons in He.
  simpl in Hall. apply andb_prop in Hall. destruct Hall as [Sc Hall].
  simpl spin_callbacks. unfold bind.
  destruct (deliver c n) as [r1 n1] eqn:D.
  pose proof (deliver_cases _ _ _ _ D) as (A & _ & Zp & Ep & R & Dc).
  rewrite Sc in Zp, Ep, R. simpl in Zp, Ep.
  pose proof (zone_count_nonneg cs). pose proof (effector_count_nonneg cs).
  assert (Hz1 : zone_requests_pending n1 = zone_count cs)
    by (destruct (is_zone c); simpl in Zp; lia).
  assert (He1 : effector_checks_pending n1 = effector_count cs)
    by (destruct (is_zone c); simpl in Ep; lia).
  apply deliver_dispatches in D.
  destruct cs as [|c' cs'].
  - (* the last completion *)
    unfold zone_count, effector_count in Hz1, He1. simpl in Hz1, He1.
    destruct Dc as [(_ & _ & _ & F) | ([?|[?|?]] & _)]; try congruence.
    destruct D as [(-> & P & _) | (n2 & D & _ & A2 & P2 & _ & _ & St & R2 & _)].
    + exfalso. destruct F as [(_ & msg & Pm) | ((e & Bad) & _)];
        [|discriminate].
      rewrite P in Pm. apply (f_equal (@List.length _)) in Pm.
      rewrite length_app in Pm. simpl in Pm. lia.
    + assert (Hr : (let (o, s') := (r1, n1) in
                    match o with
                    | Ret _ => spin_callbacks [] s'
                    | Raise e => (Raise e, s')
                    | Spin => (Spin, s')
                    end) = (r1, n1)).
      { destruct F as [(-> & _) | ((e & ->) & _)]; reflexivity. }
      rewrite Hr. intros E; inversion E; subst.
      exists n2. repeat split; auto. apply stored_zones. exact St.
  - assert (Hpos : zone_requests_pending n1 <> 0 \/
                   effector_checks_pending n1 <> 0).
    { rewrite Hz1, He1, zone_count_cons, effector_count_cons.
      pose proof (zone_count_nonneg cs'). pose proof (effector_count_nonneg cs').
      destruct (is_zone c'); lia. }
    destruct D as [(-> & P & _ & _ & St) | (n2 & D & _ & _ & _ & _ & _ & _ & _ & Z2 & E2)].
    + intros S'. apply IH in S'; auto; [|discriminate].
      destruct S' as (n2 & D2 & A2 & P2 & R2 & Zs).
      exists n2. split; [exact D2|]. split; [congruence|].
      split; [congruence|]. split; [congruence|].
      rewrite Zs. rewrite (stored_zones _ _ _ St). reflexivity.
    + exfalso.
      apply send_dispatch_arm_task_cases in D.
      destruct D as (_ & _ & Zp' & Ep' & _). lia.
Qed.

Lemma slot_eq_dec (x y : Kind * bool) : {x = y} + {x <> y}.
Proof. repeat decide equality. Qed.

Lemma requests_of_slots_nodup a : NoDup (map request_slot (requests_of a)).
Proof.
  unfold requests_of, zone_request_for.
  destruct (String.eqb (action a) "arm_action"); [constructor|].
  destruct (object_name a) as [o1|]; [destruct (truthy o1)|];
    (destruct (truthy (action2 a));
     [destruct (object_name2 a) as [o2|]; [destruct (truthy o2)|]|]);
    simpl; repeat constructor; simpl; intuition discriminate.
Qed.

Lemma requests_of_first_zone a :
  In (Zone, false) (map request_slot (requests_of a)) ->
  truthy_opt (object_name a) = true.
Proof.
  unfold requests_of, zone_request_for.
  destruct (String.eqb (action a) "arm_action"); [contradiction|].
  destruct (object_name a) as [o1|]; simpl truthy_opt;
    [destruct (truthy o1); [reflexivity|]|];
    (destruct (truthy (action2 a));
     [destruct (object_name2 a) as [o2|]; [destruct (truthy o2)|]|]);
    simpl; intuition discriminate.
Qed.

Lemma succeeded_zone_completion s res cs :
  forallb succeeded cs = true ->
  In (ZoneDone s res) cs ->
  exists r, res = Some r /\ zone_confirmed r = true.
Proof.
  intros Hall Hin. rewrite forallb_forall in Hall. specialize (Hall _ Hin).
  unfold succeeded, verdict in Hall.
  destruct res as [r|]; [|discriminate].
  exists r. split; [reflexivity|].
  destruct (zone_confirmed r); [reflexivity|discriminate].
Qed.

Lemma zones_after_perm cs cs' z :
  NoDup (map completion_slot cs) ->
  Permutation cs cs' ->
  forallb succeeded cs = true ->
  zones_after cs z = zones_after cs' z.
Proof.
  intros Hnd Hp Hall.
  assert (Hnd' : NoDup (map completion_slot cs'))
    by (eapply Permutation_NoDup; [apply Permutation_map; exact Hp|exact Hnd]).
  assert (Hs : forall s, zone_attr s (zones_after cs z) =
                         zone_attr s (zones_after cs' z)).
  { intros s.
    destruct (in_dec slot_eq_dec (Zone, s) (map completion_slot cs)) as [Hin|Hn].
    - apply in_map_iff in Hin. destruct Hin as (c & Hc & Hin).
      destruct c as [s' res|s' res]; simpl in Hc; [|discriminate].
      inversion Hc; subst.
      destruct (succeeded_zone_completion _ _ _ Hall Hin) as (r & -> & Cr).
      rewrite (zones_after_confirmed s r cs z Hnd Hin Cr).
      rewrite (zones_after_confirmed s r cs' z Hnd'
                 (Permutation_in _ Hp Hin) Cr).
      reflexivity.
    - rewrite zones_after_keeps by exact Hn.
      rewrite zones_after_keeps; [reflexivity|].
      intros Hin. apply Hn.
      eapply Permutation_in; [|exact Hin].
      apply Permutation_sym, Permutation_map. exact Hp. }
  pose proof (Hs false) as Hf. pose proof (Hs true) as Ht. simpl in Hf, Ht.
  destruct (zones_after cs z), (zones_after cs' z). simpl in *. congruence.
Qed.

(** The payload depends on the node through its arguments and its two
    zone attributes only. *)
Lemma payload_of_args_and_zones n1 n2 :
  args n1 = args n2 ->
  (object_zone_name n1, object_zone_name2 n1) =
  (object_zone_name n2, object_zone_name2 n2) ->
  fst (dispatch_arm_task_payload n1) = fst (dispatch_arm_task_payload n2).
Proof.
  intros A Z. inversion Z as [[Z1 Z2]].
  rewrite !dispatch_arm_task_payload_eq. cbv zeta.
  unfold activities_program. rewrite A, Z1, Z2.
  destruct ((_ ;; _)%method []) as [[[]|e|] acts]; simpl; reflexivity.
Qed.

Lemma published_by_dispatch n r n' :
  send_dispatch_arm_task n = (r, n') ->
  published n' =
  published n ++
  match fst (dispatch_arm_task_payload n) with
  | Ret payload =>
      [{| request_id := ("dispatch_arm_task_" ++ uuid4)%string;
          json_msg := json_dumps payload |}]
  | _ => []
  end.
Proof.
  intros D. apply send_dispatch_arm_task_link in D.
  destruct D as (_ & _ & [(e & _ & P & _ & _ & F) | (p & _ & F & P & _)]);
    rewrite F, P; [now rewrite app_nil_r|reflexivity].
Qed.

(** X6.  The published task does not depend on the order in which the
    completions arrive: two runs of the same configuration over the same
    successful completions, one per request sent, delivered in different
    orders, publish the same messages. *)
Theorem published_payload_independent_of_order fuel a n0 cs cs' :
  TaskRequester fuel a = (Ret tt, n0) ->
  Permutation (map completion_slot cs) (map request_slot (calls n0)) ->
  Permutation cs cs' ->
  forallb succeeded cs = true ->
  published (snd (spin_callbacks cs n0)) =
  published (snd (spin_callbacks cs' n0)).
Proof.
  intros T P Pc Hall.
  destruct cs as [|c0 cs0].
  { apply Permutation_nil in Pc. subst. reflexivity. }
  assert (L : (1 <= List.length (calls n0))%nat).
  { apply Permutation_length in P. rewrite !length_map in P. simpl in P. lia. }
  pose proof (TaskRequester_sends_iff _ _ _ T L) as Harm.
  destruct (TaskRequester_gated _ _ _ _ Harm T) as (A & Pub & R & _ & _ & G).
  destruct (G eq_refl) as (_ & Zp & Ep).
  destruct (TaskRequester_sends _ _ _ _ Harm T) as (_ & _ & _ & C).
  specialize (C eq_refl).
  assert (P' : Permutation (map completion_slot cs')
                 (map request_slot (calls n0))).
  { eapply Permutation_trans; [|exact P].
    apply Permutation_sym, Permutation_map. exact Pc. }
  assert (Hnd : NoDup (map completion_slot (c0 :: cs0))).
  { eapply Permutation_NoDup; [apply Permutation_sym; exact P|].
    rewrite C. apply requests_of_slots_nodup. }
  assert (Hall' : forallb succeeded cs' = true).
  { rewrite forallb_forall in *. intros c Hc. apply Hall.
    eapply Permutation_in; [apply Permutation_sym; exact Pc|exact Hc]. }
  assert (Hne' : cs' <> []).
  { intros ->. apply Permutation_sym, Permutation_nil in Pc. discriminate. }
  destruct (perm_counts _ _ P) as [Cz Ce].
  destruct (perm_counts _ _ P') as [Cz' Ce'].
  destruct (spin_callbacks (c0 :: cs0) n0) as [r1 n1] eqn:S1.
  destruct (spin_callbacks cs' n0) as [r2 n2] eqn:S2.
  apply spin_callbacks_dispatch_state in S1; try congruence.
  apply spin_callbacks_dispatch_state in S2; try congruence.
  destruct S1 as (m1 & D1 & A1 & P1 & _ & Z1).
  destruct S2 as (m2 & D2 & A2 & P2 & _ & Z2).
  simpl. rewrite (published_by_dispatch _ _ _ D1), (published_by_dispatch _ _ _ D2).
  rewrite P1, P2.
  rewrite (payload_of_args_and_zones m1 m2); [reflexivity|congruence|].
  rewrite Z1, Z2. apply zones_after_perm; assumption.
Qed.

(** X7.  When every completion succeeds, the zone that the zone check of
    the first object confirmed is the zone of the published task: the
    activities of the payload begin with the zone activity for that zone
    and the configured places, followed by the perform_action activity of
    the first action, whose description has received [zone_name] and
    keeps its other entries. *)
Theorem published_payload_carries_confirmed_zone fuel a n0 cs r d :
  TaskRequester fuel a = (Ret tt, n0) ->
  Permutation (map completion_slot cs) (map request_slot (calls n0)) ->
  forallb succeeded cs = true ->
  descriptions_valid a = true ->
  json_loads (action_desc a) = Some (JDict d) ->
  In (ZoneDone false (Some r)) cs ->
  exists payload rest,
    published (snd (spin_callbacks cs n0)) =
    [{| request_id := ("dispatch_arm_task_" ++ uuid4)%string;
        json_msg := json_dumps payload |}] /\
    payload_activities payload =
    Some (zone_activity (zone_name r) (places a) ::
          perform_action_activity (action a)
            (JDict (dict_set "zone_name" (JStr (zone_name r)) d)) :: rest).
Proof.
  intros T P Hall V Hd Hin.
  assert (Hne : cs <> []) by (intros ->; contradiction).
  assert (L : (1 <= List.length (calls n0))%nat).
  { apply Permutation_length in P. rewrite !length_map in P.
    destruct cs; [congruence|]. simpl in P. lia. }
  pose proof (TaskRequester_sends_iff _ _ _ T L) as Harm.
  destruct (TaskRequester_gated _ _ _ _ Harm T) as (A & Pub & R & _ & _ & G).
  destruct (G eq_refl) as (_ & Zp & Ep).
  destruct (TaskRequester_sends _ _ _ _ Harm T) as (_ & Z1 & Z2 & C).
  specialize (C eq_refl).
  assert (Hnd : NoDup (map completion_slot cs)).
  { eapply Permutation_NoDup; [apply Permutation_sym; exact P|].
    rewrite C. apply requests_of_slots_nodup. }
  assert (Hobj : truthy_opt (object_name a) = true).
  { apply requests_of_first_zone. rewrite <- C.
    eapply Permutation_in; [exact P|].
    apply in_map_iff. exists (ZoneDone false (Some r)). auto. }
  destruct (succeeded_zone_completion _ _ _ Hall Hin) as (r' & Er & Cr).
  inversion Er; subst r'.
  destruct (perm_counts _ _ P) as [Cz Ce].
  destruct (spin_callbacks cs n0) as [r1 n1] eqn:S1.
  apply spin_callbacks_dispatch_state in S1; try congruence.
  destruct S1 as (m & D & Am & Pm & _ & Zm).
  assert (Zf : object_zone_name m = Some (zone_name r)).
  { pose proof (zones_after_confirmed false r cs
                  (object_zone_name n0, object_zone_name2 n0) Hnd Hin Cr) as Hz.
    rewrite <- Zm in Hz. exact Hz. }
  assert (Vm : descriptions_valid (args m) = true) by (rewrite Am, A; exact V).
  destruct (payload_when_valid m Vm) as (acts1 & acts2 & E1 & _ & E).
  rewrite Am, A, Zf in E1.
  rewrite add_action_activities_eq, Hd, Hobj in E1. simpl in E1.
  inversion E1; subst acts1.
  simpl. rewrite (published_by_dispatch _ _ _ D), E, Pm, Pub. simpl.
  eexists. exists acts2. split; [reflexivity|].
  unfold payload_activities, path. simpl. rewrite base_payload_request.
  rewrite Am, A. reflexivity.
Qed.

(** ** The whole process *)

Lemma spin_until_done events n :
  done (response n) = true ->
  spin_until_future_complete events n = (Returned, n).
Proof. intros Hd. destruct events; simpl; [reflexivity|now rewrite Hd]. Qed.

(** While the completions succeed the future stays pending, and the spin
    of [main] runs them as [spin_callbacks] does. *)
Lemma spin_until_completed pre rest : forall n,
  forallb succeeded pre = true ->
  response n = Pending ->
  spin_until_future_complete (map Completed pre ++ rest) n =
  match spin_callbacks pre n with
  | (Ret _, n') => spin_until_future_complete rest n'
  | (Raise e, n') => (Failed (Builtin e), n')
  | (Spin, n') => (Waiting, n')
  end.
Proof.
  induction pre as [|c pre IH]; intros n Hall Hp; [reflexivity|].
  simpl in Hall. apply andb_prop in Hall. destruct Hall as [Sc Hall].
  simpl. rewrite Hp. simpl. unfold bind.
  destruct (deliver c n) as [o n1] eqn:D.
  pose proof (deliver_cases _ _ _ _ D) as (_ & _ & _ & _ & R & Dc).
  rewrite Sc in R.
  destruct o as [[]|e|]; simpl.
  - apply IH; [exact Hall|congruence].
  - reflexivity.
  - exfalso. destruct Dc as [(_ & _ & _ & [(Bad & _) | ((e & Bad) & _)])
                            | (_ & Bad & _)]; discriminate.
Qed.

(** X8.  [main] stops at the first verification that fails: when the
    completions delivered before it all succeeded, the process prints
    [Task cancelled], whatever would have been delivered afterwards, and
    nothing has been published. *)
Theorem main_reports_cancellation fuel a n0 pre c later rest :
  TaskRequester fuel a = (Ret tt, n0) ->
  Permutation (map completion_slot (pre ++ c :: later))
              (map request_slot (calls n0)) ->
  forallb succeeded pre = true ->
  succeeded c = false ->
  main fuel a (map Completed pre ++ Completed c :: rest) = Printed TaskCancelled /\
  published (snd (spin_until_future_complete
                    (map Completed pre ++ Completed c :: rest) n0)) = [].
Proof.
  intros T P Hall Hc.
  assert (L : (1 <= List.length (calls n0))%nat).
  { apply Permutation_length in P.
    rewrite !length_map, length_app in P. simpl in P. lia. }
  pose proof (TaskRequester_sends_iff _ _ _ T L) as Harm.
  destruct (TaskRequester_gated _ _ _ _ Harm T) as (A & Pub & R & _ & _ & G).
  destruct (G eq_refl) as (_ & Zp & Ep).
  destruct (perm_counts _ _ P) as [Cz Ce].
  rewrite zone_count_app in Cz. rewrite effector_count_app in Ce.
  pose proof (zone_count_nonneg (c :: later)) as Kz.
  pose proof (effector_count_nonneg (c :: later)) as Ke.
  assert (Kpos : 0 < zone_count (c :: later) + effector_count (c :: later)).
  { rewrite zone_count_cons, effector_count_cons.
    pose proof (zone_count_nonneg later). pose proof (effector_count_nonneg later).
    destruct (is_zone c); lia. }
  destruct (spin_callbacks_prefix pre n0 (zone_count (c :: later))
              (effector_count (c :: later)) Kz Ke)
    as (n1 & S1 & P1 & _ & _ & R1 & _); try lia.
  rewrite Hall in R1.
  destruct (deliver_failure c n1 Hc) as (record & D & _).
  assert (E : spin_until_future_complete
                (map Completed pre ++ Completed c :: rest) n0 =
              (Returned,
               set_response (cancel (response n1))
                 (set_log (log n1 ++ [record]) n1))).
  { rewrite spin_until_completed by assumption.
    rewrite S1. simpl. rewrite D. rewrite R1, R. simpl.
    apply spin_until_done. reflexivity. }
  unfold main. rewrite T, E. simpl. rewrite R1, R. simpl.
  split; [reflexivity|congruence].
Qed.

Lemma spin_until_mismatched skipped rest : forall n,
  response n = Pending ->
  Forall (fun m => response_request_id m <> msg_request_id n) skipped ->
  spin_until_future_complete (map Responded skipped ++ rest) n =
  spin_until_future_complete rest n.
Proof.
  induction skipped as [|m skipped IH]; intros n Hp Hs; [reflexivity|].
  inversion Hs as [|? ? Hm Hs']; subst.
  simpl. rewrite Hp. simpl.
  assert (E : handle (Responded m) n = (Returned, n)).
  { simpl. destruct (subscriptions n); [reflexivity|].
    unfold api_response_callback.
    apply String.eqb_neq in Hm. now rewrite Hm. }
  simpl in E. rewrite E. apply IH; assumption.
Qed.

(** The node after a complete schedule of successes on valid
    descriptions: the task is published and awaits its response. *)
Lemma spin_callbacks_published fuel a n0 cs :
  TaskRequester fuel a = (Ret tt, n0) ->
  (1 <= List.length (calls n0))%nat ->
  descriptions_valid a = true ->
  Permutation (map completion_slot cs) (map request_slot (calls n0)) ->
  forallb succeeded cs = true ->
  exists n1 payload,
    spin_callbacks cs n0 = (Ret tt, n1) /\
    response n1 = Pending /\
    subscriptions n1 = 1%nat /\
    msg_request_id n1 = ("dispatch_arm_task_" ++ uuid4)%string /\
    published n1 =
    [{| request_id := ("dispatch_arm_task_" ++ uuid4)%string;
        json_msg := json_dumps payload |}].
Proof.
  intros T L V P Hall.
  pose proof (TaskRequester_sends_iff _ _ _ T L) as Harm.
  destruct (TaskRequester_gated _ _ _ _ Harm T) as (A & Pub & R & Sb & _ & G).
  destruct (G eq_refl) as (_ & Zp & Ep).
  destruct (perm_counts _ _ P) as [Cz Ce].
  assert (Hne : cs <> []).
  { intros ->. apply Permutation_length in P. rewrite !length_map in P.
    simpl in P. lia. }
  pose proof (TaskRequester_correlated fuel a) as C0.
  rewrite T in C0. simpl in C0.
  pose proof (spin_callbacks_correlated cs n0 C0) as [C1 _].
  destruct (spin_callbacks cs n0) as [r1 n1] eqn:S1. simpl in C1.
  apply spin_callbacks_dispatch_state in S1; try congruence.
  destruct S1 as (m & D & Am & Pm & Rm & _).
  pose proof (send_dispatch_arm_task_cases _ _ _ D) as (_ & R1 & _).
  apply send_dispatch_arm_task_link in D.
  destruct D as (_ & _ & [(e & _ & _ & _ & _ & F) | (p & -> & _ & P1 & _ & M1)]).
  - exfalso.
    assert (Vm : descriptions_valid (args m) = true) by (rewrite Am, A; exact V).
    destruct (payload_when_valid m Vm) as (? & ? & _ & _ & E).
    rewrite E in F. discriminate.
  - assert (Pn : published n1 =
                 [{| request_id := ("dispatch_arm_task_" ++ uuid4)%string;
                     json_msg := json_dumps p |}])
      by (rewrite P1, Pm, Pub; reflexivity).
    exists n1, p. split; [reflexivity|].
    split; [congruence|]. split; [|split; [exact M1|exact Pn]].
    rewrite C1, Pn. reflexivity.
Qed.

(** X9.  When every verification succeeds, the task is published and the
    first response that carries the request id of the published task
    resolves the outcome: responses with other ids before it are ignored,
    and [main] prints that response. *)
Theorem main_prints_matching_response fuel a n0 cs skipped m later r :
  TaskRequester fuel a = (Ret tt, n0) ->
  (1 <= List.length (calls n0))%nat ->
  descriptions_valid a = true ->
  Permutation (map completion_slot cs) (map request_slot (calls n0)) ->
  forallb succeeded cs = true ->
  Forall (fun x => response_request_id x <>
                   ("dispatch_arm_task_" ++ uuid4)%string) skipped ->
  response_request_id m = ("dispatch_arm_task_" ++ uuid4)%string ->
  json_loads (response_json_msg m) = Some r ->
  main fuel a (map Completed cs ++ map Responded (skipped ++ m :: later)) =
  Printed (GotResponse r).
Proof.
  intros T L V P Hall Hs Hm Hr.
  destruct (spin_callbacks_published _ _ _ _ T L V P Hall)
    as (n1 & p & S1 & R1 & Sb & M1 & _).
  pose proof (TaskRequester_sends_iff _ _ _ T L) as Harm.
  destruct (TaskRequester_gated _ _ _ _ Harm T) as (_ & _ & R & _).
  unfold main. rewrite T.
  rewrite spin_until_completed by assumption. rewrite S1.
  rewrite map_app. simpl map.
  rewrite spin_until_mismatched; [|exact R1|now rewrite M1].
  simpl. rewrite R1. simpl. rewrite Sb.
  unfold api_response_callback. rewrite Hm, M1, String.eqb_refl, Hr, R1.
  simpl. rewrite spin_until_done by reflexivity. reflexivity.
Qed.

(** X10.  When every verification succeeds but no response with the
    request id of the published task arrives in time, or when the time is
    up before all verifications have completed, [main] prints that it did
    not get a response. *)
Theorem main_without_response fuel a n0 :
  TaskRequester fuel a = (Ret tt, n0) ->
  (1 <= List.length (calls n0))%nat ->
  (forall cs others,
     descriptions_valid a = true ->
     Permutation (map completion_slot cs) (map request_slot (calls n0)) ->
     forallb succeeded cs = true ->
     Forall (fun x => response_request_id x <>
                      ("dispatch_arm_task_" ++ uuid4)%string) others ->
     main fuel a (map Completed cs ++ map Responded others) =
     Printed DidNotGetAResponse) /\
  (forall pre c later,
     Permutation (map completion_slot (pre ++ c :: later))
                 (map request_slot (calls n0)) ->
     forallb succeeded pre = true ->
     main fuel a (map Completed pre) = Printed DidNotGetAResponse).
Proof.
  intros T L.
  pose proof (TaskRequester_sends_iff _ _ _ T L) as Harm.
  destruct (TaskRequester_gated _ _ _ _ Harm T) as (A & Pub & R & _ & _ & G).
  destruct (G eq_refl) as (_ & Zp & Ep).
  split.
  - intros cs others V P Hall Hs.
    destruct (spin_callbacks_published _ _ _ _ T L V P Hall)
      as (n1 & p & S1 & R1 & Sb & M1 & _).
    unfold main. rewrite T.
    rewrite spin_until_completed by assumption. rewrite S1.
    rewrite <- (app_nil_r (map Responded others)).
    rewrite spin_until_mismatched; [|exact R1|now rewrite M1].
    simpl. rewrite R1. reflexivity.
  - intros pre c later P Hall.
    destruct (perm_counts _ _ P) as [Cz Ce].
    rewrite zone_count_app in Cz. rewrite effector_count_app in Ce.
    pose proof (zone_count_nonneg (c :: later)) as Kz.
    pose proof (effector_count_nonneg (c :: later)) as Ke.
    assert (Kpos : 0 < zone_count (c :: later) + effector_count (c :: later)).
    { rewrite zone_count_cons, effector_count_cons.
      pose proof (zone_count_nonneg later).
      pose proof (effector_count_nonneg later).
      destruct (is_zone c); lia. }
    destruct (spin_callbacks_prefix pre n0 (zone_count (c :: later))
                (effector_count (c :: later)) Kz Ke)
      as (n1 & S1 & _ & _ & _ & R1 & _); try lia.
    rewrite Hall in R1.
    unfold main. rewrite T.
    rewrite <- (app_nil_r (map Completed pre)).
    rewrite spin_until_completed by assumption. rewrite S1. simpl.
    rewrite R1, R. reflexivity.
Qed.

Lemma spin_until_never_asyncio events : forall n e,
  fst (spin_until_future_complete events n) <> Failed (Asyncio e).
Proof.
  induction events as [|ev events IH]; intros n e; simpl; [discriminate|].
  destruct (done (response n)) eqn:Hd; [discriminate|].
  assert (Hh : forall e', fst (handle ev n) <> Failed (Asyncio e')).
  { intros e'. destruct ev as [c|m]; simpl.
    - destruct (deliver c n) as [[[]|x|] n1]; simpl; discriminate.
    - destruct (subscriptions n); [discriminate|].
      unfold api_response_callback.
      destruct (String.eqb _ _); [|discriminate].
      destruct (json_loads _); [|discriminate].
      destruct (response n); simpl in *; discriminate. }
  destruct (handle ev n) as [[|x|] n1] eqn:E; simpl.
  - apply IH.
  - specialize (Hh e). simpl in Hh. exact Hh.
  - discriminate.
Qed.

(** X11.  No exception of [asyncio] ever ends the process: a response is
    handed to the future only while it is pending, because the spin stops
    once the future is done, and the one exception reading the result can
    raise, [CancelledError], is the one [main] catches. *)
Theorem main_never_ends_on_asyncio_exception fuel a events e :
  main fuel a events <> Uncaught (Asyncio e).
Proof.
  unfold main.
  destruct (TaskRequester fuel a) as [[[]|x|] n0]; try discriminate.
  pose proof (spin_until_never_asyncio events n0 e) as Hs.
  destruct (spin_until_future_complete events n0) as [[|x|] n1]; simpl in Hs.
  - unfold report. destruct (response n1); simpl; discriminate.
  - congruence.
  - discriminate.
Qed.

(** ** Further properties of the composer *)

(** X12.  The payload is a robot task request, naming the robot and the
    fleet, exactly when both a fleet and a robot are given; otherwise it
    is a dispatch task request and names neither, even if a fleet is
    given. *)
Theorem payload_request_type n :
  descriptions_valid (args n) = true ->
  exists payload n',
    dispatch_arm_task_payload n = (Ret payload, n') /\
    if truthy (fleet (args n)) && truthy (robot (args n)) then
      getitem "type" payload = Some (JStr "robot_task_request") /\
      getitem "robot" payload = Some (JStr (robot (args n))) /\
      getitem "fleet" payload = Some (JStr (fleet (args n)))
    else
      getitem "type" payload = Some (JStr "dispatch_task_request") /\
      getitem "robot" payload = None /\
      getitem "fleet" payload = None.
Proof.
  intros V. destruct (payload_when_valid n V) as (acts1 & acts2 & _ & _ & E).
  eexists. eexists. split; [exact E|].
  unfold base_payload.
  destruct (truthy (fleet (args n)) && truthy (robot (args n)));
    repeat split; reflexivity.
Qed.

(** A description that is a JSON document but not an object takes no
    item: the helper raises [TypeError] where it records the zone, before
    it appends anything, and embeds the document as it is when the action
    has no object name. *)
Lemma add_action_activities_non_object action obj zone desc places acts d :
  json_loads desc = Some d ->
  is_dict (Some d) = false ->
  add_action_activities action obj (Some zone) desc places acts =
  if truthy_opt obj then (Raise TypeError, acts)
  else (Ret tt, acts ++ [perform_action_activity action d]).
Proof.
  intros Hd Hs. rewrite add_action_activities_eq, Hd.
  destruct d; try discriminate; reflexivity.
Qed.

Lemma payload_non_object n d zone :
  json_loads (action_desc (args n)) = Some d ->
  is_dict (Some d) = false ->
  truthy_opt (object_name (args n)) = true ->
  object_zone_name n = Some zone ->
  fst (dispatch_arm_task_payload n) = Raise TypeError.
Proof.
  intros Hd Hs Ho Hz. rewrite dispatch_arm_task_payload_eq. cbv zeta.
  unfold activities_program. unfold bind at 1.
  rewrite Hz, (add_action_activities_non_object _ _ _ _ _ _ d Hd Hs), Ho.
  reflexivity.
Qed.

Lemma requests_of_has_first_zone a :
  action a <> "arm_action" ->
  truthy_opt (object_name a) = true ->
  In (Zone, false) (map request_slot (requests_of a)).
Proof.
  intros Harm Ho. unfold requests_of, zone_request_for.
  apply String.eqb_neq in Harm. rewrite Harm.
  destruct (object_name a) as [o1|]; simpl in Ho; [|discriminate].
  rewrite Ho. simpl. auto.
Qed.

(** X13.  With an object name for the first action and a first
    description that is a JSON document but not an object (a list, a
    number, a string), the verifications run as usual, but the completion
    that arrives last, when all have succeeded, raises [TypeError] from the
    composer: nothing is published and the exception ends [main], whatever
    would have been delivered afterwards. *)
Theorem non_object_description_ends_in_type_error fuel a n0 cs rest d :
  TaskRequester fuel a = (Ret tt, n0) ->
  action a <> "arm_action" ->
  truthy_opt (object_name a) = true ->
  json_loads (action_desc a) = Some d ->
  is_dict (Some d) = false ->
  Permutation (map completion_slot cs) (map request_slot (calls n0)) ->
  forallb succeeded cs = true ->
  main fuel a (map Completed cs ++ rest) = Uncaught (Builtin TypeError) /\
  published (snd (spin_callbacks cs n0)) = [].
Proof.
  intros T Harm Ho Hd Hs P Hall.
  destruct (TaskRequester_gated _ _ _ _ Harm T) as (A & Pub & R & _ & _ & G).
  destruct (G eq_refl) as (_ & Zp & Ep).
  destruct (TaskRequester_sends _ _ _ _ Harm T) as (_ & _ & _ & C).
  specialize (C eq_refl).
  assert (Hnd : NoDup (map completion_slot cs)).
  { eapply Permutation_NoDup; [apply Permutation_sym; exact P|].
    rewrite C. apply requests_of_slots_nodup. }
  assert (Hin : exists res, In (ZoneDone false res) cs).
  { pose proof (requests_of_has_first_zone a Harm Ho) as I.
    rewrite <- C in I.
    apply (Permutation_in _ (Permutation_sym P)) in I.
    apply in_map_iff in I. destruct I as (c & Ec & Ic).
    destruct c as [s res|s res]; simpl in Ec; inversion Ec; subst.
    exists res. exact Ic. }
  destruct Hin as (res & Hin).
  destruct (succeeded_zone_completion _ _ _ Hall Hin) as (r & -> & Cr).
  assert (Hne : cs <> []) by (intros ->; contradiction).
  destruct (perm_counts _ _ P) as [Cz Ce].
  destruct (spin_callbacks cs n0) as [r1 n1] eqn:S1.
  pose proof S1 as S1'.
  apply spin_callbacks_dispatch_state in S1'; try congruence.
  destruct S1' as (m & D & Am & Pm & _ & Zm).
  assert (Zf : object_zone_name m = Some (zone_name r)).
  { pose proof (zones_after_confirmed false r cs
                  (object_zone_name n0, object_zone_name2 n0) Hnd Hin Cr) as Hz.
    rewrite <- Zm in Hz. exact Hz. }
  assert (Py : fst (dispatch_arm_task_payload m) = Raise TypeError).
  { apply (payload_non_object m d (zone_name r)); rewrite ?Am, ?A; assumption. }
  apply send_dispatch_arm_task_link in D.
  destruct D as (_ & _ & [(e & -> & Pn & _ & _ & Pe) | (p & _ & Bad & _)]);
    [|congruence].
  assert (e = TypeError) by congruence. subst e.
  split; [|simpl; congruence].
  unfold main. rewrite T.
  rewrite spin_until_completed by assumption.
  rewrite S1. reflexivity.
Qed.

(** X14.  For a clock reading with nanoseconds in their range, the
    start time with no offset lies between the start of the clock's second
    and the start of the next one, both in milliseconds; it reaches the
    next second when the nanoseconds round up to 1000 milliseconds. *)
Theorem start_time_millis_within_the_second now offset :
  0 <= nanosec now < 10 ^ 9 ->
  (sec now + offset) * 1000 <= start_time_millis now offset
    <= (sec now + offset) * 1000 + 1000 /\
  (start_time_millis now offset = (sec now + offset) * 1000 + 1000 <->
   999500000 <= nanosec now).
Proof.
  intros Hn. unfold start_time_millis. cbv zeta.
  pose proof (round_div_nearest (nanosec now) (10 ^ 6) ltac:(lia)) as Hr.
  change (10 ^ 6) with 1000000 in *. change (10 ^ 9) with 1000000000 in *.
  assert (Hp : 0 <= round_div (nanosec now) 1000000 <= 1000) by lia.
  split; [lia|]. split; intros Hx.
  - lia.
  - assert (Hge : 1000 <= round_div (nanosec now) 1000000).
    { unfold round_div in *.
      pose proof (Z.div_mod (nanosec now) 1000000 ltac:(lia)) as Ed.
      pose proof (Z.mod_pos_bound (nanosec now) 1000000 ltac:(lia)) as Bd.
      destruct (2 * (nanosec now mod 1000000) <? 1000000) eqn:C1;
        [apply Z.ltb_lt in C1; lia|].
      apply Z.ltb_ge in C1.
      destruct (1000000 <? 2 * (nanosec now mod 1000000)) eqn:C2;
        [apply Z.ltb_lt in C2; lia|].
      apply Z.ltb_ge in C2.
      assert (Eq : nanosec now / 1000000 = 999) by lia.
      rewrite Eq. simpl. lia. }
    lia.
Qed.

(** ** The priority *)

Lemma ignores_ret p A (x : A) : ignores_priority p (ret x).
Proof. intros n. reflexivity. Qed.

Lemma ignores_raise p A e : ignores_priority p (@raise Node A e).
Proof. intros n. reflexivity. Qed.

Lemma ignores_spin p A : ignores_priority p (@spin Node A).
Proof. intros n. reflexivity. Qed.

Lemma ignores_modify p (f : Node -> Node) :
  (forall n, f (reprioritised p n) = reprioritised p (f n)) ->
  ignores_priority p (modify f).
Proof. intros E n. unfold modify. simpl. now rewrite E. Qed.

Lemma ignores_gets p A (f : Node -> A) :
  (forall n, f (reprioritised p n) = f n) ->
  ignores_priority p (gets f).
Proof. intros E n. unfold gets. simpl. now rewrite E. Qed.

Lemma ignores_bind p A B (c : M Node A) (k : A -> M Node B) :
  ignores_priority p c -> (forall x, ignores_priority p (k x)) ->
  ignores_priority p (bind c k).
Proof.
  intros Hc Hk n. unfold bind. rewrite Hc.
  destruct (c n) as [[x|e|] n1]; simpl; [apply Hk|reflexivity|reflexivity].
Qed.

(** A method that reads [self.args] ignores the priority when what
    follows uses the arguments other than the priority only. *)
Lemma ignores_gets_args p B (k : Args -> M Node B) :
  (forall a n, k (with_priority p a) n = k a n) ->
  (forall a, ignores_priority p (k a)) ->
  ignores_priority p (bind (gets args) k).
Proof.
  intros E Hk n. unfold bind, gets. simpl. rewrite E. apply Hk.
Qed.

Ltac ignores :=
  repeat first
    [ assumption
    | apply ignores_ret | apply ignores_raise | apply ignores_spin
    | apply ignores_modify; intros; reflexivity
    | apply ignores_gets; intros; reflexivity
    | apply ignores_gets_args; [intros; reflexivity | intros]
    | apply ignores_bind; [|intros]
    | match goal with
      | |- ignores_priority _ (if ?b then _ else _) => destruct b
      end
    | match goal with
      | |- ignores_priority _ (match ?o with _ => _ end) => destruct o
      end ].

Lemma dispatch_arm_task_payload_ignores p :
  ignores_priority p dispatch_arm_task_payload.
Proof.
  unfold dispatch_arm_task_payload, logger.
  apply ignores_gets_args; [intros; reflexivity|intros a].
  apply ignores_bind; [ignores|intros].
  apply ignores_bind; [ignores|intros].
  apply ignores_bind; [ignores|intros].
  apply ignores_bind; [|intros; ignores].
  intros n. unfold with_activities.
  match goal with
  | |- context [match ?c with _ => _ end] => destruct c as [[[]|e|] acts]
  end; reflexivity.
Qed.

Lemma send_dispatch_arm_task_ignores p :
  ignores_priority p send_dispatch_arm_task.
Proof.
  unfold send_dispatch_arm_task, create_dispatch_arm_task, publish,
    create_subscription.
  cbv zeta. pose proof (dispatch_arm_task_payload_ignores p). ignores.
Qed.

Lemma check_if_ready_to_dispatch_ignores p :
  ignores_priority p check_if_ready_to_dispatch.
Proof.
  unfold check_if_ready_to_dispatch, logger.
  pose proof (send_dispatch_arm_task_ignores p). ignores.
Qed.

Lemma deliver_ignores p c : ignores_priority p (deliver c).
Proof.
  pose proof (check_if_ready_to_dispatch_ignores p).
  destruct c as [s res|s res]; simpl;
    unfold zone_request_service_callback, effector_query_service_callback,
      logger, response_cancel; cbv zeta; ignores.
Qed.

Lemma spin_callbacks_ignores p cs : ignores_priority p (spin_callbacks cs).
Proof.
  induction cs as [|c cs IH]; simpl; [apply ignores_ret|].
  apply ignores_bind; [apply deliver_ignores|intros; exact IH].
Qed.

Lemma wait_for_zone_service_ignores p fuel :
  ignores_priority p (wait_for_zone_service fuel).
Proof.
  induction fuel as [|fuel IH]; simpl; [apply ignores_spin|].
  apply ignores_bind; [intros n; reflexivity|intros].
  unfold logger. ignores.
Qed.

Lemma wait_for_effector_service_ignores p fuel :
  ignores_priority p (wait_for_effector_service fuel).
Proof.
  induction fuel as [|fuel IH]; simpl; [apply ignores_spin|].
  apply ignores_bind; [intros n; reflexivity|intros].
  unfold logger. ignores.
Qed.

Lemma init_ignores p fuel : ignores_priority p (__init__ fuel).
Proof.
  unfold __init__, when_named, logger.
  pose proof (send_dispatch_arm_task_ignores p).
  pose proof (wait_for_zone_service_ignores p fuel).
  pose proof (wait_for_effector_service_ignores p fuel).
  unfold send_zone_request, send_effector_query, logger, call_async.
  ignores.
Qed.

Lemma TaskRequester_ignores p fuel a :
  TaskRequester fuel (with_priority p a) =
  (fst (TaskRequester fuel a), reprioritised p (snd (TaskRequester fuel a))).
Proof. unfold TaskRequester. apply (init_ignores p fuel (new_node a)). Qed.

Lemma api_response_callback_ignores p m n :
  api_response_callback m (reprioritised p n) =
  (fst (api_response_callback m n),
   reprioritised p (snd (api_response_callback m n))).
Proof.
  unfold api_response_callback. simpl.
  destruct (String.eqb _ _); [|reflexivity].
  destruct (json_loads _); [|reflexivity].
  destruct (response n); reflexivity.
Qed.

Lemma handle_ignores p e n :
  handle e (reprioritised p n) =
  (fst (handle e n), reprioritised p (snd (handle e n))).
Proof.
  destruct e as [c|m]; simpl.
  - rewrite deliver_ignores. destruct (deliver c n); reflexivity.
  - destruct (subscriptions n);
      [reflexivity|apply api_response_callback_ignores].
Qed.

Lemma spin_until_ignores p events : forall n,
  spin_until_future_complete events (reprioritised p n) =
  (fst (spin_until_future_complete events n),
   reprioritised p (snd (spin_until_future_complete events n))).
Proof.
  induction events as [|e events IH]; intros n; [reflexivity|].
  simpl. destruct (done (response n)); [reflexivity|].
  rewrite handle_ignores.
  destruct (handle e n) as [[|x|] n1]; simpl;
    [apply IH|reflexivity|reflexivity].
Qed.

(** X16.  The priority of the command line has no effect: with any other
    priority the constructor ends the same way, the process ends the same
    way on the same events, and after the same completions the node has
    published the same messages, sent the same requests and written the
    same log. *)
Theorem priority_is_ignored p fuel a events cs :
  main fuel (with_priority p a) events = main fuel a events /\
  fst (TaskRequester fuel (with_priority p a)) = fst (TaskRequester fuel a) /\
  published (snd (spin_callbacks cs (snd (TaskRequester fuel (with_priority p a))))) =
  published (snd (spin_callbacks cs (snd (TaskRequester fuel a)))) /\
  calls (snd (spin_callbacks cs (snd (TaskRequester fuel (with_priority p a))))) =
  calls (snd (spin_callbacks cs (snd (TaskRequester fuel a)))) /\
  log (snd (spin_callbacks cs (snd (TaskRequester fuel (with_priority p a))))) =
  log (snd (spin_callbacks cs (snd (TaskRequester fuel a)))).
Proof.
  rewrite TaskRequester_ignores. simpl.
  rewrite spin_callbacks_ignores. simpl.
  split; [|auto].
  unfold main. rewrite TaskRequester_ignores.
  destruct (TaskRequester fuel a) as [[[]|x|] n0]; simpl; try reflexivity.
  rewrite spin_until_ignores.
  destruct (spin_until_future_complete events n0) as [[|x|] n1]; reflexivity.
Qed.

(** ** After a cancellation *)

(** The spin over a list of events in two parts: the second part is
    reached only when the first has been run without an exception. *)
Lemma spin_until_app events later : forall n,
  spin_until_future_complete (events ++ later) n =
  match spin_until_future_complete events n with
  | (Returned, n1) => spin_until_future_complete later n1
  | stopped => stopped
  end.
Proof.
  induction events as [|e events IH]; intros n; simpl.
  - reflexivity.
  - destruct (done (response n)) eqn:Hd.
    + symmetry. apply spin_until_done. exact Hd.
    + destruct (handle e n) as [[|x|] n1]; [apply IH|reflexivity|reflexivity].
Qed.

(** C2.  Once a failure has been reported, that is once the run of the
    node over the events delivered so far has left the outcome cancelled,
    whatever arrives later runs no callback: the node stays exactly as the
    cancellation left it, so that no pending counter is decremented, no
    zone is stored, nothing more is published, and the outcome stays
    cancelled.  This holds from every node, that of the constructor
    included, and for every list of later events. *)
Theorem late_completions_are_no_ops n0 events later :
  response (snd (spin_until_future_complete events n0)) = Cancelled ->
  spin_until_future_complete (events ++ later) n0 =
  spin_until_future_complete events n0 /\
  zone_requests_pending (snd (spin_until_future_complete (events ++ later) n0)) =
  zone_requests_pending (snd (spin_until_future_complete events n0)) /\
  effector_checks_pending (snd (spin_until_future_complete (events ++ later) n0)) =
  effector_checks_pending (snd (spin_until_future_complete events n0)) /\
  published (snd (spin_until_future_complete (events ++ later) n0)) =
  published (snd (spin_until_future_complete events n0)) /\
  response (snd (spin_until_future_complete (events ++ later) n0)) = Cancelled.
Proof.
  intros Hc.
  assert (E : spin_until_future_complete (events ++ later) n0 =
              spin_until_future_complete events n0).
  { rewrite spin_until_app.
    destruct (spin_until_future_complete events n0) as [[|x|] n1] eqn:S1;
      try reflexivity.
    simpl in Hc. apply spin_until_done. now rewrite Hc. }
  rewrite E. auto.
Qed.

End Properties.

(** ** The properties on sample runs *)

(** Scenario A of the specification: [scan] on [bin7], whose zone check
    confirms [Z3].  One message is published, and the activities are the
    zone activity followed by the perform_action activity. *)
Example scenario_zone_then_perform_action :
  let n0 := snd (@TaskRequester Samples.runtime Samples.services_up 1 Samples.scan_bin7) in
  let n := snd (@spin_callbacks Samples.runtime Samples.services_up
                  [ZoneDone false (Some Samples.zone_Z3);
                   EffectorDone false (Some Samples.effector_is_ready)] n0) in
  List.length (published n) = 1%nat /\
  option_map (map (getitem "category")) (@composed_activities Samples.runtime n) =
  Some [Some (JStr "zone"); Some (JStr "perform_action")].
Proof. split; reflexivity. Qed.

(** Scenario D of the specification: the effector is not ready, nothing is
    published and the outcome is cancelled. *)
Example scenario_effector_not_ready :
  let n0 := snd (@TaskRequester Samples.runtime Samples.services_up 1 Samples.scan_bin7) in
  let n := snd (@spin_callbacks Samples.runtime Samples.services_up
                  [EffectorDone false (Some Samples.effector_not_ready);
                   ZoneDone false (Some Samples.zone_Z3)] n0) in
  published n = [] /\ response n = Cancelled.
Proof. split; reflexivity. Qed.

(** Rounding of the nanoseconds goes to the nearest millisecond, a tie to
    the even one. *)
Example round_div_ties :
  round_div 500000 (10 ^ 6) = 0 /\ round_div 1500000 (10 ^ 6) = 2 /\
  round_div 2500000 (10 ^ 6) = 2 /\ round_div 250500000 (10 ^ 6) = 250 /\
  round_div 999999999 (10 ^ 6) = 1000.
Proof. repeat split. Qed.

(** The two completions of [scan_bin7], the effector first. *)
Lemma dispatch_once_iff_all_succeed_witness :
  let n0 := snd (@TaskRequester Samples.runtime Samples.services_up 1 Samples.scan_bin7) in
  let cs := [EffectorDone false (Some Samples.effector_is_ready);
             ZoneDone false (Some Samples.zone_Z3)] in
  (List.length (published (snd (@spin_callbacks Samples.runtime Samples.services_up cs n0))) <= 1)%nat /\
  (List.length (published (snd (@spin_callbacks Samples.runtime Samples.services_up cs n0))) = 1%nat <->
   forallb succeeded cs = true) /\
  (forallb succeeded cs = true <->
   zone_requests_pending (snd (@spin_callbacks Samples.runtime Samples.services_up cs n0)) = 0 /\
   effector_checks_pending (snd (@spin_callbacks Samples.runtime Samples.services_up cs n0)) = 0).
Proof.
  apply (@dispatch_once_iff_all_succeed Samples.runtime Samples.services_up 1
           Samples.scan_bin7).
  - reflexivity.
  - simpl. lia.
  - reflexivity.
  - simpl. apply perm_swap.
Defined.

(** C3 as stated fails: for the action [scan] the category of the request
    is [compose], not [scan]. *)
Lemma request_category_is_compose :
  @payload_field Samples.runtime ["request"; "category"] (new_node Samples.scan_bin7)
  = Some (JStr "compose") /\
  @payload_field Samples.runtime ["request"; "category"] (new_node Samples.scan_bin7)
  <> Some (JStr (action Samples.scan_bin7)).
Proof. split; [reflexivity|discriminate]. Qed.

Lemma payload_categories_witness :
  exists payload n',
    @dispatch_arm_task_payload Samples.runtime (new_node Samples.scan_bin7) = (Ret payload, n') /\
    @create_dispatch_arm_task Samples.runtime (new_node Samples.scan_bin7) =
    (Ret {| request_id := "dispatch_arm_task_" ++ @uuid4 Samples.runtime;
            json_msg := @json_dumps Samples.runtime payload |}, n') /\
    path ["request"; "category"] payload = Some (JStr "compose") /\
    path ["request"; "description"; "category"] payload =
    Some (JStr (action (args (new_node Samples.scan_bin7)))).
Proof.
  apply (@payload_categories Samples.runtime (new_node Samples.scan_bin7)).
  reflexivity.
Defined.

(** C4 as stated fails: with [arm_action] and an object name, the payload
    is composed before any zone is known, and the configured action
    contributes no activity at all, so the activities are not in the order
    zone activity (optional), perform_action. *)
Lemma arm_action_with_object_has_no_activity :
  @composed_activities Samples.runtime (new_node Samples.arm_bin7) = Some [] /\
  forall acts1 acts2,
    [] = acts1 ++ acts2 -> fixed_order (action Samples.arm_bin7) acts1 = false.
Proof.
  split; [reflexivity|].
  intros acts1 acts2 E. symmetry in E. apply app_eq_nil in E.
  destruct E as [-> _]. reflexivity.
Qed.

Lemma activities_flat_and_ordered_witness :
  let n := set_object_zone_name (Some "Z3") (new_node Samples.scan_bin7) in
  exists payload n' acts1 acts2,
    @dispatch_arm_task_payload Samples.runtime n = (Ret payload, n') /\
    payload_activities payload = Some (acts1 ++ acts2) /\
    slot_order (action (args n)) (object_name (args n)) (object_zone_name n)
      acts1 = true /\
    (if truthy (action2 (args n)) then
       slot_order (action2 (args n)) (object_name2 (args n))
         (object_zone_name2 n) acts2 = true
     else acts2 = []).
Proof.
  apply (@activities_flat_and_ordered Samples.runtime
           (set_object_zone_name (Some "Z3") (new_node Samples.scan_bin7))).
  reflexivity.
Defined.

Lemma earliest_start_time_millis_witness :
  exists payload n',
    @dispatch_arm_task_payload Samples.runtime (new_node Samples.scan_bin7) = (Ret payload, n') /\
    path ["request"; "unix_millis_earliest_start_time"] payload =
    Some (JInt ((sec (@clock_now Samples.runtime) + start_time Samples.scan_bin7) * 1000 +
                round_div (nanosec (@clock_now Samples.runtime)) (10 ^ 6))) /\
    start_time_millis (@clock_now Samples.runtime) (start_time Samples.scan_bin7) =
    start_time_millis (@clock_now Samples.runtime) 0 + start_time Samples.scan_bin7 * 1000 /\
    2 * Z.abs (round_div (nanosec (@clock_now Samples.runtime)) (10 ^ 6) * 10 ^ 6 -
               nanosec (@clock_now Samples.runtime)) <= 10 ^ 6.
Proof.
  apply (@earliest_start_time_millis Samples.runtime (new_node Samples.scan_bin7)).
  reflexivity.
Defined.


Lemma immediate_dispatch_without_requests_witness :
  exists msg n,
    @TaskRequester Samples.runtime Samples.services_down 0 Samples.arm_bin7 = (Ret tt, n) /\
    published n = [msg] /\ calls n = [] /\
    zone_waits n = 0%nat /\ effector_waits n = 0%nat /\
    zone_requests_pending n = 0 /\ effector_checks_pending n = 0.
Proof.
  apply (@immediate_dispatch_without_requests Samples.runtime Samples.services_down
           0 Samples.arm_bin7); reflexivity.
Defined.

Lemma unknown_zone_emits_nothing_witness :
  @add_action_activities Samples.runtime "arm_action" (Some "bin7") None "{}" ["shelf"] [] =
  (Ret tt, []).
Proof.
  apply (@unknown_zone_emits_nothing Samples.runtime "arm_action" (Some "bin7")
           "{}" ["shelf"] []).
  reflexivity.
Defined.

(** C8 as stated fails: when the zone service never answers, there is no
    bound after which the constructor of [scan_bin7] has stopped waiting or
    has cancelled the outcome. *)
Lemma unreachable_service_is_awaited_forever :
  ~ exists fuel,
      fst (@TaskRequester Samples.runtime Samples.services_down fuel Samples.scan_bin7)
      <> Spin \/
      response (snd (@TaskRequester Samples.runtime Samples.services_down fuel
                       Samples.scan_bin7)) = Cancelled.
Proof.
  intros [fuel Hx].
  destruct (@TaskRequester Samples.runtime Samples.services_down fuel
              Samples.scan_bin7) as [r n0] eqn:T.
  assert (Harm : action Samples.scan_bin7 <> "arm_action") by discriminate.
  destruct (@TaskRequester_gated Samples.runtime Samples.services_down _ _ _ _ Harm T)
    as (_ & _ & R & _ & _ & _).
  simpl in Hx. destruct Hx as [Hx|Hx]; [|congruence].
  apply Hx. clear Hx R Harm.
  unfold TaskRequester, __init__ in T. cbn in T. unfold bind at 1 in T.
  match type of T with
  | context [@send_zone_request ?sv ?f ?o ?s ?n] =>
      destruct (@send_zone_request_spins sv f f o s n) as (F & _);
      [reflexivity|lia|];
      destruct (@send_zone_request sv f o s n) as [[]]; simpl in F;
      try discriminate
  end.
  congruence.
Qed.

Lemma wait_for_service_retries_until_available_witness :
  let n := new_node Samples.scan_bin7 in
  fst (@send_zone_request Samples.services_late 2 "bin7" false n) = Spin /\
  (exists n',
     @send_zone_request Samples.services_late 3 "bin7" false n = (Ret tt, n') /\
     response n' = response n /\
     calls n' = calls n ++ [ZoneRequest "bin7" false] /\
     zone_waits n' = 3%nat) /\
  fst (@send_effector_query Samples.services_late 1 "scan" false n) = Spin /\
  (exists n',
     @send_effector_query Samples.services_late 2 "scan" false n = (Ret tt, n') /\
     response n' = response n /\
     calls n' = calls n ++ [EffectorQuery "" "scan" false] /\
     effector_waits n' = 2%nat).
Proof.
  destruct (@wait_for_service_retries_until_available Samples.services_late
              (new_node Samples.scan_bin7) 2 1)
    as (Z1 & Z2 & E1 & E2).
  - intros j Hj. destruct j as [|[|j]]; [reflexivity|reflexivity|lia].
  - intros j Hj. destruct j as [|j]; [reflexivity|lia].
  - split; [apply (Z1 2%nat "bin7" false); lia|].
    split; [apply (Z2 3%nat "bin7" false); [lia|reflexivity]|].
    split; [apply (E1 1%nat "scan" false); lia|].
    apply (E2 2%nat "scan" false); [lia|reflexivity].
Defined.

(** ** The further properties on sample runs *)

Lemma constructor_sends_planned_requests_witness :
  calls (snd (@TaskRequester Samples.runtime Samples.services_late 3
                Samples.scan_bin7)) =
    requests_of Samples.scan_bin7 /\
  zone_requests_pending
    (snd (@TaskRequester Samples.runtime Samples.services_late 3
            Samples.scan_bin7)) =
    zone_slots (map request_slot (requests_of Samples.scan_bin7)) /\
  effector_checks_pending
    (snd (@TaskRequester Samples.runtime Samples.services_late 3
            Samples.scan_bin7)) =
    effector_slots (map request_slot (requests_of Samples.scan_bin7)).
Proof.
  apply (@constructor_sends_planned_requests Samples.runtime
           Samples.services_late 3 Samples.scan_bin7
           (snd (@TaskRequester Samples.runtime Samples.services_late 3
                   Samples.scan_bin7))).
  vm_compute. reflexivity.
Defined.

Lemma constructor_returns_when_services_are_up_witness :
  exists n0,
    @TaskRequester Samples.runtime Samples.services_late 3 Samples.scan_bin7 =
    (Ret tt, n0) /\
    response n0 = Pending /\ published n0 = [].
Proof.
  apply (@constructor_returns_when_services_are_up Samples.runtime
           Samples.services_late 3 Samples.scan_bin7 2 1).
  - discriminate.
  - intros j Hj. destruct j as [|[|j]]; [lia|lia|reflexivity].
  - intros j Hj. destruct j as [|j]; [lia|reflexivity].
  - lia.
  - lia.
Defined.

Lemma unparsable_description_blocks_dispatch_witness :
  published
    (snd (@spin_callbacks Samples.runtime Samples.services_up
            [EffectorDone false (Some Samples.effector_is_ready);
             ZoneDone false (Some Samples.zone_Z3)]
            (snd (@TaskRequester Samples.runtime Samples.services_up 1
                    Samples.scan_unparsable)))) = [] /\
  (action Samples.scan_unparsable = "arm_action" ->
   exists e,
     fst (@TaskRequester Samples.runtime Samples.services_up 1
            Samples.scan_unparsable) = Raise e).
Proof.
  apply (@unparsable_description_blocks_dispatch Samples.runtime
           Samples.services_up 1 Samples.scan_unparsable).
  reflexivity.
Defined.

Lemma published_payload_independent_of_order_witness :
  let n0 := snd (@TaskRequester Samples.runtime Samples.services_up 1 Samples.scan_bin7) in
  published
    (snd (@spin_callbacks Samples.runtime Samples.services_up
            [EffectorDone false (Some Samples.effector_is_ready);
             ZoneDone false (Some Samples.zone_Z3)] n0)) =
  published
    (snd (@spin_callbacks Samples.runtime Samples.services_up
            [ZoneDone false (Some Samples.zone_Z3);
             EffectorDone false (Some Samples.effector_is_ready)] n0)).
Proof.
  apply (@published_payload_independent_of_order Samples.runtime
           Samples.services_up 1 Samples.scan_bin7).
  - reflexivity.
  - simpl. apply perm_swap.
  - apply perm_swap.
  - reflexivity.
Defined.

Lemma published_payload_carries_confirmed_zone_witness :
  let n0 := snd (@TaskRequester Samples.runtime Samples.services_up 1 Samples.scan_bin7) in
  exists payload rest,
    published
      (snd (@spin_callbacks Samples.runtime Samples.services_up
              [EffectorDone false (Some Samples.effector_is_ready);
               ZoneDone false (Some Samples.zone_Z3)] n0)) =
    [{| request_id := ("dispatch_arm_task_" ++ @uuid4 Samples.runtime)%string;
        json_msg := @json_dumps Samples.runtime payload |}] /\
    payload_activities payload =
    Some (zone_activity "Z3" ["shelf"] ::
          perform_action_activity "scan"
            (JDict (dict_set "zone_name" (JStr "Z3") [])) :: rest).
Proof.
  apply (@published_payload_carries_confirmed_zone Samples.runtime
           Samples.services_up 1 Samples.scan_bin7 _ _ Samples.zone_Z3 []).
  - reflexivity.
  - simpl. apply perm_swap.
  - reflexivity.
  - reflexivity.
  - reflexivity.
  - simpl. auto.
Defined.

Lemma main_reports_cancellation_witness :
  @main Samples.runtime Samples.services_up 1 Samples.scan_bin7
    [Completed (ZoneDone false (Some Samples.zone_Z3));
     Completed (EffectorDone false (Some Samples.effector_not_ready));
     Responded Samples.response_to_task] = Printed TaskCancelled /\
  published
    (snd (@spin_until_future_complete Samples.runtime Samples.services_up
            [Completed (ZoneDone false (Some Samples.zone_Z3));
             Completed (EffectorDone false (Some Samples.effector_not_ready));
             Responded Samples.response_to_task]
            (snd (@TaskRequester Samples.runtime Samples.services_up 1
                    Samples.scan_bin7)))) = [].
Proof.
  apply (@main_reports_cancellation Samples.runtime Samples.services_up 1
           Samples.scan_bin7 _
           [ZoneDone false (Some Samples.zone_Z3)]
           (EffectorDone false (Some Samples.effector_not_ready)) []
           [Responded Samples.response_to_task]).
  - reflexivity.
  - simpl. apply Permutation_refl.
  - reflexivity.
  - reflexivity.
Defined.

Lemma main_prints_matching_response_witness :
  @main Samples.runtime Samples.services_up 1 Samples.scan_bin7
    (map Completed [ZoneDone false (Some Samples.zone_Z3);
                    EffectorDone false (Some Samples.effector_is_ready)] ++
     map Responded ([Samples.response_to_other] ++
                    Samples.response_to_task :: [Samples.response_to_task])) =
  Printed (GotResponse (JDict [])).
Proof.
  apply (@main_prints_matching_response Samples.runtime Samples.services_up 1
           Samples.scan_bin7
           (snd (@TaskRequester Samples.runtime Samples.services_up 1
                   Samples.scan_bin7))
           [ZoneDone false (Some Samples.zone_Z3);
            EffectorDone false (Some Samples.effector_is_ready)]
           [Samples.response_to_other] Samples.response_to_task
           [Samples.response_to_task] (JDict [])).
  - reflexivity.
  - simpl. lia.
  - reflexivity.
  - simpl. apply Permutation_refl.
  - reflexivity.
  - constructor; [discriminate|constructor].
  - reflexivity.
  - reflexivity.
Defined.

Lemma main_without_response_witness :
  @main Samples.runtime Samples.services_up 1 Samples.scan_bin7
    (map Completed [ZoneDone false (Some Samples.zone_Z3);
                    EffectorDone false (Some Samples.effector_is_ready)] ++
     map Responded [Samples.response_to_other]) = Printed DidNotGetAResponse /\
  @main Samples.runtime Samples.services_up 1 Samples.scan_bin7
    (map Completed [ZoneDone false (Some Samples.zone_Z3)]) =
  Printed DidNotGetAResponse.
Proof.
  destruct (@main_without_response Samples.runtime Samples.services_up 1
              Samples.scan_bin7 _ eq_refl) as [Hfull Hpart].
  - simpl. lia.
  - split.
    + apply Hfull.
      * reflexivity.
      * simpl. apply Permutation_refl.
      * reflexivity.
      * constructor; [discriminate|constructor].
    + apply (Hpart [ZoneDone false (Some Samples.zone_Z3)]
               (EffectorDone false (Some Samples.effector_is_ready)) []).
      * simpl. apply Permutation_refl.
      * reflexivity.
Defined.

Lemma payload_request_type_witness :
  exists payload n',
    @dispatch_arm_task_payload Samples.runtime (new_node Samples.scan_bin7) =
    (Ret payload, n') /\
    getitem "type" payload = Some (JStr "dispatch_task_request") /\
    getitem "robot" payload = None /\
    getitem "fleet" payload = None.
Proof.
  apply (@payload_request_type Samples.runtime (new_node Samples.scan_bin7)).
  reflexivity.
Defined.

Lemma non_object_description_ends_in_type_error_witness :
  @main Samples.runtime_with_lists Samples.services_up 1 Samples.scan_list
    (map Completed [EffectorDone false (Some Samples.effector_is_ready);
                    ZoneDone false (Some Samples.zone_Z3)] ++
     [Responded Samples.response_to_task]) = Uncaught (Builtin TypeError) /\
  published
    (snd (@spin_callbacks Samples.runtime_with_lists Samples.services_up
            [EffectorDone false (Some Samples.effector_is_ready);
             ZoneDone false (Some Samples.zone_Z3)]
            (snd (@TaskRequester Samples.runtime_with_lists Samples.services_up
                    1 Samples.scan_list)))) = [].
Proof.
  apply (@non_object_description_ends_in_type_error Samples.runtime_with_lists
           Samples.services_up 1 Samples.scan_list
           (snd (@TaskRequester Samples.runtime_with_lists Samples.services_up
                   1 Samples.scan_list))
           [EffectorDone false (Some Samples.effector_is_ready);
            ZoneDone false (Some Samples.zone_Z3)]
           [Responded Samples.response_to_task] (JList [])).
  - vm_compute. reflexivity.
  - discriminate.
  - reflexivity.
  - reflexivity.
  - reflexivity.
  - simpl. apply perm_swap.
  - reflexivity.
Defined.

Lemma start_time_millis_within_the_second_witness :
  (1700000000 + 30) * 1000 <=
    start_time_millis (@clock_now Samples.runtime_with_lists) 30
    <= (1700000000 + 30) * 1000 + 1000 /\
  (start_time_millis (@clock_now Samples.runtime_with_lists) 30 =
   (1700000000 + 30) * 1000 + 1000 <->
   999500000 <= 999500000).
Proof.
  apply (start_time_millis_within_the_second
           (@clock_now Samples.runtime_with_lists) 30).
  simpl. lia.
Defined.

(** The effector check of [scan_bin7] fails; the zone completion that
    arrives afterwards is not run: the counters stay at one each and no
    zone is stored. *)
Lemma late_completions_are_no_ops_witness :
  let n0 := snd (@TaskRequester Samples.runtime Samples.services_up 1
                   Samples.scan_bin7) in
  let failed := [Completed (EffectorDone false (Some Samples.effector_not_ready))] in
  let late := [Completed (ZoneDone false (Some Samples.zone_Z3))] in
  let run := @spin_until_future_complete Samples.runtime Samples.services_up in
  (response (snd (run failed n0)) = Cancelled /\
   zone_requests_pending (snd (run failed n0)) = 1 /\
   effector_checks_pending (snd (run failed n0)) = 1 /\
   object_zone_name (snd (run failed n0)) = None) /\
  (run (failed ++ late) n0 = run failed n0 /\
   zone_requests_pending (snd (run (failed ++ late) n0)) =
   zone_requests_pending (snd (run failed n0)) /\
   effector_checks_pending (snd (run (failed ++ late) n0)) =
   effector_checks_pending (snd (run failed n0)) /\
   published (snd (run (failed ++ late) n0)) =
   published (snd (run failed n0)) /\
   response (snd (run (failed ++ late) n0)) = Cancelled).
Proof.
  intros n0 failed late run. split.
  - vm_compute. auto.
  - apply (@late_completions_are_no_ops Samples.runtime Samples.services_up
             n0 failed late).
    reflexivity.
Defined.

End ArmTaskProperties.

(** * Properties of dispatch_couple_decouple_action.py *)

Module CoupleDecoupleProperties.
Import DispatchCoupleDecoupleAction.

Section Properties.
Context `{Runtime}.

(** The constructor up to the check of the action: it has logged, and set
    the sim-time parameter when asked to, and done nothing else. *)
Lemma before_the_action_check a :
  exists l,
    TaskRequester a =
    (if negb (existsb (String.eqb (action a)) ["couple"; "decouple"]) then
       raise (ValueError "Action should be 'couple' or 'decouple'")
     else
       (raise (AttributeError "'Namespace' object has no attribute 'zone'")
        : M Node unit))
      (set_log l (set_sim_time (use_sim_time a) (new_node a))).
Proof.
  unfold TaskRequester, __init__, args_zone, logger, create_subscription, publish.
  unfold bind, gets, modify, ret, raise. simpl.
  destruct (use_sim_time a);
    destruct (truthy_opt (fleet a) && truthy_opt (robot a)); simpl;
    destruct (String.eqb (action a) "couple"); simpl;
    try (eexists; reflexivity);
    destruct (String.eqb (action a) "decouple"); simpl;
    eexists; reflexivity.
Qed.

(** C9.  For a configuration whose action is neither [couple] nor
    [decouple], the constructor raises the [ValueError] before it creates
    the subscription and before it publishes: no task message is
    published, and the future, the arguments, the publications and the
    subscriptions of the node are as they were when it was created. *)
Theorem unknown_action_fails_fast a :
  action a <> "couple" ->
  action a <> "decouple" ->
  exists n,
    TaskRequester a =
    (Raise (ValueError "Action should be 'couple' or 'decouple'"), n) /\
    published n = [] /\ subscriptions n = 0%nat /\
    response n = Pending /\ args n = a.
Proof.
  intros Hc Hd. apply String.eqb_neq in Hc, Hd.
  destruct (before_the_action_check a) as [l ->].
  simpl. rewrite Hc, Hd. simpl. unfold raise.
  eexists. split; [reflexivity|]. repeat split.
Qed.

(** The script reads [self.args.zone], which the parser never defines:
    with a known action the constructor raises, too, and publishes
    nothing. *)
Lemma known_action_raises a :
  action a = "couple" \/ action a = "decouple" ->
  exists n,
    TaskRequester a =
    (Raise (AttributeError "'Namespace' object has no attribute 'zone'"), n) /\
    published n = [].
Proof.
  intros Hk.
  destruct (before_the_action_check a) as [l ->].
  assert (E : existsb (String.eqb (action a)) ["couple"; "decouple"] = true).
  { destruct Hk as [-> | ->]; reflexivity. }
  rewrite E. simpl. unfold raise. eexists. split; reflexivity.
Qed.

(** X15.  The constructor of this script never returns and never
    publishes, whatever the command line: an action other than couple and
    decouple raises [ValueError], and the two known actions raise
    [AttributeError] on [self.args.zone]; in both cases before the
    subscription is created and before anything is published. *)
Theorem constructor_never_publishes a :
  exists e n,
    TaskRequester a = (Raise e, n) /\
    published n = [] /\ subscriptions n = 0%nat /\
    (e = ValueError "Action should be 'couple' or 'decouple'" <->
     action a <> "couple" /\ action a <> "decouple").
Proof.
  destruct (before_the_action_check a) as [l ->].
  simpl.
  destruct (String.eqb (action a) "couple") eqn:Ec; simpl.
  - apply String.eqb_eq in Ec. eexists. eexists.
    split; [reflexivity|]. repeat split; try discriminate.
    intros [Bad _]. congruence.
  - destruct (String.eqb (action a) "decouple") eqn:Ed; simpl.
    + apply String.eqb_eq in Ed. eexists. eexists.
      split; [reflexivity|]. repeat split; try discriminate.
      intros [_ Bad]. congruence.
    + apply String.eqb_neq in Ec, Ed. eexists. eexists.
      split; [reflexivity|]. repeat split; assumption.
Qed.

End Properties.

Lemma unknown_action_fails_fast_witness :
  exists n,
    @TaskRequester Samples.runtime Samples.dance =
    (Raise (ValueError "Action should be 'couple' or 'decouple'"), n) /\
    published n = [] /\ subscriptions n = 0%nat /\
    response n = Pending /\ args n = Samples.dance.
Proof.
  apply (@unknown_action_fails_fast Samples.runtime Samples.dance);
    discriminate.
Defined.

End CoupleDecoupleProperties.
